(** * The API clients of code-factory: a shallow embedding

    The repository holds three HTTP clients that share one response type:
    - [useApiClient] (a hook returning [request]),
    - a fluent [ApiClient] builder over [fetch] ([send], [checkResponse]),
    - an [ApiClient] wrapping an axios instance ([setInterceptors], [send]).

    The embedding follows the TypeScript text.  JavaScript values are the
    inductive [JsValue]; an object that a caller hands to a client (a
    parameter object, a headers object) lives in a heap and is held by
    reference, so that what the client writes to it is seen by the
    caller; [async] code is sequential state passing with an explicit
    thrown outcome; the remote end is an arbitrary deterministic state
    machine.  Logging ([console.log], [Logger]) does not touch that state
    and is left out. *)

From Stdlib Require Import ZArith String Ascii List DecimalString Lia.
From stdpp Require Import gmap strings list.
Import ListNotations.

Open Scope Z_scope.

(** ** JavaScript values and the built-ins the clients call *)

Module Js.

(** The values that flow through the clients.  Numbers are restricted to
    integers that print in plain decimal; arrays and functions are left
    out.  [VUndefined] is also what an optional field holds when absent. *)
#[warnings="-register-all"]
Inductive JsValue : Type :=
| VUndefined
| VNull
| VBool (b : bool)
| VNum (n : Z)
| VStr (s : string)
| VObj (props : list (string * JsValue)).

(** An object is its own properties in [Object.keys] order. *)
Abbreviation Obj := (list (string * JsValue)).

(** ToBoolean: what [if (v)], [!v] and [v && _] look at. *)
Definition truthy (v : JsValue) : bool :=
  match v with
  | VUndefined | VNull => false
  | VBool b => b
  | VNum n => negb (n =? 0)
  | VStr s => negb (String.eqb s EmptyString)
  | VObj _ => true
  end.

(** [v === null || v === undefined], the test behind [??] and [?.]. *)
Definition nullish (v : JsValue) : bool :=
  match v with
  | VUndefined | VNull => true
  | _ => false
  end.

(** ToString, as template literals and [String.prototype.replace] apply it. *)
Definition ToString (v : JsValue) : string :=
  match v with
  | VUndefined => "undefined"
  | VNull => "null"
  | VBool true => "true"
  | VBool false => "false"
  | VNum n => NilZero.string_of_int (Z.to_int n)
  | VStr s => s
  | VObj _ => "[object Object]"
  end.

(** Own-property access on an object: [o[k]]; a missing key reads
    [undefined]. *)
Fixpoint obj_get (k : string) (o : Obj) : JsValue :=
  match o with
  | [] => VUndefined
  | (k', v) :: o' => if String.eqb k k' then v else obj_get k o'
  end.


(** [delete o[k]]. *)
Definition obj_delete (k : string) (o : Obj) : Obj :=
  List.filter (fun kv => negb (String.eqb k (fst kv))) o.

(** [o[k] = v]: an existing key keeps its place, a new one goes last. *)
Fixpoint obj_set (k : string) (v : JsValue) (o : Obj) : Obj :=
  match o with
  | [] => [(k, v)]
  | (k', v') :: o' =>
      if String.eqb k k' then (k, v) :: o' else (k', v') :: obj_set k v o'
  end.

Definition Object_keys (o : Obj) : list string := map fst o.

(** [v?.k] and [v.k] on a non-nullish value: primitives have no such
    property. *)
Definition get_prop (v : JsValue) (k : string) : JsValue :=
  match v with
  | VObj props => obj_get k props
  | _ => VUndefined
  end.

(** [String.prototype.includes]. *)
Fixpoint includes (s sub : string) : bool :=
  if String.prefix sub s then true
  else match s with
       | EmptyString => false
       | String _ s' => includes s' sub
       end.

Fixpoint drop_chars (n : nat) (s : string) : string :=
  match n, s with
  | O, _ => s
  | S n', String _ s' => drop_chars n' s'
  | S _, EmptyString => EmptyString
  end.

(** The text before and after the first occurrence of [pat] in [s]. *)
Fixpoint split_first (pat s : string) : option (string * string) :=
  if String.prefix pat s then Some (EmptyString, drop_chars (String.length pat) s)
  else match s with
       | EmptyString => None
       | String c s' =>
           match split_first pat s' with
           | Some (before, after) => Some (String c before, after)
           | None => None
           end
       end.

(** GetSubstitution for a string pattern (no captures): [$$], [$&],
    [$`] and [$'] are expanded, every other character is literal. *)
Fixpoint GetSubstitution (matched before after template : string) : string :=
  match template with
  | EmptyString => EmptyString
  | String c rest =>
      if Ascii.eqb c "$" then
        match rest with
        | String d rest' =>
            if Ascii.eqb d "$" then
              String "$" (GetSubstitution matched before after rest')
            else if Ascii.eqb d "&" then
              matched +:+ GetSubstitution matched before after rest'
            else if Ascii.eqb d "`" then
              before +:+ GetSubstitution matched before after rest'
            else if Ascii.eqb d "'" then
              after +:+ GetSubstitution matched before after rest'
            else String c (GetSubstitution matched before after rest)
        | EmptyString => String c EmptyString
        end
      else String c (GetSubstitution matched before after rest)
  end.

(** [s.replace(pat, v)] with a string pattern: only the first occurrence
    is replaced, by the substitution of [ToString v]. *)
Definition replace (s pat : string) (v : JsValue) : string :=
  match split_first pat s with
  | Some (before, after) =>
      before +:+ GetSubstitution pat before after (ToString v) +:+ after
  | None => s
  end.

(** The token [`{${key}}`]. *)
Definition placeholder (key : string) : string := "{" +:+ key +:+ "}".

Definition hex_digit (upper : bool) (n : N) : ascii :=
  ascii_of_N (if (n <? 10)%N then 48 + n
              else if upper then 55 + n else 87 + n)%N.

Definition is_alnum (c : ascii) : bool :=
  let n := N_of_ascii c in
  ((48 <=? n) && (n <=? 57) || (65 <=? n) && (n <=? 90)
   || (97 <=? n) && (n <=? 122))%N.

(** One byte under the application/x-www-form-urlencoded serializer. *)
Definition form_encode_byte (c : ascii) : string :=
  if Ascii.eqb c " " then "+"
  else if is_alnum c || Ascii.eqb c "*" || Ascii.eqb c "-"
          || Ascii.eqb c "." || Ascii.eqb c "_"
  then String c EmptyString
  else let n := N_of_ascii c in
       String "%" (String (hex_digit true (n / 16))
                     (String (hex_digit true (n mod 16)) EmptyString)).

Fixpoint form_encode (s : string) : string :=
  match s with
  | EmptyString => EmptyString
  | String c s' => form_encode_byte c +:+ form_encode s'
  end.

(** [new URLSearchParams(o).toString()]: every own property, in order,
    its value converted by ToString. *)
Definition URLSearchParams_toString (o : Obj) : string :=
  String.concat "&"
    (map (fun kv => form_encode (fst kv) +:+ "=" +:+ form_encode (ToString (snd kv))) o).

Definition dquote : ascii := ascii_of_N 34.
Definition backslash : ascii := ascii_of_N 92.

(** A two-character escape [\c]. *)
Definition json_short_escape (c : ascii) : string :=
  String backslash (String c EmptyString).

Definition json_escape_char (c : ascii) : string :=
  let n := N_of_ascii c in
  if Ascii.eqb c dquote then json_short_escape dquote
  else if Ascii.eqb c backslash then json_short_escape backslash
  else if (n =? 8)%N then json_short_escape "b"
  else if (n =? 12)%N then json_short_escape "f"
  else if (n =? 10)%N then json_short_escape "n"
  else if (n =? 13)%N then json_short_escape "r"
  else if (n =? 9)%N then json_short_escape "t"
  else if (n <? 32)%N then
    String backslash
      (String "u" (String "0" (String "0"
         (String (hex_digit false (n / 16))
            (String (hex_digit false (n mod 16)) EmptyString)))))
  else String c EmptyString.

Fixpoint json_escape (s : string) : string :=
  match s with
  | EmptyString => EmptyString
  | String c s' => json_escape_char c +:+ json_escape s'
  end.

(** QuoteJSONString. *)
Definition json_quote (s : string) : string :=
  String dquote (json_escape s) +:+ String dquote EmptyString.

(** SerializeJSONProperty: [None] is the [undefined] result, for which an
    object member is skipped. *)
Fixpoint json_value (v : JsValue) : option string :=
  match v with
  | VUndefined => None
  | VNull => Some "null"
  | VBool _ | VNum _ => Some (ToString v)
  | VStr s => Some (json_quote s)
  | VObj props =>
      Some ("{" +:+ String.concat ","
              ((fix members (ps : list (string * JsValue)) : list string :=
                  match ps with
                  | [] => []
                  | (k, x) :: ps' =>
                      match json_value x with
                      | Some t => (json_quote k +:+ ":" +:+ t) :: members ps'
                      | None => members ps'
                      end
                  end) props) +:+ "}")
  end.

(** [JSON.stringify(o)] on an object. *)
Definition JSON_stringify (o : Obj) : string :=
  default EmptyString (json_value (VObj o)).

End Js.

Import Js.

(** ** Thrown values and sequential effectful code *)

Module Effect.

(** What a [catch] clause can receive.  [throw null] and [throw undefined]
    are kept apart because reading a property of them throws again; of any
    other thrown value only the fields the clients read are kept. *)
Inductive Thrown : Type :=
| ThrownNullish
| ThrownValue (name : string) (status : option Z) (statusText : option string).

(** The TypeError of a rejected [fetch] and of a property read on
    [null]/[undefined]; the SyntaxError of [json()] on a body that is not
    JSON.  None carries [status] or [statusText]. *)
Definition TypeError : Thrown := ThrownValue "TypeError" None None.
Definition SyntaxError : Thrown := ThrownValue "SyntaxError" None None.

Inductive Outcome (A : Type) : Type :=
| Returned (a : A)
| Threw (e : Thrown).

Arguments Returned {A} a.
Arguments Threw {A} e.

(** A computation over a mutable state [S] that returns or throws. *)
Definition M (S A : Type) : Type := S -> Outcome A * S.

Definition ret {S A} (a : A) : M S A := fun s => (Returned a, s).

Definition throw {S A} (e : Thrown) : M S A := fun s => (Threw e, s).

Definition bind {S A B} (c : M S A) (k : A -> M S B) : M S B :=
  fun s => match c s with
           | (Returned a, s') => k a s'
           | (Threw e, s') => (Threw e, s')
           end.

(** [try { body } catch (e) { handler }]. *)
Definition try_catch {S A} (body : M S A) (handler : Thrown -> M S A) : M S A :=
  fun s => match body s with
           | (Returned a, s') => (Returned a, s')
           | (Threw e, s') => handler e s'
           end.

Definition gets {S A} (f : S -> A) : M S A := fun s => (Returned (f s), s).

Definition modify {S} (f : S -> S) : M S unit := fun s => (Returned tt, f s).

(** [l.forEach(f)]: in order, abandoned at the first throw. *)
Fixpoint forEach {S A} (f : A -> M S unit) (l : list A) : M S unit :=
  match l with
  | [] => ret tt
  | x :: l' => bind (f x) (fun _ => forEach f l')
  end.

End Effect.

Import Effect.

Declare Scope effect_scope.
Delimit Scope effect_scope with eff.
Notation "x <- c ;; k" := (bind c (fun x => k))
  (at level 100, c at next level, right associativity) : effect_scope.
Notation "c ;;; k" := (bind c (fun _ => k))
  (at level 100, right associativity) : effect_scope.

(** ** ApiResponse and its reaction hooks (both source files, same text) *)

Module Api.

Record ApiResponse : Type := mkApiResponse {
  status : Z;
  statusText : string;
  data : JsValue;
  isSuccess : bool;
  isTokenExpired : bool
}.

(** The constructor: the two flags are computed here and nowhere else. *)
Definition new_ApiResponse (status : Z) (statusText : string) (data : JsValue)
  : ApiResponse :=
  {| status := status;
     statusText := statusText;
     data := data;
     isSuccess := (status =? 200) || (status =? 201) || (status =? 204);
     isTokenExpired := status =? 401 |}.

Record SuccessResponse : Type := new_SuccessResponse {
  statusCode : Z;
  message : string;
  success_data : JsValue
}.

(** The argument of an [onFail] callback. *)
Record FailInfo : Type := mkFailInfo {
  fail_status : Z;
  fail_statusText : string
}.

(** The hooks run a callback of the caller, which acts on the caller's own
    state [E] and may throw; each hook returns [this]. *)
Definition onFail {E} (this : ApiResponse) (callback : FailInfo -> M E unit)
  : M E ApiResponse :=
  if isTokenExpired this then ret this
  else ((if negb (isSuccess this)
         then callback {| fail_status := status this;
                          fail_statusText := statusText this |}
         else ret tt) ;;; ret this)%eff.

Definition onSuccess {E} (this : ApiResponse)
  (callback : SuccessResponse -> M E unit) : M E ApiResponse :=
  if isTokenExpired this then ret this
  else ((if isSuccess this && truthy (data this)
         then let response :=
                new_SuccessResponse (status this) (statusText this) (data this) in
              callback response
         else ret tt) ;;; ret this)%eff.

Definition onTokenExpired {E} (this : ApiResponse) (callback : unit -> M E unit)
  : M E ApiResponse :=
  ((if isTokenExpired this then callback tt else ret tt) ;;; ret this)%eff.

(** Ghost instrumentation: a callback that only counts its invocations. *)
Definition count_call {A} (_ : A) : M nat unit := modify S.

Definition calls (hook : M nat ApiResponse) : nat := snd (hook O).

End Api.

Import Api.

(** ** The fetch-based world shared by the hook and the fluent client *)

Module Http.

Inductive httpMethod : Type := get | post | put | patch | delete.

Definition is_get (m : httpMethod) : bool :=
  match m with
  | get => true
  | _ => false
  end.

End Http.

Abbreviation httpMethod := Http.httpMethod.

(** A reference to an object of the caller. *)
Abbreviation loc := nat.

(** What [fetch(url, init)] is handed. *)
Record Request : Type := mkRequest {
  req_url : string;
  req_method : httpMethod;
  req_headers : gmap string string;
  req_body : option string
}.

(** What comes back: no response at all (the promise rejects), or a
    response whose body [json()] parses ([Some]) or rejects ([None]). *)
Inductive FetchResult : Type :=
| NetworkFailure
| Responded (status : Z) (statusText : string) (body : option JsValue).

Record Response : Type := mkResponse {
  resp_status : Z;
  resp_statusText : string;
  resp_body : option JsValue
}.

(** The state the clients run in.  [heap] holds the parameter objects and
    [header_objs] the headers objects of the caller (a headers object is
    a string-to-string record; it is never also a parameter object),
    [net] is the state of the remote end, [caller] is the state that
    interceptors and callbacks of the caller act on.  [sent] and
    [refreshes] are ghost: the requests handed to [fetch], oldest first,
    and the number of [refreshAccessToken] calls. *)
Record World (N E : Type) : Type := mkWorld {
  heap : list Obj;
  header_objs : list (gmap string string);
  net : N;
  sent : list Request;
  refreshes : nat;
  caller : E
}.

Arguments mkWorld {N E}.
Arguments heap {N E}.
Arguments header_objs {N E}.
Arguments net {N E}.
Arguments sent {N E}.
Arguments refreshes {N E}.
Arguments caller {N E}.

(** An interceptor is a closure of the caller: it acts on the caller's
    state, and it may throw. *)
Definition Interceptor (E : Type) : Type := M E unit.

Section FetchWorld.

Context {N E : Type}.

Definition set_heap (h : list Obj) (w : World N E) : World N E :=
  mkWorld h (header_objs w) (net w) (sent w) (refreshes w) (caller w).

Definition set_header_objs (hs : list (gmap string string)) (w : World N E)
  : World N E :=
  mkWorld (heap w) hs (net w) (sent w) (refreshes w) (caller w).

Definition set_caller (e : E) (w : World N E) : World N E :=
  mkWorld (heap w) (header_objs w) (net w) (sent w) (refreshes w) e.

Definition count_refresh (w : World N E) : World N E :=
  mkWorld (heap w) (header_objs w) (net w) (sent w) (Datatypes.S (refreshes w))
    (caller w).

(** The object a reference points to. *)
Definition obj_at (l : loc) (w : World N E) : Obj := default [] (heap w !! l).

(** [delete o[key]] through the reference [l]. *)
Definition delete_at (l : loc) (key : string) (w : World N E) : World N E :=
  set_heap (<[l := obj_delete key (obj_at l w)]> (heap w)) w.

(** The headers object a reference points to, and the assignment
    [h[key] = value] through the reference [l]. *)
Definition headers_at (l : loc) (w : World N E) : gmap string string :=
  default ∅ (header_objs w !! l).

Definition set_header_at (l : loc) (key value : string) (w : World N E)
  : World N E :=
  set_header_objs (<[l := <[key := value]> (headers_at l w)]> (header_objs w)) w.

(** An object literal: a new object at the next free reference. *)
Definition alloc (o : Obj) (w : World N E) : loc * World N E :=
  (length (heap w), set_heap (heap w ++ [o]) w).

(** Running a closure of the caller. *)
Definition call {A} (c : M E A) : M (World N E) A :=
  fun w => let '(r, e) := c (caller w) in (r, set_caller e w).

(** [await fetch(...)] against the remote end [serve]. *)
Definition fetch (serve : Request -> N -> FetchResult * N) (req : Request)
  : M (World N E) Response :=
  fun w =>
    let '(res, n) := serve req (net w) in
    let w' := mkWorld (heap w) (header_objs w) n (sent w ++ [req]) (refreshes w)
                (caller w) in
    match res with
    | NetworkFailure => (Threw TypeError, w')
    | Responded st tx body => (Returned (mkResponse st tx body), w')
    end.

(** [await response.json()]. *)
Definition json {S} (r : Response) : M S JsValue :=
  match resp_body r with
  | Some v => ret v
  | None => throw SyntaxError
  end.

End FetchWorld.

(** ** useApiClient: the hook *)

Module UseApiClient.

(** The argument of [request].  [data] and [headers], when given, are
    objects of the caller: the config holds references to them. *)
Record apiClientConfig (E : Type) : Type := mkApiClientConfig {
  method : httpMethod;
  url : string;
  data : option loc;
  token : option string;
  headers : option loc;
  interceptor : option (list (Interceptor E))
}.

Arguments mkApiClientConfig {E}.
Arguments method {E}.
Arguments url {E}.
Arguments data {E}.
Arguments token {E}.
Arguments headers {E}.
Arguments interceptor {E}.

(** The [headers] member of the local config: the object the caller
    passed, which the config shares with the caller, or the object literal
    of the default, to which nothing else refers. *)
Inductive ConfigHeaders : Type :=
| CallerHeaders (l : loc)
| OwnHeaders (h : gmap string string).

(** The local [config] object of [request]: defaults filled in. *)
Record Config (E : Type) : Type := mkConfig {
  c_method : httpMethod;
  c_url : string;
  c_data : option loc;
  c_headers : ConfigHeaders;
  c_token : option string;
  c_interceptor : list (Interceptor E)
}.

Arguments mkConfig {E}.
Arguments c_method {E}.
Arguments c_url {E}.
Arguments c_data {E}.
Arguments c_headers {E}.
Arguments c_token {E}.
Arguments c_interceptor {E}.

Section Hook.

Context {N E : Type}.
Variable serve : Request -> N -> FetchResult * N.
Variable REACT_APP_API_URL : option string.

Definition baseUrl : string := default EmptyString REACT_APP_API_URL.

Definition set_url (u : string) (c : Config E) : Config E :=
  mkConfig (c_method c) u (c_data c) (c_headers c) (c_token c) (c_interceptor c).

Definition set_headers (h : ConfigHeaders) (c : Config E) : Config E :=
  mkConfig (c_method c) (c_url c) (c_data c) h (c_token c) (c_interceptor c).

(** The body of the [forEach] callback in [setUrlParams]. *)
Definition setUrlParams_step (l : loc) (s : Config E * World N E) (key : string)
  : Config E * World N E :=
  let '(config, w) := s in
  if includes (c_url config) (placeholder key) then
    (set_url (replace (c_url config) (placeholder key) (obj_get key (obj_at l w))) config,
     delete_at l key w)
  else s.

Definition setUrlParams (config : Config E) (w : World N E)
  : Config E * World N E :=
  match c_data config with
  | None => (config, w)
  | Some l => fold_left (setUrlParams_step l) (Object_keys (obj_at l w)) (config, w)
  end.

Definition setQueryParams (config : Config E) (w : World N E) : Config E :=
  match c_data config with
  | None => config
  | Some l =>
      if negb (Http.is_get (c_method config)) then config
      else let params := URLSearchParams_toString (obj_at l w) in
           set_url (c_url config +:+ "?" +:+ params) config
  end.

(** The [body] member of the [fetch] init object. *)
Definition request_body (config : Config E) (w : World N E) : option string :=
  match c_data config with
  | Some l =>
      if negb (Http.is_get (c_method config))
      then Some (JSON_stringify (obj_at l w))
      else None
  | None => None
  end.

Definition truthy_token (t : option string) : bool :=
  match t with
  | Some s => negb (String.eqb s EmptyString)
  | None => false
  end.

(** The object literal that [request] starts from: [data] and [headers]
    are the caller's objects themselves, not copies. *)
Definition local_config (_config : apiClientConfig E) : Config E :=
  {| c_method := method _config;
     c_url := url _config;
     c_data := data _config;
     c_headers :=
       match headers _config with
       | Some l => CallerHeaders l
       | None => OwnHeaders {["Content-Type" := "application/json"]}
       end;
     c_token := token _config;
     c_interceptor := default [] (interceptor _config) |}.

(** [config.token && (config.headers['Authorization'] = ...)]: an
    assignment into the headers object, which is the caller's own when
    the caller passed one. *)
Definition set_Authorization (config : Config E) (w : World N E)
  : Config E * World N E :=
  if truthy_token (c_token config) then
    let bearer := "Bearer " +:+ default EmptyString (c_token config) in
    match c_headers config with
    | CallerHeaders l => (config, set_header_at l "Authorization" bearer w)
    | OwnHeaders h =>
        (set_headers (OwnHeaders (<["Authorization" := bearer]> h)) config, w)
    end
  else (config, w).

(** [{...config.headers}], the [headers] member of the [fetch] init
    object: a copy of the headers object as it is at that moment. *)
Definition spread_headers (config : Config E) (w : World N E) : gmap string string :=
  match c_headers config with
  | CallerHeaders l => headers_at l w
  | OwnHeaders h => h
  end.

(** The [try] block of [request]. *)
Definition request_try (_config : apiClientConfig E) : M (World N E) ApiResponse :=
  fun w =>
    let config := local_config _config in
    let '(config, w) := setUrlParams config w in
    let config := setQueryParams config w in
    let '(config, w) := set_Authorization config w in
    (forEach call (c_interceptor config) ;;;
     headers <- gets (spread_headers config) ;;
     body <- gets (request_body config) ;;
     fetchResponse <- fetch serve
       {| req_url := baseUrl +:+ c_url config;
          req_method := c_method config;
          req_headers := headers;
          req_body := body |} ;;
     data <- json fetchResponse ;;
     ret (new_ApiResponse (resp_status fetchResponse)
            (resp_statusText fetchResponse) data))%eff w.

(** The [catch (e)] clause: [e.status ?? 500] throws a TypeError when [e]
    itself is [null] or [undefined]. *)
Definition request_catch (e : Thrown) : M (World N E) ApiResponse :=
  match e with
  | ThrownNullish => throw TypeError
  | ThrownValue _ st tx =>
      ret (new_ApiResponse (default 500 st)
             (default "Internal Server Error!" tx) VUndefined)
  end.

Definition request (_config : apiClientConfig E) : M (World N E) ApiResponse :=
  try_catch (request_try _config) request_catch.

End Hook.

End UseApiClient.

(** ** The fluent ApiClient over fetch *)

Module FluentClient.

Record ApiClient (E : Type) : Type := mkApiClient {
  baseUrl : string;
  httpMethod : Http.httpMethod;
  url : string;
  data : option loc;
  headers : gmap string string;
  token : JsValue;
  interceptor : list (Interceptor E)
}.

Arguments mkApiClient {E}.
Arguments baseUrl {E}.
Arguments httpMethod {E}.
Arguments url {E}.
Arguments data {E}.
Arguments headers {E}.
Arguments token {E}.
Arguments interceptor {E}.

Section Builder.

Context {E : Type}.

(** [new ApiClient(baseUrl)]; the argument defaults to
    [process.env.REACT_APP_API_URL ?? ''] (the value [env] here). *)
Definition new_ApiClient (env : option string) (baseUrl : option string)
  : ApiClient E :=
  {| baseUrl := default (default EmptyString env) baseUrl;
     httpMethod := Http.get;
     url := EmptyString;
     data := None;
     headers := {["Content-Type" := "application/json"]};
     token := VUndefined;
     interceptor := [] |}.

Definition setMethod (method : Http.httpMethod) (this : ApiClient E) : ApiClient E :=
  mkApiClient (baseUrl this) method (url this) (data this) (headers this)
    (token this) (interceptor this).

(** The field update [this.url = u]. *)
Definition set_url (u : string) (this : ApiClient E) : ApiClient E :=
  mkApiClient (baseUrl this) (httpMethod this) u (data this) (headers this)
    (token this) (interceptor this).

Definition setUrl (u : string) (this : ApiClient E) : ApiClient E :=
  set_url (baseUrl this +:+ u) this.

(** [setData(data)] and the field update [this.data = d]: the reference is
    stored, the object is not copied. *)
Definition set_data (d : option loc) (this : ApiClient E) : ApiClient E :=
  mkApiClient (baseUrl this) (httpMethod this) (url this) d (headers this)
    (token this) (interceptor this).

Definition setData (d : loc) (this : ApiClient E) : ApiClient E :=
  set_data (Some d) this.

(** The field update [this.token = t]. *)
Definition set_token (t : JsValue) (this : ApiClient E) : ApiClient E :=
  mkApiClient (baseUrl this) (httpMethod this) (url this) (data this)
    (headers this) t (interceptor this).

Definition setToken (t : JsValue) (this : ApiClient E) : ApiClient E :=
  mkApiClient (baseUrl this) (httpMethod this) (url this) (data this)
    (<["Authorization" := "Bearer " +:+ ToString t]> (headers this))
    t (interceptor this).

(** [{...this.headers, ...header}]: the added header wins. *)
Definition addHeader (header : gmap string string) (this : ApiClient E)
  : ApiClient E :=
  mkApiClient (baseUrl this) (httpMethod this) (url this) (data this)
    (header ∪ headers this) (token this) (interceptor this).

Definition addInterceptor (i : Interceptor E) (this : ApiClient E) : ApiClient E :=
  mkApiClient (baseUrl this) (httpMethod this) (url this) (data this)
    (headers this) (token this) (interceptor this ++ [i]).

End Builder.

Section Send.

Context {N E : Type}.
Variable serve : Request -> N -> FetchResult * N.
Variable REACT_APP_API_URL : option string.

(** The client object together with the world it runs in. *)
Definition St : Type := ApiClient E * World N E.

(** The body of the [forEach] callback in [setUrlParams]. *)
Definition setUrlParams_step (l : loc) (s : St) (key : string) : St :=
  let '(this, w) := s in
  match data this with
  | None => s
  | Some _ =>
      if includes (url this) (placeholder key) then
        (set_url (replace (url this) (placeholder key) (obj_get key (obj_at l w))) this,
         delete_at l key w)
      else s
  end.

Definition setUrlParams (s : St) : St :=
  let '(this, w) := s in
  match data this with
  | None => s
  | Some l => fold_left (setUrlParams_step l) (Object_keys (obj_at l w)) s
  end.

Definition setQueryParams (s : St) : St :=
  let '(this, w) := s in
  match data this with
  | None => s
  | Some l =>
      if negb (Http.is_get (httpMethod this)) then s
      else let params := URLSearchParams_toString (obj_at l w) in
           (set_data None (set_url (url this +:+ "?" +:+ params) this), w)
  end.

(** The [body] member of the RequestInit built by [send]. *)
Definition send_body (s : St) : option string :=
  let '(this, w) := s in
  match data this with
  | Some l =>
      if negb (Http.is_get (httpMethod this))
      then Some (JSON_stringify (obj_at l w))
      else None
  | None => None
  end.

(** A computation on the world, run from a method of the client. *)
Definition in_world {A} (c : M (World N E) A) : M St A :=
  fun s => let '(r, w) := c (snd s) in (r, (fst s, w)).

(** The [try] block of [send]. *)
Definition send_try : M St ApiResponse :=
  (modify setUrlParams ;;;
   modify setQueryParams ;;;
   method <- gets (fun s => httpMethod (fst s)) ;;
   headers <- gets (fun s => headers (fst s)) ;;
   body <- gets send_body ;;
   interceptors <- gets (fun s => interceptor (fst s)) ;;
   forEach (fun i => in_world (call i)) interceptors ;;;
   url <- gets (fun s => url (fst s)) ;;
   fetchResponse <- in_world (fetch serve
     {| req_url := url;
        req_method := method;
        req_headers := headers;
        req_body := body |}) ;;
   response <- json fetchResponse ;;
   ret (new_ApiResponse (resp_status fetchResponse)
          (resp_statusText fetchResponse) response))%eff.

(** The [catch (error)] clause: [error.data] is read for the log, which
    throws a TypeError when [error] is [null] or [undefined]. *)
Definition send_catch (error : Thrown) : M St ApiResponse :=
  match error with
  | ThrownNullish => throw TypeError
  | ThrownValue _ _ _ =>
      ret (new_ApiResponse 500 "Internal Server Error" VUndefined)
  end.

Definition send : M St ApiResponse := try_catch send_try send_catch.

(** [response.data?.accessToken]. *)
Definition data_accessToken (response : ApiResponse) : JsValue :=
  if nullish (Api.data response) then VUndefined
  else get_prop (Api.data response) "accessToken".

(** Running a method of another client object in the same world. *)
Definition on_client {A} (other : ApiClient E) (c : M St A) : M St A :=
  fun s => let '(r, (_, w)) := c (other, snd s) in (r, (fst s, w)).

(** The client that [refreshAccessToken] builds for its call; [payload]
    is the object literal [{refreshToken: 'refresh'}]. *)
Definition refresh_client (payload : loc) : ApiClient E :=
  setData payload
    (setUrl EmptyString
       (setMethod Http.post (new_ApiClient REACT_APP_API_URL None))).

Definition refreshAccessToken : M St (bool * JsValue) :=
  (in_world (modify count_refresh) ;;;
   payload <- in_world (fun w => let '(l, w') := alloc [("refreshToken", VStr "refresh")] w
                                 in (Returned l, w')) ;;
   response <- on_client (refresh_client payload) send ;;
   modify (fun s => (set_token (data_accessToken response) (fst s), snd s)) ;;;
   ret (isSuccess response, data_accessToken response))%eff.

Definition checkResponse (response : Response) : M St ApiResponse :=
  if resp_status response =? 401 then
    (refreshed <- refreshAccessToken ;;
     let '(isSuccess, newToken) := refreshed in
     if negb isSuccess || negb (truthy newToken) then
       ret (new_ApiResponse 401 "Unauthorized" VUndefined)
     else
       (modify (fun s => (setToken newToken (fst s), snd s)) ;;;
        send))%eff
  else
    (data <- json response ;;
     ret (new_ApiResponse (resp_status response) (resp_statusText response) data))%eff.

End Send.

Arguments St : clear implicits.

End FluentClient.

(** ** The ApiClient over axios *)

Module AxiosClient.

(** The [ApiConfig] type is declared in [./ApiConfig], which is not among
    the sources; these are the fields the client reads. *)
Record ApiConfig : Type := mkApiConfig {
  method : httpMethod;
  url : string;
  contentType : string;
  isTokenLess : bool
}.

(** Modelled from the spec: [UserDataController] lives in
    [../data/UserDataController], which is not among the sources.  It is
    the spec's TokenStore: a holder of the current access and refresh
    tokens with a read ([getUserData]) and a write of both
    ([saveUserData]). *)
Record UserData : Type := mkUserData {
  accessToken : JsValue;
  refreshToken : JsValue
}.

(** The request config handed to an axios instance. *)
Record AxiosRequestConfig : Type := mkAxiosRequestConfig {
  ax_baseURL : option string;
  ax_url : string;
  ax_method : httpMethod;
  ax_headers : gmap string string;
  ax_data : option Obj;
  ax_params : option Obj
}.

(** What the adapter reports: no response (with the message axios gives
    the error), or a response with its parsed body. *)
Inductive AxiosResult : Type :=
| AxNetworkError (message : string)
| AxResponded (status : Z) (statusText : string) (data : JsValue).

(** The response object axios hands to the handlers: its six own
    properties.  [headers], [config] and [request] are objects of the
    library and of the platform. *)
Record AxiosResponse : Type := mkAxiosResponse {
  ar_data : JsValue;
  ar_status : Z;
  ar_statusText : string;
  ar_headers : JsValue;
  ar_config : JsValue;
  ar_request : JsValue
}.

(** The platform the client runs on, as far as the response handler
    meets it: the depth of the call stack, and what the adapter puts in
    the [headers], [config] and [request] fields of a response.  An
    object graph with a cycle (the request object of node's http adapter
    is one) is nested without end; here it is a value nested deeper than
    the stack. *)
Record Platform : Type := mkPlatform {
  stack_depth : nat;
  adapter_headers : JsValue;
  adapter_config : JsValue;
  adapter_request : JsValue
}.

(** What an axios promise rejects with: an [AxiosError], which carries the
    request config and, when one was received, the response; or any other
    value. *)
Inductive AxThrown : Type :=
| AxiosError (message : string) (response : option AxiosResponse)
    (config : AxiosRequestConfig)
| OtherThrown.

Inductive Settled : Type :=
| Fulfilled (r : AxiosResponse)
| Rejected (e : AxThrown).

(** [heap], [net] as in the fetch world; [userData] is the token store;
    [ax_sent] and [ax_refreshes] are ghost: the requests that reached the
    adapter, oldest first, and the number of [refreshAccessToken] calls;
    [platform] does not change. *)
Record AxWorld (N : Type) : Type := mkAxWorld {
  ax_heap : list Obj;
  ax_net : N;
  ax_sent : list AxiosRequestConfig;
  ax_refreshes : nat;
  userData : UserData;
  platform : Platform
}.

Arguments mkAxWorld {N}.
Arguments ax_heap {N}.
Arguments ax_net {N}.
Arguments ax_sent {N}.
Arguments ax_refreshes {N}.
Arguments userData {N}.
Arguments platform {N}.

(** The client object.  [installed] is the number of handler pairs that
    [setInterceptors] has put on [axiosInstance.interceptors.response].
    The [interceptor] field of the source is stored by [addInterceptor]
    and never invoked, so it is left out. *)
Record ApiClient : Type := mkApiClient {
  config : ApiConfig;
  body : loc;
  client_url : string;
  client_accessToken : JsValue;
  installed : nat
}.

(** The body of the [forEach] callback in [handleObject]; [handle] is
    the recursive call.  [None] is a throw, which ends the loop. *)
Definition handleObject_step (handle : JsValue -> option JsValue)
  (acc : option Obj) (key : string) : option Obj :=
  match acc with
  | None => None
  | Some o =>
      let value := obj_get key o in
      let visited :=
        match value with
        | VNull => Some (obj_delete key o, value)
        | VObj _ =>
            match handle value with
            | Some value' => Some (obj_set key value' o, value')
            | None => None
            end
        | _ => Some (o, value)
        end in
      match visited with
      | Some (o, value) =>
          Some (if String.eqb key "ref"
                then obj_delete key (obj_set "_ref" value o)
                else o)
      | None => None
      end
  end.

(** [handleObject] of the response interceptor, on a call stack with
    room for [stack] more frames.  Every call on an object takes a frame;
    [None] is the RangeError of a stack used up.  The keys are those the
    object had when the loop began. *)
Fixpoint handleObject (stack : nat) (obj : JsValue) : option JsValue :=
  match obj with
  | VObj props =>
      match stack with
      | O => None
      | Datatypes.S stack' =>
          option_map VObj
            (fold_left (handleObject_step (handleObject stack'))
               (Object_keys props) (Some props))
      end
  | _ => Some obj
  end.

(** The response as the object [handleObject] walks. *)
Definition response_object (response : AxiosResponse) : JsValue :=
  VObj [("data", ar_data response);
        ("status", VNum (ar_status response));
        ("statusText", VStr (ar_statusText response));
        ("headers", ar_headers response);
        ("config", ar_config response);
        ("request", ar_request response)].

(** The message axios gives the error of a response whose status fails
    [validateStatus]. *)
Definition status_error_message (status : Z) : string :=
  "Request failed with status code " +:+ ToString (VNum status).

(** How axios settles the promise of a dispatched request: the default
    [validateStatus] accepts 200 to 299. *)
Definition settle (on : Platform) (req : AxiosRequestConfig) (res : AxiosResult)
  : Settled :=
  match res with
  | AxNetworkError message => Rejected (AxiosError message None req)
  | AxResponded st tx d =>
      let response :=
        mkAxiosResponse d st tx (adapter_headers on) (adapter_config on)
          (adapter_request on) in
      if (200 <=? st) && (st <? 300) then Fulfilled response
      else Rejected (AxiosError (status_error_message st) (Some response) req)
  end.

(** The fulfilled handler: [handleObject(response); return response].
    The walk rewrites the response in place; when it throws, the handler
    rejects with what was thrown, which is no [AxiosError]. *)
Definition response_fulfilled (stack : nat) (response : AxiosResponse) : Settled :=
  match handleObject stack (response_object response) with
  | Some obj =>
      Fulfilled
        (mkAxiosResponse (get_prop obj "data") (ar_status response)
           (ar_statusText response) (get_prop obj "headers")
           (get_prop obj "config") (get_prop obj "request"))
  | None => Rejected OtherThrown
  end.

Section Client.

Context {N : Type}.
Variable serve : AxiosRequestConfig -> N -> AxiosResult * N.
Variable REACT_APP_API_URL : option string.
(** [userApiConfig.refreshToken], from [./backoffice/user/userApiConfig]
    (not among the sources). *)
Variable refreshTokenConfig : ApiConfig.

Definition set_ax_heap (h : list Obj) (w : AxWorld N) : AxWorld N :=
  mkAxWorld h (ax_net w) (ax_sent w) (ax_refreshes w) (userData w) (platform w).

Definition ax_obj_at (l : loc) (w : AxWorld N) : Obj :=
  default [] (ax_heap w !! l).

Definition getUserData (w : AxWorld N) : UserData := userData w.

Definition saveUserData (d : UserData) (w : AxWorld N) : AxWorld N :=
  mkAxWorld (ax_heap w) (ax_net w) (ax_sent w) (ax_refreshes w) d (platform w).

Definition ax_count_refresh (w : AxWorld N) : AxWorld N :=
  mkAxWorld (ax_heap w) (ax_net w) (ax_sent w) (Datatypes.S (ax_refreshes w))
    (userData w) (platform w).

(** The adapter: one round trip. *)
Definition dispatch (req : AxiosRequestConfig) (w : AxWorld N)
  : AxiosResult * AxWorld N :=
  let '(res, n) := serve req (ax_net w) in
  (res, mkAxWorld (ax_heap w) n (ax_sent w ++ [req]) (ax_refreshes w) (userData w)
          (platform w)).

(** The body of the [forEach] callback in [setUrlParams]. *)
Definition setUrlParams_step (params : loc) (s : string * AxWorld N) (key : string)
  : string * AxWorld N :=
  let '(url, w) := s in
  if includes url (placeholder key) then
    (replace url (placeholder key) (obj_get key (ax_obj_at params w)),
     set_ax_heap (<[params := obj_delete key (ax_obj_at params w)]> (ax_heap w)) w)
  else s.

Definition setUrlParams (url : string) (params : loc) (w : AxWorld N)
  : string * AxWorld N :=
  fold_left (setUrlParams_step params) (Object_keys (ax_obj_at params w)) (url, w).

(** The constructor; [givenToken] is its optional [accessToken] argument. *)
Definition new_ApiClient (config : ApiConfig) (body : loc) (givenToken : JsValue)
  (w : AxWorld N) : ApiClient * AxWorld N :=
  let '(url, w) := setUrlParams (url config) body w in
  let stored := accessToken (getUserData w) in
  ({| config := config;
      body := body;
      client_url := url;
      client_accessToken :=
        if truthy givenToken then givenToken
        else if nullish stored then VStr EmptyString else stored;
      installed := O |}, w).

Definition failRefreshToken (w : AxWorld N) : AxWorld N := w.

(** The request config of the refresh call, sent through an instance of
    its own: [data] is [{refreshToken}], read from the store. *)
Definition refresh_request (w : AxWorld N) : AxiosRequestConfig :=
  let current := refreshToken (getUserData w) in
  {| ax_baseURL := REACT_APP_API_URL;
     ax_url := url refreshTokenConfig;
     ax_method := method refreshTokenConfig;
     ax_headers := ∅;
     ax_data := Some [("refreshToken", current)];
     ax_params := None |}.

(** [refreshAccessToken]: the result is [isSuccess] and [token]. *)
Definition refreshAccessToken (w : AxWorld N) : (bool * JsValue) * AxWorld N :=
  let w := ax_count_refresh w in
  let req := refresh_request w in
  let '(res, w) := dispatch req w in
  match settle (platform w) req res with
  | Fulfilled response =>
      if nullish (ar_data response) then
        ((false, VUndefined), failRefreshToken w)
      else
        let newToken := get_prop (ar_data response) "accessToken" in
        let newTokenLong := get_prop (ar_data response) "refreshToken" in
        if negb (truthy newToken) || negb (truthy newTokenLong) then
          ((false, VUndefined), failRefreshToken w)
        else
          ((true, newToken),
           saveUserData {| accessToken := newToken; refreshToken := newTokenLong |} w)
  | Rejected _ => ((false, VUndefined), failRefreshToken w)
  end.

(** [originalRequest.headers.Authorization = `Bearer ${newToken}`]. *)
Definition set_Authorization (newToken : JsValue) (req : AxiosRequestConfig)
  : AxiosRequestConfig :=
  mkAxiosRequestConfig (ax_baseURL req) (ax_url req) (ax_method req)
    (<["Authorization" := "Bearer " +:+ ToString newToken]> (ax_headers req))
    (ax_data req) (ax_params req).

(** The rejected handler registered by [setInterceptors].  [instance] is
    the axios instance the handler sits on, called as a function. *)
Definition response_rejected
  (instance : AxiosRequestConfig -> AxWorld N -> option (Settled * AxWorld N))
  (error : AxThrown) (w : AxWorld N) : option (Settled * AxWorld N) :=
  match error with
  | OtherThrown => Some (Rejected error, w)
  | AxiosError _ None _ => Some (Rejected error, w)
  | AxiosError _ (Some response) originalRequest =>
      if ar_status response =? 401 then
        let '((isSuccess, newToken), w) := refreshAccessToken w in
        if isSuccess then instance (set_Authorization newToken originalRequest) w
        else Some (Rejected error, w)
      else Some (Rejected error, w)
  end.

(** A settled request passes through the [k] handler pairs on the
    instance, in the order they were registered. *)
Fixpoint run_handlers
  (instance : AxiosRequestConfig -> AxWorld N -> option (Settled * AxWorld N))
  (k : nat) (p : Settled) (w : AxWorld N) : option (Settled * AxWorld N) :=
  match k with
  | O => Some (p, w)
  | Datatypes.S k' =>
      let step :=
        match p with
        | Fulfilled response =>
            Some (response_fulfilled (stack_depth (platform w)) response, w)
        | Rejected error => response_rejected instance error w
        end in
      match step with
      | Some (p', w') => run_handlers instance k' p' w'
      | None => None
      end
  end.

(** [instance.request(req)] on an instance with [handlers] pairs
    registered.  A handler may call the instance again, without bound in
    the source: each dispatch uses one unit of [fuel], and [None] means
    the fuel ran out. *)
Fixpoint instance_request (fuel : nat) (handlers : nat) (req : AxiosRequestConfig)
  (w : AxWorld N) : option (Settled * AxWorld N) :=
  match fuel with
  | O => None
  | Datatypes.S fuel' =>
      let '(res, w) := dispatch req w in
      run_handlers (instance_request fuel' handlers) handlers
        (settle (platform w) req res) w
  end.

(** [setInterceptors(instance)]: one more handler pair on the instance. *)
Definition setInterceptors (this : ApiClient) : ApiClient :=
  mkApiClient (config this) (body this) (client_url this)
    (client_accessToken this) (Datatypes.S (installed this)).

(** The request config built by [send]. *)
Definition send_request (this : ApiClient) (w : AxWorld N) : AxiosRequestConfig :=
  let is_get := Http.is_get (method (config this)) in
  let base : gmap string string := {["Content-Type" := contentType (config this)]} in
  {| ax_baseURL := REACT_APP_API_URL;
     ax_url := client_url this;
     ax_method := method (config this);
     ax_headers :=
       if isTokenLess (config this) then base
       else <["Authorization" := "Bearer " +:+ ToString (client_accessToken this)]> base;
     ax_data := if is_get then None else Some (ax_obj_at (body this) w);
     ax_params := if is_get then Some (ax_obj_at (body this) w) else None |}.

Definition send (fuel : nat) (this : ApiClient) (w : AxWorld N)
  : option (ApiResponse * ApiClient * AxWorld N) :=
  let this := setInterceptors this in
  match instance_request fuel (installed this) (send_request this w) w with
  | None => None
  | Some (Fulfilled response, w) =>
      Some (new_ApiResponse (ar_status response) (ar_statusText response)
              (ar_data response), this, w)
  | Some (Rejected (AxiosError message response _), w) =>
      Some (new_ApiResponse
              (match response with
               | Some r => ar_status r
               | None => 500
               end) message VUndefined, this, w)
  | Some (Rejected OtherThrown, w) =>
      Some (new_ApiResponse 500 "Internal Server Error" VUndefined, this, w)
  end.

End Client.

End AxiosClient.

(** ** Auxiliary definitions for the statements *)

(** The loop of [setUrlParams] on the URL and the object alone: the three
    clients run this same loop, each on its own state. *)
Fixpoint substitute (url : string) (o : Obj) (keys : list string) : string * Obj :=
  match keys with
  | [] => (url, o)
  | key :: keys' =>
      if includes url (placeholder key)
      then substitute (replace url (placeholder key) (obj_get key o))
             (obj_delete key o) keys'
      else substitute url o keys'
  end.

(** The keys that loop replaces in the URL. *)
Fixpoint consumed_keys (url : string) (o : Obj) (keys : list string) : list string :=
  match keys with
  | [] => []
  | key :: keys' =>
      if includes url (placeholder key)
      then key :: consumed_keys (replace url (placeholder key) (obj_get key o))
                    (obj_delete key o) keys'
      else consumed_keys url o keys'
  end.

(** An object without the keys in [ks]; the other entries stay as they
    are, in order. *)
Definition remove_keys (ks : list string) (o : Obj) : Obj :=
  List.filter (fun kv => negb (existsb (String.eqb (fst kv)) ks)) o.

(** No key of the object has its placeholder in the URL. *)
Definition no_placeholder (url : string) (o : Obj) : Prop :=
  Forall (fun key => includes url (placeholder key) = false) (Object_keys o).

(** The interceptors run in order on the caller's state. *)
Definition run_interceptors {E} (its : list (Interceptor E)) : M E unit :=
  forEach (fun i => i) its.

(** A remote end that answers from a script, and fails when it runs out. *)
Definition scripted (req : Request) (script : list FetchResult)
  : FetchResult * list FetchResult :=
  match script with
  | [] => (NetworkFailure, [])
  | r :: script' => (r, script')
  end.

(** A world with the given objects and script, nothing sent yet; the
    caller's state counts interceptor runs. *)
Definition world_of (objects : list Obj) (script : list FetchResult)
  : World (list FetchResult) nat :=
  mkWorld objects [] script [] O O.

(** An interceptor that bumps the caller's counter, and one that does so
    and then throws an [Error]. *)
Definition tick : Interceptor nat := fun n => (Returned tt, Datatypes.S n).

Definition boom : Interceptor nat :=
  fun n => (Threw (ThrownValue "Error" None None), Datatypes.S n).

(** The parameters of the request for user 42. *)
Definition user_params : Obj := [("id", VNum 42); ("active", VBool true)].

(** When the fluent client treats a refresh as failed, read off the
    answer to the refresh call: no response, a body that is not JSON, a
    status that is not a success, or no truthy [accessToken]. *)
Definition fluent_refresh_fails (res : FetchResult) : bool :=
  match res with
  | NetworkFailure => true
  | Responded _ _ None => true
  | Responded st tx (Some b) =>
      negb (isSuccess (new_ApiResponse st tx b))
      || negb (truthy (get_prop b "accessToken"))
  end.

(** The same for the axios client: no response, a status outside 200 to
    299, or a body without a truthy [accessToken] or [refreshToken]. *)
Definition axios_refresh_fails (res : AxiosClient.AxiosResult) : bool :=
  match res with
  | AxiosClient.AxNetworkError _ => true
  | AxiosClient.AxResponded st _ d =>
      negb ((200 <=? st) && (st <? 300))
      || negb (truthy (get_prop d "accessToken"))
      || negb (truthy (get_prop d "refreshToken"))
  end.

(** *** Sample requests *)

(** GET /users/{id} through the hook, parameters at reference 0. *)
Definition users_get (its : list (Interceptor nat)) : UseApiClient.apiClientConfig nat :=
  UseApiClient.mkApiClientConfig Http.get "/users/{id}" (Some O) None None (Some its).

(** POST /orders through the hook: no placeholder in the URL. *)
Definition orders_post : UseApiClient.apiClientConfig nat :=
  UseApiClient.mkApiClientConfig Http.post "/orders" (Some O) None None None.

Definition order_params : Obj := [("sku", VStr "X1")].

(** The same two requests built with the fluent client. *)
Definition users_client (method : httpMethod) (its : list (Interceptor nat))
  : FluentClient.ApiClient nat :=
  fold_left (fun c i => FluentClient.addInterceptor i c) its
    (FluentClient.setData O
       (FluentClient.setUrl "/users/{id}"
          (FluentClient.setMethod method (FluentClient.new_ApiClient None None)))).

Definition orders_client : FluentClient.ApiClient nat :=
  FluentClient.setData O
    (FluentClient.setUrl "/orders"
       (FluentClient.setMethod Http.post (FluentClient.new_ApiClient None None))).

(** *** Sample axios set-up *)

Definition refresh_config : AxiosClient.ApiConfig :=
  AxiosClient.mkApiConfig Http.post "/auth/refresh" "application/json" true.

Definition users_config : AxiosClient.ApiConfig :=
  AxiosClient.mkApiConfig Http.get "/users/{id}" "application/json" false.

Definition fresh_tokens : AxiosClient.AxiosResult :=
  AxiosClient.AxResponded 200 "OK"
    (VObj [("accessToken", VStr "access-2"); ("refreshToken", VStr "refresh-2")]).

(** A remote end whose refresh endpoint always hands out tokens and whose
    other endpoints answer 401 to the next [n] requests and 200 from then
    on. *)
Definition expiring (req : AxiosClient.AxiosRequestConfig) (n : nat)
  : AxiosClient.AxiosResult * nat :=
  if String.eqb (AxiosClient.ax_url req) "/auth/refresh" then (fresh_tokens, n)
  else match n with
       | O => (AxiosClient.AxResponded 200 "OK" (VStr "done"), O)
       | Datatypes.S n' => (AxiosClient.AxResponded 401 "Unauthorized" VNull, n')
       end.

(** A remote end that answers from a script. *)
Definition ax_scripted (req : AxiosClient.AxiosRequestConfig)
  (script : list AxiosClient.AxiosResult)
  : AxiosClient.AxiosResult * list AxiosClient.AxiosResult :=
  match script with
  | [] => (AxiosClient.AxNetworkError "Network Error", [])
  | r :: script' => (r, script')
  end.


(** A platform whose adapter objects have no own enumerable property,
    and one whose request object is nested deeper than its stack. *)
Definition plain_platform : AxiosClient.Platform :=
  AxiosClient.mkPlatform 64 (VObj []) (VObj []) (VObj []).


Definition ax_world_of {N : Type} (objects : list Obj) (n : N) : AxiosClient.AxWorld N :=
  AxiosClient.mkAxWorld objects n [] O
    (AxiosClient.mkUserData (VStr "access-1") (VStr "refresh-1")) plain_platform.


(** The axios client for GET /users/{id}, built in a world whose remote
    end follows [script]. *)
Definition users_axios (script : list AxiosClient.AxiosResult)
  : AxiosClient.ApiClient * AxiosClient.AxWorld (list AxiosClient.AxiosResult) :=
  AxiosClient.new_ApiClient users_config O VUndefined (ax_world_of [user_params] script).

(** A refresh answer with both tokens, as [fetch] reports it. *)
Definition fresh_tokens_fetch : FetchResult :=
  Responded 200 "OK"
    (Some (VObj [("accessToken", VStr "access-2"); ("refreshToken", VStr "refresh-2")])).

(** A remote end whose refresh endpoint always hands out tokens and whose
    other endpoints answer 401 every time. *)
Definition always_expired (req : AxiosClient.AxiosRequestConfig) (u : unit)
  : AxiosClient.AxiosResult * unit :=
  if String.eqb (AxiosClient.ax_url req) "/auth/refresh" then (fresh_tokens, u)
  else (AxiosClient.AxResponded 401 "Unauthorized" VNull, u).

(** *** Further definitions for the statements *)

(** The three hooks chained, each called on what the one before
    returned: [r.onSuccess(a).onFail(b).onTokenExpired(c)]. *)
Definition react {E} (r : ApiResponse) (a : SuccessResponse -> M E unit)
  (b : FailInfo -> M E unit) (c : unit -> M E unit) : M E ApiResponse :=
  (r1 <- onSuccess r a ;; r2 <- onFail r1 b ;; onTokenExpired r2 c)%eff.

(** A remote end that answers 401 to everything, the refresh call
    included. *)
Definition always_unauthorized (req : AxiosClient.AxiosRequestConfig) (u : unit)
  : AxiosClient.AxiosResult * unit :=
  (AxiosClient.AxResponded 401 "Unauthorized" VNull, u).

(** An interceptor that does [throw null]. *)
Definition throw_null : Interceptor nat := fun n => (Threw ThrownNullish, n).

(** * Properties *)

(** ** ApiResponse *)

Section ResponseFacts.

Context {E : Type}.

Lemma onFail_returns_this (r : ApiResponse) (cb : FailInfo -> M E unit) (e : E)
  (out : ApiResponse) :
  fst (onFail r cb e) = Returned out -> out = r.
Proof.
  unfold onFail, bind, ret.
  destruct (isTokenExpired r); simpl; [congruence |].
  destruct (negb (isSuccess r)); simpl.
  - destruct (cb _ e) as [[[] | err] e']; simpl; congruence.
  - congruence.
Qed.

Lemma onSuccess_returns_this (r : ApiResponse) (cb : SuccessResponse -> M E unit)
  (e : E) (out : ApiResponse) :
  fst (onSuccess r cb e) = Returned out -> out = r.
Proof.
  unfold onSuccess, bind, ret.
  destruct (isTokenExpired r); simpl; [congruence |].
  destruct (isSuccess r && truthy (data r)); simpl.
  - destruct (cb _ e) as [[[] | err] e']; simpl; congruence.
  - congruence.
Qed.

Lemma onTokenExpired_returns_this (r : ApiResponse) (cb : unit -> M E unit)
  (e : E) (out : ApiResponse) :
  fst (onTokenExpired r cb e) = Returned out -> out = r.
Proof.
  unfold onTokenExpired, bind, ret.
  destruct (isTokenExpired r); simpl.
  - destruct (cb tt e) as [[[] | err] e']; simpl; congruence.
  - congruence.
Qed.

(** A hook either leaves the callback alone or runs it once and then
    returns [this]. *)
Lemma onFail_shape (r : ApiResponse) (cb : FailInfo -> M E unit) (e : E) :
  onFail r cb e = (Returned r, e) \/
  exists a, onFail r cb e = bind (cb a) (fun _ => ret r) e.
Proof.
  unfold onFail. destruct (isTokenExpired r); [by left |].
  destruct (negb (isSuccess r)); [right; eauto | by left].
Qed.

Lemma onSuccess_shape (r : ApiResponse) (cb : SuccessResponse -> M E unit) (e : E) :
  onSuccess r cb e = (Returned r, e) \/
  exists a, onSuccess r cb e = bind (cb a) (fun _ => ret r) e.
Proof.
  unfold onSuccess. destruct (isTokenExpired r); [by left |].
  destruct (isSuccess r && truthy (data r)); [right; eauto | by left].
Qed.

Lemma onTokenExpired_shape (r : ApiResponse) (cb : unit -> M E unit) (e : E) :
  onTokenExpired r cb e = (Returned r, e) \/
  exists a, onTokenExpired r cb e = bind (cb a) (fun _ => ret r) e.
Proof.
  unfold onTokenExpired. destruct (isTokenExpired r); [right; eauto | by left].
Qed.

End ResponseFacts.

(** Counted with the ghost callback, no hook calls more than once,
    whatever the response. *)
Lemma hooks_call_at_most_once (r : ApiResponse) :
  (calls (onSuccess r count_call) <= 1)%nat /\
  (calls (onFail r count_call) <= 1)%nat /\
  (calls (onTokenExpired r count_call) <= 1)%nat.
Proof.
  unfold calls, onSuccess, onFail, onTokenExpired, count_call, bind, modify, ret.
  destruct (isTokenExpired r), (isSuccess r), (truthy (data r)); simpl; lia.
Qed.

(** The success callback runs exactly when the response is not
    token-expired, is a success, and has a truthy payload. *)
Lemma onSuccess_runs_iff (r : ApiResponse) :
  calls (onSuccess r count_call) = 1%nat <->
  isTokenExpired r = false /\ isSuccess r = true /\ truthy (data r) = true.
Proof.
  unfold calls, onSuccess, count_call, bind, modify, ret.
  destruct (isTokenExpired r), (isSuccess r), (truthy (data r)); simpl;
    intuition congruence.
Qed.

(** C2. A response built by the constructor, for any integer status:
    [isSuccess] holds exactly for 200, 201 and 204, [isTokenExpired]
    exactly for 401; both depend on the status alone; they are never both
    true; and every method hands back the response it was called on, so
    the flags stay as constructed. *)
Theorem ApiResponse_flags_from_status (st : Z) (tx : string) (d : JsValue) :
  let r := new_ApiResponse st tx d in
  (isSuccess r = true <-> st = 200 \/ st = 201 \/ st = 204) /\
  (isTokenExpired r = true <-> st = 401) /\
  (forall tx' d', isSuccess (new_ApiResponse st tx' d') = isSuccess r /\
                  isTokenExpired (new_ApiResponse st tx' d') = isTokenExpired r) /\
  ~ (isSuccess r = true /\ isTokenExpired r = true) /\
  (forall (E : Type) (e : E) cbF cbS cbT out,
      fst (onFail r cbF e) = Returned out \/
      fst (onSuccess r cbS e) = Returned out \/
      fst (onTokenExpired r cbT e) = Returned out ->
      out = r /\ isSuccess out = isSuccess r /\
      isTokenExpired out = isTokenExpired r).
Proof.
  cbn zeta. unfold new_ApiResponse; simpl.
  split; [| split; [| split; [| split]]].
  - rewrite !orb_true_iff, !Z.eqb_eq. tauto.
  - apply Z.eqb_eq.
  - auto.
  - rewrite !orb_true_iff, !Z.eqb_eq. lia.
  - intros E e cbF cbS cbT out H.
    assert (out = new_ApiResponse st tx d) as ->; [| done].
    destruct H as [H | [H | H]].
    + by apply onFail_returns_this in H.
    + by apply onSuccess_returns_this in H.
    + by apply onTokenExpired_returns_this in H.
Qed.

(** C6. On a token-expired response the success and failure hooks return
    at once without touching their callbacks, the token-expired hook runs
    its callback, and each hook makes at most one call. *)
Theorem token_expired_suppresses_other_hooks {E : Type} (r : ApiResponse)
  (cbS : SuccessResponse -> M E unit) (cbF : FailInfo -> M E unit)
  (cbT : unit -> M E unit) (e : E) :
  isTokenExpired r = true ->
  onSuccess r cbS e = (Returned r, e) /\
  onFail r cbF e = (Returned r, e) /\
  onTokenExpired r cbT e = bind (cbT tt) (fun _ => ret r) e /\
  calls (onSuccess r count_call) = 0%nat /\
  calls (onFail r count_call) = 0%nat /\
  calls (onTokenExpired r count_call) = 1%nat /\
  (calls (onSuccess r count_call) <= 1)%nat /\
  (calls (onFail r count_call) <= 1)%nat /\
  (calls (onTokenExpired r count_call) <= 1)%nat.
Proof.
  intros H.
  pose proof (hooks_call_at_most_once r) as (HS & HF & HT).
  unfold calls, onSuccess, onFail, onTokenExpired in *. rewrite H in *.
  repeat split; auto.
Qed.

Lemma token_expired_suppresses_other_hooks_witness :
  let r := new_ApiResponse 401 "Unauthorized" VUndefined in
  isTokenExpired r = true /\
  onSuccess r count_call 0%nat = (Returned r, 0%nat) /\
  onFail r count_call 0%nat = (Returned r, 0%nat) /\
  onTokenExpired r count_call 0%nat = (Returned r, 1%nat).
Proof.
  pose proof (token_expired_suppresses_other_hooks
                (new_ApiResponse 401 "Unauthorized" VUndefined)
                count_call count_call count_call 0%nat eq_refl)
    as (HS & HF & HT & _).
  cbn zeta. split; [reflexivity |]. split; [exact HS |]. split; [exact HF |].
  rewrite HT. reflexivity.
Defined.

(** C10. A success response whose payload is absent or otherwise falsy
    (a 204 without body, say) never reaches the success callback: the
    hook returns at once.  The callback runs only for a response that is
    a success and has a truthy payload. *)
Theorem onSuccess_skips_falsy_data {E : Type} (r : ApiResponse)
  (cb : SuccessResponse -> M E unit) (e : E) :
  isSuccess r = true ->
  truthy (data r) = false ->
  onSuccess r cb e = (Returned r, e) /\
  calls (onSuccess r count_call) = 0%nat /\
  (forall r' : ApiResponse,
      calls (onSuccess r' count_call) = 1%nat ->
      isSuccess r' = true /\ truthy (data r') = true).
Proof.
  intros HS HD. split; [| split].
  - unfold onSuccess. rewrite HS, HD. destruct (isTokenExpired r); auto.
  - unfold calls, onSuccess. rewrite HS, HD. destruct (isTokenExpired r); auto.
  - intros r' H. apply onSuccess_runs_iff in H. tauto.
Qed.

Lemma onSuccess_skips_falsy_data_witness :
  let r := new_ApiResponse 204 "No Content" VUndefined in
  isSuccess r = true /\ truthy (data r) = false /\
  onSuccess r count_call 0%nat = (Returned r, 0%nat).
Proof.
  cbn zeta. split; [reflexivity |]. split; [reflexivity |].
  exact (proj1 (onSuccess_skips_falsy_data
                  (new_ApiResponse 204 "No Content" VUndefined)
                  count_call 0%nat eq_refl eq_refl)).
Defined.

(** ** The fetch world *)

Section FetchFacts.

Context {N E : Type}.
Implicit Types (w : World N E) (its : list (Interceptor E)).

Lemma set_caller_id w : set_caller (caller w) w = w.
Proof. by destruct w. Qed.

Lemma set_heap_id w : set_heap (heap w) w = w.
Proof. by destruct w. Qed.

(** Interceptors only move the caller's state. *)
Lemma forEach_call its w :
  forEach call its w =
  (fst (run_interceptors its (caller w)),
   set_caller (snd (run_interceptors its (caller w))) w).
Proof.
  revert w. induction its as [| i its IH]; intros w; simpl.
  - unfold run_interceptors, ret; simpl. by rewrite set_caller_id.
  - unfold run_interceptors in *. simpl. unfold bind, call at 1.
    destruct (i (caller w)) as [[[] | err] e'] eqn:Hi; simpl; [| done].
    rewrite IH. simpl. by destruct w.
Qed.

Lemma obj_at_lookup (l : loc) w o : heap w !! l = Some o -> obj_at l w = o.
Proof. unfold obj_at. by intros ->. Qed.

Lemma obj_at_set_caller (l : loc) e w : obj_at l (set_caller e w) = obj_at l w.
Proof. done. Qed.

End FetchFacts.

(** ** The substitution loop *)

Lemma substitute_no_placeholder (url : string) (o : Obj) (keys : list string) :
  Forall (fun key => includes url (placeholder key) = false) keys ->
  substitute url o keys = (url, o).
Proof.
  induction 1 as [| key keys Hk _ IH]; simpl; [done |]. by rewrite Hk.
Qed.



(** Every consumed key is one of the keys visited. *)
Lemma consumed_keys_subset (url : string) (o : Obj) (keys : list string) (k : string) :
  In k (consumed_keys url o keys) -> In k keys.
Proof.
  revert url o. induction keys as [| key keys IH]; intros url o; simpl; [done |].
  destruct (includes url (placeholder key)); simpl; [intros [-> | H] |]; eauto.
Qed.

(** ** useApiClient *)

Section HookFacts.

Import UseApiClient.

Context {N E : Type}.
Variable serve : Request -> N -> FetchResult * N.
Variable REACT_APP_API_URL : option string.
Implicit Types (w : World N E) (config : Config E) (l : loc).

Lemma hook_set_url_id config : set_url (c_url config) config = config.
Proof. by destruct config. Qed.

(** The loop moves the URL and the object behind [l], nothing else. *)
Lemma hook_fold_frame l keys config w :
  let r := fold_left (setUrlParams_step (N:=N) l) keys (config, w) in
  c_method r.1 = c_method config /\ c_data r.1 = c_data config /\
  c_headers r.1 = c_headers config /\ c_token r.1 = c_token config /\
  c_interceptor r.1 = c_interceptor config /\
  net r.2 = net w /\ sent r.2 = sent w /\ refreshes r.2 = refreshes w /\
  caller r.2 = caller w.
Proof.
  revert config w. induction keys as [| key keys IH]; intros config w; simpl.
  - repeat split.
  - destruct (includes (c_url config) (placeholder key)); [| apply IH].
    specialize (IH (set_url (replace (c_url config) (placeholder key)
                               (obj_get key (obj_at l w))) config)
                  (delete_at l key w)).
    simpl in IH. exact IH.
Qed.

(** On a live reference the loop is [substitute], written through the
    reference. *)
Lemma hook_fold_substitute l keys config w o :
  heap w !! l = Some o ->
  fold_left (setUrlParams_step l) keys (config, w) =
  (set_url (fst (substitute (c_url config) o keys)) config,
   set_heap (<[l := snd (substitute (c_url config) o keys)]> (heap w)) w).
Proof.
  revert config w o. induction keys as [| key keys IH]; intros config w o Hl; simpl.
  - rewrite hook_set_url_id, list_insert_id by done. by rewrite set_heap_id.
  - rewrite (obj_at_lookup _ _ _ Hl).
    destruct (includes (c_url config) (placeholder key)); [| by apply IH].
    erewrite IH.
    2:{ unfold delete_at; simpl. rewrite (obj_at_lookup _ _ _ Hl).
        apply list_lookup_insert_eq. by eapply lookup_lt_Some. }
    unfold delete_at, set_url, set_heap; simpl.
    rewrite (obj_at_lookup _ _ _ Hl), list_insert_insert_eq. done.
Qed.

Lemma hook_setUrlParams_substitute config w l o :
  c_data config = Some l ->
  heap w !! l = Some o ->
  setUrlParams config w =
  (set_url (fst (substitute (c_url config) o (Object_keys o))) config,
   set_heap (<[l := snd (substitute (c_url config) o (Object_keys o))]> (heap w)) w).
Proof.
  intros Hd Hl. unfold setUrlParams. rewrite Hd, (obj_at_lookup _ _ _ Hl).
  by apply hook_fold_substitute.
Qed.

Lemma hook_setUrlParams_frame config w :
  let r := setUrlParams config w in
  c_method r.1 = c_method config /\ c_data r.1 = c_data config /\
  c_headers r.1 = c_headers config /\ c_token r.1 = c_token config /\
  c_interceptor r.1 = c_interceptor config /\
  net r.2 = net w /\ sent r.2 = sent w /\ refreshes r.2 = refreshes w /\
  caller r.2 = caller w.
Proof.
  unfold setUrlParams. destruct (c_data config) as [l |] eqn:Hd.
  - pose proof (hook_fold_frame l (Object_keys (obj_at l w)) config w) as F.
    cbn zeta in F. by rewrite Hd in F.
  - simpl. by rewrite Hd.
Qed.

Lemma hook_setQueryParams_frame config w :
  let c := setQueryParams config w in
  c_method c = c_method config /\ c_data c = c_data config /\
  c_headers c = c_headers config /\ c_token c = c_token config /\
  c_interceptor c = c_interceptor config.
Proof.
  unfold setQueryParams. destruct (c_data config) eqn:Hd; [| by rewrite Hd].
  destruct (negb _); simpl; by rewrite ?Hd.
Qed.

Lemma hook_set_Authorization_frame config w :
  let c := (set_Authorization config w).1 in
  c_method c = c_method config /\ c_data c = c_data config /\
  c_url c = c_url config /\ c_interceptor c = c_interceptor config.
Proof.
  unfold set_Authorization.
  destruct (truthy_token _); [destruct (c_headers config) |]; done.
Qed.

(** Of the world, the assignment moves the headers objects only. *)
Lemma hook_set_Authorization_world config w :
  let w' := (set_Authorization config w).2 in
  heap w' = heap w /\ net w' = net w /\ sent w' = sent w /\
  refreshes w' = refreshes w /\ caller w' = caller w.
Proof.
  unfold set_Authorization.
  destruct (truthy_token _); [destruct (c_headers config) |]; done.
Qed.

(** Path substitution leaves the headers objects alone. *)
Lemma hook_fold_headers l keys config w :
  header_objs (fold_left (setUrlParams_step (N:=N) l) keys (config, w)).2 = header_objs w.
Proof.
  revert config w. induction keys as [| key keys IH]; intros config w; simpl; [done |].
  destruct (includes (c_url config) (placeholder key)); [| apply IH].
  by rewrite IH.
Qed.

Lemma hook_setUrlParams_headers config w :
  header_objs (setUrlParams config w).2 = header_objs w.
Proof.
  unfold setUrlParams. destruct (c_data config); [apply hook_fold_headers | done].
Qed.

Lemma hook_request_body_heap config w w' :
  heap w' = heap w -> request_body config w' = request_body config w.
Proof. unfold request_body, obj_at. by intros ->. Qed.

Lemma hook_request_body_caller config w e :
  request_body config (set_caller e w) = request_body config w.
Proof. done. Qed.

Lemma request_catch_state (err : Thrown) w : (request_catch err w).2 = w.
Proof. by destruct err. Qed.

(** What [request] does once path and query are in place: the
    interceptors run; if one throws, the [catch] clause answers and
    nothing is sent; otherwise exactly one request goes out and the
    answer of the remote end decides the result. *)
Lemma hook_request_run (_config : apiClientConfig E) w :
  let s1 := setUrlParams (local_config _config) w in
  let s2 := set_Authorization (setQueryParams s1.1 s1.2) s1.2 in
  let config := s2.1 in
  let ran := run_interceptors (c_interceptor config) (caller w) in
  let w2 := set_caller ran.2 s2.2 in
  let req := {| req_url := baseUrl REACT_APP_API_URL +:+ c_url config;
                req_method := c_method config;
                req_headers := spread_headers config s2.2;
                req_body := request_body config s1.2 |} in
  request serve REACT_APP_API_URL _config w =
  match ran.1 with
  | Threw err => request_catch err w2
  | Returned _ =>
      let w3 := mkWorld (heap w2) (header_objs w2) (serve req (net w)).2
                  (sent w ++ [req]) (refreshes w) (caller w2) in
      match (serve req (net w)).1 with
      | NetworkFailure => request_catch TypeError w3
      | Responded st tx None => request_catch SyntaxError w3
      | Responded st tx (Some d) => (Returned (new_ApiResponse st tx d), w3)
      end
  end.
Proof.
  cbn zeta.
  pose proof (hook_setUrlParams_frame (local_config _config) w) as F.
  cbn zeta in F. destruct F as (_ & _ & _ & _ & _ & Fn & Fs & Fr & Fc).
  unfold request, try_catch, request_try.
  destruct (setUrlParams (local_config _config) w) as [c1 w1] eqn:H1.
  cbn [fst snd] in *.
  pose proof (hook_set_Authorization_world (setQueryParams c1 w1) w1) as A.
  cbn zeta in A. destruct A as (Ah & An & As & Ar & Ac).
  destruct (set_Authorization (setQueryParams c1 w1) w1) as [c2 w2] eqn:H2.
  cbn [fst snd] in *.
  unfold bind at 1. rewrite forEach_call. rewrite Ac, Fc.
  destruct (run_interceptors _ (caller w)) as [[[] | err] e'] eqn:Hrun;
    cbn [fst snd]; [| done].
  unfold bind, gets, fetch; cbn [fst snd net sent refreshes heap header_objs caller
                                    set_caller].
  rewrite (hook_request_body_heap c2 w1) by (cbn [heap set_caller]; exact Ah).
  rewrite An, As, Ar, Fn, Fs, Fr.
  destruct (serve _ (net w)) as [[| st tx [d |]] n'] eqn:Hs; cbn [fst snd]; done.
Qed.

End HookFacts.

(** ** The fluent client *)

Section FluentFacts.

Import FluentClient.

Context {N E : Type}.
Variable serve : Request -> N -> FetchResult * N.
Variable REACT_APP_API_URL : option string.
Implicit Types (w : World N E) (this : ApiClient E) (l : loc) (s : St N E).

Lemma fluent_set_url_id this : set_url (url this) this = this.
Proof. by destruct this. Qed.

(** The loop moves the URL and the object behind [l], nothing else. *)
Lemma fluent_fold_frame l keys s :
  let r := fold_left (setUrlParams_step l) keys s in
  baseUrl r.1 = baseUrl s.1 /\ httpMethod r.1 = httpMethod s.1 /\
  data r.1 = data s.1 /\ headers r.1 = headers s.1 /\ token r.1 = token s.1 /\
  interceptor r.1 = interceptor s.1 /\
  net r.2 = net s.2 /\ sent r.2 = sent s.2 /\ refreshes r.2 = refreshes s.2 /\
  caller r.2 = caller s.2.
Proof.
  revert s. induction keys as [| key keys IH]; intros [this w]; simpl.
  - repeat split.
  - pose proof (IH (this, w)) as F0.
    pose proof (IH (set_url (replace (url this) (placeholder key)
                               (obj_get key (obj_at l w))) this,
                    delete_at l key w)) as F1.
    simpl in F0, F1.
    destruct (data this) eqn:Hd; rewrite ?Hd in F0, F1; [| exact F0].
    destruct (includes (url this) (placeholder key)); [exact F1 | exact F0].
Qed.

Lemma fluent_fold_substitute l keys this w o :
  is_Some (data this) ->
  heap w !! l = Some o ->
  fold_left (setUrlParams_step l) keys (this, w) =
  (set_url (fst (substitute (url this) o keys)) this,
   set_heap (<[l := snd (substitute (url this) o keys)]> (heap w)) w).
Proof.
  intros [l0 Hd].
  revert this w o Hd. induction keys as [| key keys IH]; intros this w o Hd Hl; simpl.
  - rewrite fluent_set_url_id, list_insert_id by done. by rewrite set_heap_id.
  - rewrite Hd, (obj_at_lookup _ _ _ Hl).
    destruct (includes (url this) (placeholder key)); [| by apply IH].
    erewrite IH; [| done |].
    2:{ unfold delete_at; simpl. rewrite (obj_at_lookup _ _ _ Hl).
        apply list_lookup_insert_eq. by eapply lookup_lt_Some. }
    unfold delete_at, set_url, set_heap; simpl.
    rewrite (obj_at_lookup _ _ _ Hl), list_insert_insert_eq. done.
Qed.

Lemma fluent_setUrlParams_substitute this w l o :
  data this = Some l ->
  heap w !! l = Some o ->
  setUrlParams (this, w) =
  (set_url (fst (substitute (url this) o (Object_keys o))) this,
   set_heap (<[l := snd (substitute (url this) o (Object_keys o))]> (heap w)) w).
Proof.
  intros Hd Hl. unfold setUrlParams. rewrite Hd, (obj_at_lookup _ _ _ Hl).
  apply fluent_fold_substitute; [by rewrite Hd | done].
Qed.

Lemma fluent_setUrlParams_frame s :
  let r := setUrlParams s in
  baseUrl r.1 = baseUrl s.1 /\ httpMethod r.1 = httpMethod s.1 /\
  data r.1 = data s.1 /\ headers r.1 = headers s.1 /\ token r.1 = token s.1 /\
  interceptor r.1 = interceptor s.1 /\
  net r.2 = net s.2 /\ sent r.2 = sent s.2 /\ refreshes r.2 = refreshes s.2 /\
  caller r.2 = caller s.2.
Proof.
  destruct s as [this w]. unfold setUrlParams.
  destruct (data this) as [l |] eqn:Hd; [| repeat split].
  apply (fluent_fold_frame l _ (this, w)).
Qed.

Lemma fluent_setQueryParams_frame s :
  let r := setQueryParams s in
  baseUrl r.1 = baseUrl s.1 /\ httpMethod r.1 = httpMethod s.1 /\
  headers r.1 = headers s.1 /\ token r.1 = token s.1 /\
  interceptor r.1 = interceptor s.1 /\ r.2 = s.2.
Proof.
  destruct s as [this w]. unfold setQueryParams.
  destruct (data this); [| repeat split].
  destruct (negb _); repeat split.
Qed.



Lemma send_catch_state (err : Thrown) s : (send_catch err s).2 = s.
Proof. by destruct err. Qed.

(** What [send] does once path and query are in place; compare
    [hook_request_run]. *)
Lemma fluent_send_run this w :
  let s2 := setQueryParams (setUrlParams (this, w)) in
  let ran := run_interceptors (interceptor this) (caller w) in
  let w2 := set_caller ran.2 s2.2 in
  let req := {| req_url := url s2.1;
                req_method := httpMethod this;
                req_headers := headers this;
                req_body := send_body s2 |} in
  send serve (this, w) =
  match ran.1 with
  | Threw err => send_catch err (s2.1, w2)
  | Returned _ =>
      let w3 := mkWorld (heap w2) (header_objs w2) (serve req (net w)).2
                  (sent w ++ [req]) (refreshes w) (caller w2) in
      match (serve req (net w)).1 with
      | NetworkFailure => send_catch TypeError (s2.1, w3)
      | Responded st tx None => send_catch SyntaxError (s2.1, w3)
      | Responded st tx (Some d) => (Returned (new_ApiResponse st tx d), (s2.1, w3))
      end
  end.
Proof.
  cbn zeta.
  pose proof (fluent_setUrlParams_frame (this, w)) as F1.
  pose proof (fluent_setQueryParams_frame (setUrlParams (this, w))) as F2.
  cbn zeta in F1, F2.
  destruct (setUrlParams (this, w)) as [c1 w1] eqn:H1.
  destruct (setQueryParams (c1, w1)) as [c2 w2] eqn:H2.
  simpl in F1, F2.
  destruct F1 as (_ & F1m & _ & F1h & _ & F1i & F1n & F1s & F1r & F1c).
  destruct F2 as (_ & F2m & F2h & _ & F2i & ->).
  unfold send, try_catch, send_try.
  unfold bind at 1, modify at 1. rewrite H1.
  unfold bind at 1, modify at 1. rewrite H2.
  unfold bind at 1 2 3 4, gets; cbn [fst snd].
  rewrite F2i, F1i. unfold bind at 1.
  assert (forall its (c : ApiClient E) (w' : World N E),
    forEach (fun i : Interceptor E => in_world (call i)) its (c, w') =
    ((forEach call its w').1, (c, (forEach call its w').2))) as Hlift.
  { clear. induction its as [| i its IH]; intros c w'; simpl; [done |].
    unfold bind, in_world at 1; simpl.
    destruct (call i w') as [[[] | err] w''] eqn:Hc; simpl; [| done].
    apply IH. }
  rewrite Hlift, forEach_call; cbn [fst snd]. rewrite F1c.
  destruct (run_interceptors _ (caller w)) as [[[] | err] e'] eqn:Hrun; cbn [fst snd]; [| done].
  unfold bind, in_world, fetch; simpl. rewrite F1n, F1s, F1r, F2m, F1m, F2h, F1h.
  destruct (serve _ (net w)) as [[| st tx [d |]] n'] eqn:Hs; simpl; done.
Qed.

End FluentFacts.

(** ** Path substitution, parameter placement, failures: hook and fluent *)

Section FetchClients.

Context {N E : Type}.
Variable serve : Request -> N -> FetchResult * N.
Variable REACT_APP_API_URL : option string.
Implicit Types (w : World N E) (l : loc) (o : Obj).

(** *** useApiClient *)

Lemma hook_setUrlParams_identity (config : UseApiClient.Config E) w l o :
  UseApiClient.c_data config = Some l ->
  heap w !! l = Some o ->
  no_placeholder (UseApiClient.c_url config) o ->
  UseApiClient.setUrlParams config w = (config, w).
Proof.
  intros Hd Hl Hno.
  rewrite (hook_setUrlParams_substitute _ _ _ _ Hd Hl).
  rewrite (substitute_no_placeholder _ _ _ Hno); simpl.
  rewrite hook_set_url_id, list_insert_id by done. by rewrite set_heap_id.
Qed.




(** *** The fluent client *)

Lemma fluent_setUrlParams_identity (this : FluentClient.ApiClient E) w l o :
  FluentClient.data this = Some l ->
  heap w !! l = Some o ->
  no_placeholder (FluentClient.url this) o ->
  FluentClient.setUrlParams (this, w) = (this, w).
Proof.
  intros Hd Hl Hno.
  rewrite (fluent_setUrlParams_substitute _ _ _ _ Hd Hl).
  rewrite (substitute_no_placeholder _ _ _ Hno); simpl.
  rewrite fluent_set_url_id, list_insert_id by done. by rewrite set_heap_id.
Qed.




End FetchClients.

(** ** The axios client *)

Section AxiosFacts.

Import AxiosClient.

Context {N : Type}.
Variable serve : AxiosRequestConfig -> N -> AxiosResult * N.
Variable REACT_APP_API_URL : option string.
Variable refreshTokenConfig : ApiConfig.
Implicit Types (w : AxWorld N) (l : loc) (o : Obj).

(** The response handler at work: [null] fields go, [ref] becomes
    [_ref], at every level. *)
Example handleObject_sample :
  handleObject 2
    (VObj [("ref", VObj [("x", VNull); ("ref", VNum 1)]);
           ("note", VNull); ("name", VStr "a")])
  = Some (VObj [("name", VStr "a"); ("_ref", VObj [("_ref", VNum 1)])]) /\
  handleObject 1
    (VObj [("ref", VObj [("x", VNull); ("ref", VNum 1)]);
           ("note", VNull); ("name", VStr "a")])
  = None.
Proof. split; reflexivity. Qed.

Lemma set_ax_heap_id w : set_ax_heap (ax_heap w) w = w.
Proof. by destruct w. Qed.

Lemma ax_obj_at_lookup l w o : ax_heap w !! l = Some o -> ax_obj_at l w = o.
Proof. unfold ax_obj_at. by intros ->. Qed.

Lemma axios_fold_substitute l keys url w o :
  ax_heap w !! l = Some o ->
  fold_left (setUrlParams_step l) keys (url, w) =
  (fst (substitute url o keys),
   set_ax_heap (<[l := snd (substitute url o keys)]> (ax_heap w)) w).
Proof.
  revert url w o. induction keys as [| key keys IH]; intros url w o Hl; simpl.
  - rewrite list_insert_id by done. by rewrite set_ax_heap_id.
  - rewrite (ax_obj_at_lookup _ _ _ Hl).
    destruct (includes url (placeholder key)); [| by apply IH].
    erewrite IH.
    2:{ simpl. apply list_lookup_insert_eq. by eapply lookup_lt_Some. }
    unfold set_ax_heap; simpl. by rewrite list_insert_insert_eq.
Qed.

Lemma axios_setUrlParams_substitute url l w o :
  ax_heap w !! l = Some o ->
  setUrlParams url l w =
  (fst (substitute url o (Object_keys o)),
   set_ax_heap (<[l := snd (substitute url o (Object_keys o))]> (ax_heap w)) w).
Proof.
  intros Hl. unfold setUrlParams. rewrite (ax_obj_at_lookup _ _ _ Hl).
  by apply axios_fold_substitute.
Qed.

(** A refresh call: one more on the ghost counter, one request to the
    adapter, the heap untouched. *)
Lemma axios_refresh_frame w :
  let r := refreshAccessToken serve REACT_APP_API_URL refreshTokenConfig w in
  ax_heap r.2 = ax_heap w /\
  ax_refreshes r.2 = Datatypes.S (ax_refreshes w) /\
  ax_sent r.2 = ax_sent w ++ [refresh_request REACT_APP_API_URL refreshTokenConfig w].
Proof.
  unfold refreshAccessToken, dispatch; simpl.
  destruct (serve _ (ax_net w)) as [res n'] eqn:Hs; simpl.
  destruct (settle _ _ res) as [response | err]; simpl; [| done].
  destruct (nullish (ar_data response)); simpl; [done |].
  destruct (negb _ || negb _); simpl; done.
Qed.

(** A refresh that fails saves nothing and reports no token. *)
Lemma axios_refresh_failure w :
  (forall req, axios_refresh_fails (serve req (ax_net w)).1 = true) ->
  let r := refreshAccessToken serve REACT_APP_API_URL refreshTokenConfig w in
  r.1 = (false, VUndefined) /\ userData r.2 = userData w.
Proof.
  intros Hfail. unfold refreshAccessToken, dispatch; simpl.
  match goal with |- context [serve ?req (ax_net w)] => specialize (Hfail req) end.
  destruct (serve _ (ax_net w)) as [[msg | st tx d] n'] eqn:Hs; simpl in *; [done |].
  destruct ((200 <=? st) && (st <? 300)); simpl in *; [| done].
  destruct d; simpl in *; try done.
  destruct (negb _ || negb _); simpl; [done | discriminate].
Qed.

(** A rejection that carries no response passes every handler as it is. *)
Lemma axios_handlers_no_response inst k msg req w :
  run_handlers serve REACT_APP_API_URL refreshTokenConfig inst k
    (Rejected (AxiosError msg None req)) w =
  Some (Rejected (AxiosError msg None req), w).
Proof. induction k as [| k IH]; simpl; done. Qed.





Lemma axios_instance_step fuel k req w :
  instance_request serve REACT_APP_API_URL refreshTokenConfig (Datatypes.S fuel) k req w =
  run_handlers serve REACT_APP_API_URL refreshTokenConfig
    (instance_request serve REACT_APP_API_URL refreshTokenConfig fuel k) k
    (settle (platform w) req (serve req (ax_net w)).1)
    (mkAxWorld (ax_heap w) (serve req (ax_net w)).2 (ax_sent w ++ [req])
       (ax_refreshes w) (userData w) (platform w)).
Proof. simpl. unfold dispatch. by destruct (serve req (ax_net w)). Qed.

(** A request that gets no response: [send] answers 500 with the error's
    own message, after that one dispatch. *)
Lemma axios_send_network_failure fuel this w msg :
  let req := send_request REACT_APP_API_URL (setInterceptors this) w in
  (serve req (ax_net w)).1 = AxNetworkError msg ->
  let r := send serve REACT_APP_API_URL refreshTokenConfig (Datatypes.S fuel) this w in
  exists this' w', r = Some (new_ApiResponse 500 msg VUndefined, this', w') /\
    ax_sent w' = ax_sent w ++ [req] /\ ax_refreshes w' = ax_refreshes w /\
    userData w' = userData w.
Proof.
  cbn zeta. intros Hs. unfold send. rewrite axios_instance_step, Hs.
  cbn [settle]. rewrite axios_handlers_no_response.
  eexists _, _. split; [reflexivity |]. done.
Qed.

(** A 401 on the first [send] of a client, followed by a refresh that
    fails: the 401 comes back, with the error's message as status text,
    nothing is saved and the request is not sent again. *)
Lemma axios_send_refresh_failure fuel this w tx d :
  installed this = O ->
  let req := send_request REACT_APP_API_URL (setInterceptors this) w in
  (serve req (ax_net w)).1 = AxResponded 401 tx d ->
  (forall req', axios_refresh_fails (serve req' (serve req (ax_net w)).2).1 = true) ->
  let r := send serve REACT_APP_API_URL refreshTokenConfig (Datatypes.S fuel) this w in
  exists this' w' refresh_req,
    r = Some (new_ApiResponse 401 (status_error_message 401) VUndefined, this', w') /\
    userData w' = userData w /\
    ax_sent w' = ax_sent w ++ [req; refresh_req] /\
    ax_refreshes w' = Datatypes.S (ax_refreshes w).
Proof.
  cbn zeta. intros Hk Hs Hfail. unfold send.
  replace (installed (setInterceptors this)) with 1%nat by (simpl; by rewrite Hk).
  rewrite axios_instance_step, Hs. cbn [settle].
  change ((200 <=? 401) && (401 <? 300)) with false. cbv iota.
  cbn [run_handlers response_rejected ar_status].
  change (401 =? 401) with true. cbv iota.
  match goal with |- context [refreshAccessToken _ _ _ ?w1] =>
    pose proof (axios_refresh_failure w1 Hfail) as (Hr & Hu);
    pose proof (axios_refresh_frame w1) as (_ & Hc & Hq);
    set (w1' := w1) in *
  end.
  cbn zeta in Hr, Hu, Hc, Hq.
  destruct (refreshAccessToken serve REACT_APP_API_URL refreshTokenConfig w1')
    as [[ok newToken] w2] eqn:Href. simpl in Hr, Hu, Hc, Hq.
  injection Hr as -> ->.
  eexists _, _, _. split; [reflexivity |]. rewrite Hu, Hq, Hc. subst w1'. simpl.
  by rewrite <- app_assoc.
Qed.

End AxiosFacts.

(** ** The fluent client: refresh and retry *)

Section FluentRefresh.

Import FluentClient.

Context {N E : Type}.
Variable serve : Request -> N -> FetchResult * N.
Variable REACT_APP_API_URL : option string.
Implicit Types (w : World N E) (this : ApiClient E) (s : St N E).

(** [send] never refreshes, and hands at most one request to [fetch]. *)
Lemma fluent_send_frame this w :
  let r := send serve (this, w) in
  refreshes r.2.2 = refreshes w /\
  headers r.2.1 = headers this /\ token r.2.1 = token this /\
  (sent r.2.2 = sent w \/ exists req, sent r.2.2 = sent w ++ [req]).
Proof.
  cbn zeta. rewrite fluent_send_run. cbn zeta.
  pose proof (fluent_setUrlParams_frame (this, w)) as F1.
  pose proof (fluent_setQueryParams_frame (setUrlParams (this, w))) as F2.
  cbn zeta in F1, F2.
  destruct F1 as (_ & _ & _ & F1h & F1t & _ & _ & F1s & F1r & _).
  destruct F2 as (_ & _ & F2h & F2t & _ & F2w).
  destruct (run_interceptors _ _) as [[[] | err] e']; cbn [fst snd].
  - destruct (serve _ (net w)) as [[| st tx [d |]] n']; cbn [fst snd];
      rewrite ?send_catch_state; cbn [fst snd sent refreshes];
      rewrite F2h, F2t, F1h, F1t; eauto 6.
  - rewrite send_catch_state; cbn [fst snd set_caller sent refreshes].
    rewrite F2h, F2t, F2w, F1h, F1t, F1s, F1r. eauto 6.
Qed.

Lemma fluent_refresh_run this w :
  let w1 := alloc [("refreshToken", VStr "refresh")] (count_refresh w) in
  let r := send serve (refresh_client REACT_APP_API_URL w1.1, w1.2) in
  refreshAccessToken serve REACT_APP_API_URL (this, w) =
  match r.1 with
  | Returned response =>
      (Returned (isSuccess response, data_accessToken response),
       (set_token (data_accessToken response) this, r.2.2))
  | Threw err => (Threw err, (this, r.2.2))
  end.
Proof.
  cbn zeta. unfold refreshAccessToken, refresh_client.
  unfold bind at 1, in_world at 1, modify at 1. cbn [fst snd].
  unfold bind at 1, in_world at 1. cbn [fst snd alloc].
  unfold bind at 1, on_client at 1. cbn [fst snd].
  destruct (send serve _) as [[response | err] [c' w']]; cbn [fst snd]; done.
Qed.

(** The refresh call itself always comes back with a response object. *)
Lemma fluent_refresh_send_returns (payload : loc) w :
  let r := send serve (refresh_client REACT_APP_API_URL payload, w) in
  exists response req, r.1 = Returned response /\
    sent r.2.2 = sent w ++ [req] /\ refreshes r.2.2 = refreshes w /\
    response =
      match (serve req (net w)).1 with
      | Responded st tx (Some d) => new_ApiResponse st tx d
      | _ => new_ApiResponse 500 "Internal Server Error" VUndefined
      end.
Proof.
  cbn zeta. rewrite fluent_send_run. cbn zeta.
  pose proof (fluent_setUrlParams_frame (refresh_client REACT_APP_API_URL payload, w)) as F1.
  pose proof (fluent_setQueryParams_frame
                (setUrlParams (refresh_client REACT_APP_API_URL payload, w))) as F2.
  cbn zeta in F1, F2.
  destruct F1 as (_ & _ & _ & _ & _ & _ & _ & F1s & F1r & _).
  destruct F2 as (_ & _ & _ & _ & _ & F2w).
  change (interceptor (refresh_client REACT_APP_API_URL payload)) with (@nil (Interceptor E)).
  cbn [run_interceptors forEach ret fst snd].
  match goal with |- context [serve ?q (net w)] => set (req := q) end.
  destruct (serve req (net w)) as [[| st tx [d |]] n'] eqn:Hs; cbn [fst snd];
    eexists _, req; rewrite Hs; cbn [fst snd send_catch TypeError SyntaxError ret];
    repeat split; reflexivity.
Qed.

(** [checkResponse] on a 401 whose refresh fails: the fixed 401 comes
    back, the Authorization header stays, and besides the refresh call
    nothing is sent. *)
Lemma fluent_checkResponse_refresh_failure (response : Response) this w :
  resp_status response = 401 ->
  (forall req, fluent_refresh_fails (serve req (net w)).1 = true) ->
  let r := checkResponse serve REACT_APP_API_URL response (this, w) in
  r.1 = Returned (new_ApiResponse 401 "Unauthorized" VUndefined) /\
  headers r.2.1 = headers this /\
  (exists req, sent r.2.2 = sent w ++ [req]) /\
  refreshes r.2.2 = Datatypes.S (refreshes w).
Proof.
  intros H401 Hfail.
  pose proof (fluent_refresh_send_returns
                (alloc [("refreshToken", VStr "refresh")] (count_refresh w)).1
                (alloc [("refreshToken", VStr "refresh")] (count_refresh w)).2)
    as (resp & req & Hr & Hs & Hc & Hresp).
  cbn zeta in Hr, Hs, Hc, Hresp. specialize (Hfail req).
  assert (negb (isSuccess resp) || negb (truthy (data_accessToken resp)) = true) as Hno.
  { subst resp. simpl net in *.
    destruct (serve req (net w)) as [[| st tx [d |]] n']; cbn [fst snd] in *; try done.
    unfold data_accessToken.
    destruct (nullish (Api.data (new_ApiResponse st tx d))) eqn:Hn; [| exact Hfail].
    apply orb_true_iff. right. done. }
  assert (checkResponse serve REACT_APP_API_URL response (this, w) =
          (Returned (new_ApiResponse 401 "Unauthorized" VUndefined),
           (set_token (data_accessToken resp) this,
            (send serve (refresh_client REACT_APP_API_URL
                           (alloc [("refreshToken", VStr "refresh")] (count_refresh w)).1,
                         (alloc [("refreshToken", VStr "refresh")] (count_refresh w)).2)).2.2)))
    as ->.
  { unfold checkResponse. rewrite H401. change (401 =? 401) with true. cbv iota.
    unfold bind at 1. rewrite fluent_refresh_run. cbn zeta.
    destruct (send serve _) as [out [c' w']]. cbn [fst snd] in *. subst out.
    by rewrite Hno. }
  cbn zeta. cbn [fst snd]. rewrite Hs, Hc. repeat split; eauto.
Qed.

(** [checkResponse] refreshes once on a 401 and never otherwise. *)
Lemma fluent_checkResponse_refreshes (response : Response) this w :
  refreshes (checkResponse serve REACT_APP_API_URL response (this, w)).2.2 =
  if resp_status response =? 401 then Datatypes.S (refreshes w) else refreshes w.
Proof.
  unfold checkResponse. destruct (resp_status response =? 401).
  - unfold bind at 1. rewrite fluent_refresh_run. cbn zeta.
    match goal with |- context [send serve (refresh_client _ ?p, ?w1)] =>
      pose proof (fluent_refresh_send_returns p w1) as (resp & req & Hr & Hs & Hc & _);
      cbn zeta in Hr, Hs, Hc
    end.
    destruct (send serve _) as [out [c' w']]. cbn [fst snd] in *. subst out.
    destruct (negb _ || negb _); cbn [fst snd ret]; [done |].
    unfold bind, modify; cbn [fst snd].
    match goal with |- context [send serve (?c, w')] =>
      pose proof (fluent_send_frame c w') as (F & _)
    end.
    cbn zeta in F. by rewrite F.
  - unfold bind, json. destruct (resp_body response); done.
Qed.


End FluentRefresh.

(** ** Parameter placement and templates without placeholders *)

Lemma includes_prefix_char (c : ascii) (rest s : string) :
  includes s (String c rest) = true ->
  includes s (String c EmptyString) = true.
Proof.
  induction s as [| a s IH]; simpl; [done |].
  destruct (Ascii.ascii_dec c a); [by destruct s | exact IH].
Qed.

(** A URL without an opening brace holds no placeholder at all. *)
Lemma no_brace_no_placeholder (url : string) (o : Obj) :
  includes url "{" = false -> no_placeholder url o.
Proof.
  intros H. apply Forall_forall. intros key _.
  destruct (includes url (placeholder key)) eqn:Hin; [| done].
  apply includes_prefix_char in Hin. congruence.
Qed.

(** C8. Given that the interceptors return, exactly one request is
    dispatched.  For GET it has no body, and its URL is the substituted
    URL followed by [?] and the form-encoding of the parameters that path
    substitution left; for any other method its URL is the substituted
    URL, with no query string, and its body is the JSON text of those
    remaining parameters.  (Without a parameter object there is neither
    query string nor body.)  Hook and fluent client alike. *)
Theorem parameters_go_to_query_or_body {N E : Type}
  (serve : Request -> N -> FetchResult * N) (REACT_APP_API_URL : option string)
  (_config : UseApiClient.apiClientConfig E) (this : FluentClient.ApiClient E)
  (w : World N E) :
  (run_interceptors (default [] (UseApiClient.interceptor _config)) (caller w)).1
    = Returned tt ->
  (run_interceptors (FluentClient.interceptor this) (caller w)).1 = Returned tt ->
  (let s1 := UseApiClient.setUrlParams (UseApiClient.local_config _config) w in
   let url1 := UseApiClient.c_url s1.1 in
   let remaining := option_map (fun l => obj_at l s1.2) (UseApiClient.data _config) in
   exists req,
     sent (UseApiClient.request serve REACT_APP_API_URL _config w).2 = sent w ++ [req] /\
     req_method req = UseApiClient.method _config /\
     (Http.is_get (UseApiClient.method _config) = true ->
      req_body req = None /\
      req_url req =
        UseApiClient.baseUrl REACT_APP_API_URL +:+
        match remaining with
        | Some o => url1 +:+ "?" +:+ URLSearchParams_toString o
        | None => url1
        end) /\
     (Http.is_get (UseApiClient.method _config) = false ->
      req_url req = UseApiClient.baseUrl REACT_APP_API_URL +:+ url1 /\
      req_body req = option_map JSON_stringify remaining)) /\
  (let s1 := FluentClient.setUrlParams (this, w) in
   let url1 := FluentClient.url s1.1 in
   let remaining := option_map (fun l => obj_at l s1.2) (FluentClient.data this) in
   exists req,
     sent (FluentClient.send serve (this, w)).2.2 = sent w ++ [req] /\
     req_method req = FluentClient.httpMethod this /\
     (Http.is_get (FluentClient.httpMethod this) = true ->
      req_body req = None /\
      req_url req =
        match remaining with
        | Some o => url1 +:+ "?" +:+ URLSearchParams_toString o
        | None => url1
        end) /\
     (Http.is_get (FluentClient.httpMethod this) = false ->
      req_url req = url1 /\
      req_body req = option_map JSON_stringify remaining)).
Proof.
  intros Hhook Hfluent. split.
  - cbn zeta. rewrite hook_request_run. cbn zeta.
    pose proof (hook_setUrlParams_frame (N:=N) (UseApiClient.local_config _config) w) as F.
    cbn zeta in F. destruct F as (Fm & Fd & _ & _ & Fi & _).
    set (s1 := UseApiClient.setUrlParams (UseApiClient.local_config _config) w) in *.
    pose proof (hook_setQueryParams_frame s1.1 s1.2) as Q.
    pose proof (hook_set_Authorization_frame (UseApiClient.setQueryParams s1.1 s1.2) s1.2) as A.
    cbn zeta in Q, A. destruct Q as (Qm & Qd & _ & _ & Qi).
    destruct A as (Am & Ad & Au & Ai).
    cbn [UseApiClient.local_config UseApiClient.c_method UseApiClient.c_data
           UseApiClient.c_interceptor] in Fm, Fd, Fi.
    rewrite Ai, Qi, Fi. clear Hfluent.
    destruct (run_interceptors _ (caller w)) as [[[] | err] e']; [| discriminate].
    cbn [fst snd].
    match goal with |- context [serve ?q (net w)] => exists q end.
    split; [| split; [| split]].
    + destruct (serve _ (net w)) as [[| st tx [d |]] n']; cbn [fst snd];
        by rewrite ?request_catch_state.
    + cbn [req_method]. by rewrite Am, Qm, Fm.
    + intros Hget. cbn [req_body req_url]. rewrite Au.
      unfold UseApiClient.request_body. rewrite Ad, Qd, Am, Qm, Fd, Fm, Hget.
      unfold UseApiClient.setQueryParams. rewrite Fd, Fm, Hget.
      destruct (UseApiClient.data _config); done.
    + intros Hget. cbn [req_body req_url]. rewrite Au.
      unfold UseApiClient.request_body. rewrite Ad, Qd, Am, Qm, Fd, Fm, Hget.
      unfold UseApiClient.setQueryParams. rewrite Fd, Fm, Hget.
      destruct (UseApiClient.data _config); done.
  - cbn zeta. rewrite fluent_send_run. cbn zeta.
    pose proof (fluent_setUrlParams_frame (this, w)) as F.
    cbn zeta in F. destruct F as (_ & Fm & Fd & _).
    set (s1 := FluentClient.setUrlParams (this, w)) in *.
    cbn [fst snd] in Fm, Fd. clear Hhook.
    destruct (run_interceptors _ (caller w)) as [[[] | err] e']; [| discriminate].
    cbn [fst snd].
    match goal with |- context [serve ?q (net w)] => exists q end.
    split; [| split; [| split]].
    + destruct (serve _ (net w)) as [[| st tx [d |]] n']; cbn [fst snd];
        by rewrite ?send_catch_state.
    + done.
    + intros Hget. cbn [req_body req_url].
      unfold FluentClient.send_body, FluentClient.setQueryParams.
      destruct s1 as [c1 w1]. cbn [fst snd] in *.
      destruct (FluentClient.data this) eqn:Hd; rewrite Fd, ?Fm, ?Hget;
        simpl; rewrite ?Fd; done.
    + intros Hget. cbn [req_body req_url].
      unfold FluentClient.send_body, FluentClient.setQueryParams.
      destruct s1 as [c1 w1]. cbn [fst snd] in *.
      destruct (FluentClient.data this) eqn:Hd; rewrite Fd, ?Fm, ?Hget;
        cbn [negb option_map fst snd]; rewrite ?Fd, ?Fm, ?Hget; done.
Qed.

Lemma parameters_go_to_query_or_body_witness :
  let w := world_of [user_params] [Responded 200 "OK" (Some VNull)] in
  (exists req,
     sent (UseApiClient.request scripted (Some "https://api.test")
             (users_get [tick]) w).2 = [req] /\
     req_url req = "https://api.test/users/42?active=true" /\
     req_body req = None) /\
  (exists req,
     sent (FluentClient.send scripted (users_client Http.post [tick], w)).2.2 = [req] /\
     req_url req = "/users/42" /\
     req_body req = Some (JSON_stringify [("active", VBool true)])).
Proof.
  cbn zeta.
  destruct (parameters_go_to_query_or_body scripted (Some "https://api.test")
              (users_get [tick]) (users_client Http.post [tick])
              (world_of [user_params] [Responded 200 "OK" (Some VNull)])
              eq_refl eq_refl) as [Hhook Hfluent].
  split.
  - destruct Hhook as (req & Hsent & _ & Hget & _).
    destruct (Hget eq_refl) as [Hbody Hurl].
    exists req. split; [exact Hsent |]. split; [| exact Hbody].
    rewrite Hurl. vm_compute. reflexivity.
  - destruct Hfluent as (req & Hsent & _ & _ & Hother).
    destruct (Hother eq_refl) as [Hurl Hbody].
    exists req. split; [exact Hsent |]. split.
    + rewrite Hurl. vm_compute. reflexivity.
    + rewrite Hbody. vm_compute. reflexivity.
Defined.

(** C9. When no key of the parameter mapping has its [{key}] token in
    the URL template, path substitution changes nothing: the URL is the
    template, the mapping is the original one, and it is this full
    mapping that the query string (GET) or the body (other methods) is
    made from.  Hook and fluent client alike. *)
Theorem substitution_leaves_plain_templates {N E : Type}
  (_config : UseApiClient.apiClientConfig E) (this : FluentClient.ApiClient E)
  (w : World N E) (l : loc) (o : Obj) :
  UseApiClient.data _config = Some l ->
  FluentClient.data this = Some l ->
  heap w !! l = Some o ->
  no_placeholder (UseApiClient.url _config) o ->
  no_placeholder (FluentClient.url this) o ->
  (let config := UseApiClient.local_config _config in
   UseApiClient.setUrlParams config w = (config, w) /\
   UseApiClient.c_url (UseApiClient.setUrlParams config w).1 = UseApiClient.url _config /\
   obj_at l (UseApiClient.setUrlParams config w).2 = o /\
   UseApiClient.c_url (UseApiClient.setQueryParams config w) =
     (if Http.is_get (UseApiClient.method _config)
      then UseApiClient.url _config +:+ "?" +:+ URLSearchParams_toString o
      else UseApiClient.url _config) /\
   UseApiClient.request_body config w =
     (if Http.is_get (UseApiClient.method _config) then None
      else Some (JSON_stringify o))) /\
  (FluentClient.setUrlParams (this, w) = (this, w) /\
   FluentClient.url (FluentClient.setUrlParams (this, w)).1 = FluentClient.url this /\
   obj_at l (FluentClient.setUrlParams (this, w)).2 = o /\
   FluentClient.url (FluentClient.setQueryParams (this, w)).1 =
     (if Http.is_get (FluentClient.httpMethod this)
      then FluentClient.url this +:+ "?" +:+ URLSearchParams_toString o
      else FluentClient.url this) /\
   FluentClient.send_body (FluentClient.setQueryParams (this, w)) =
     (if Http.is_get (FluentClient.httpMethod this) then None
      else Some (JSON_stringify o))).
Proof.
  intros Hd Hd' Hl Hno Hno'. split.
  - cbn zeta.
    rewrite (hook_setUrlParams_identity (UseApiClient.local_config _config) w l o Hd Hl Hno).
    cbn [fst snd]. rewrite (obj_at_lookup _ _ _ Hl).
    unfold UseApiClient.setQueryParams, UseApiClient.request_body.
    cbn [UseApiClient.local_config UseApiClient.c_data UseApiClient.c_method
           UseApiClient.c_url].
    rewrite Hd, (obj_at_lookup _ _ _ Hl).
    destruct (Http.is_get (UseApiClient.method _config)); done.
  - rewrite (fluent_setUrlParams_identity this w l o Hd' Hl Hno').
    cbn [fst snd]. rewrite (obj_at_lookup _ _ _ Hl).
    unfold FluentClient.setQueryParams, FluentClient.send_body.
    rewrite Hd', (obj_at_lookup _ _ _ Hl).
    destruct (Http.is_get (FluentClient.httpMethod this)) eqn:Hget; simpl;
      rewrite ?Hd', ?Hget, ?(obj_at_lookup _ _ _ Hl); done.
Qed.

Lemma substitution_leaves_plain_templates_witness :
  let w := world_of [order_params] [] in
  no_placeholder "/orders" order_params /\
  UseApiClient.setUrlParams (UseApiClient.local_config orders_post) w
    = (UseApiClient.local_config orders_post, w) /\
  UseApiClient.request_body (UseApiClient.local_config orders_post) w
    = Some (JSON_stringify order_params) /\
  FluentClient.setUrlParams (orders_client, w) = (orders_client, w).
Proof.
  cbn zeta.
  assert (no_placeholder "/orders" order_params) as Hno.
  { apply no_brace_no_placeholder. reflexivity. }
  destruct (substitution_leaves_plain_templates orders_post orders_client
              (world_of [order_params] []) O order_params
              eq_refl eq_refl eq_refl Hno Hno)
    as [(Hs & _ & _ & _ & Hb) (Hf & _)].
  split; [exact Hno |]. split; [exact Hs |]. split; [exact Hb | exact Hf].
Defined.

(** ** The caller's parameter mapping *)

(** What [remove_keys] keeps: the entries whose key is not listed. *)
Lemma remove_keys_spec (ks : list string) (o : Obj) (k : string) (v : JsValue) :
  In (k, v) (remove_keys ks o) <-> In (k, v) o /\ ~ In k ks.
Proof.
  unfold remove_keys. rewrite filter_In. simpl.
  rewrite negb_true_iff, <- not_true_iff_false, existsb_exists.
  split; intros [Hin Hno]; (split; [done |]).
  - intros Hk. apply Hno. exists k. split; [done |]. apply String.eqb_refl.
  - intros (k' & Hk' & Heq). apply String.eqb_eq in Heq. by subst.
Qed.




(** ** Transport failures *)

Lemma hook_transport_failure_text :
  let w := world_of [user_params] [] in
  (forall req, (scripted req (net w)).1 = NetworkFailure) /\
  (UseApiClient.request scripted None (users_get []) w).1
    = Returned (new_ApiResponse 500 "Internal Server Error!" VUndefined) /\
  (UseApiClient.request scripted None (users_get []) w).1
    <> Returned (new_ApiResponse 500 "Internal Server Error" VUndefined).
Proof.
  cbn zeta. split; [done |]. split; [vm_compute; reflexivity |].
  vm_compute. discriminate.
Qed.

Lemma axios_transport_failure_text :
  let built := users_axios [] in
  option_map (fun out => out.1.1)
    (AxiosClient.send ax_scripted None refresh_config 1 built.1 built.2)
  = Some (new_ApiResponse 500 "Network Error" VUndefined).
Proof. vm_compute. reflexivity. Qed.

(** C5, as the code has it.  When the interceptors return and the
    transport then fails without a response, one request has been
    dispatched and none follows, no refresh is attempted, and the result
    has status 500 and no data.  Its status text is "Internal Server
    Error" in the fluent client and the message of the transport error in
    the axios client. *)
Theorem transport_failure_gives_500 {N E NA : Type}
  (serve : Request -> N -> FetchResult * N) (REACT_APP_API_URL : option string)
  (serveA : AxiosClient.AxiosRequestConfig -> NA -> AxiosClient.AxiosResult * NA)
  (refreshTokenConfig : AxiosClient.ApiConfig)
  (_config : UseApiClient.apiClientConfig E) (this : FluentClient.ApiClient E)
  (client : AxiosClient.ApiClient) (fuel : nat) (message : string)
  (w : World N E) (aw : AxiosClient.AxWorld NA) :
  (run_interceptors (default [] (UseApiClient.interceptor _config)) (caller w)).1
    = Returned tt ->
  (run_interceptors (FluentClient.interceptor this) (caller w)).1 = Returned tt ->
  (forall req, (serve req (net w)).1 = NetworkFailure) ->
  (forall req, (serveA req (AxiosClient.ax_net aw)).1 = AxiosClient.AxNetworkError message) ->
  (let r := FluentClient.send serve (this, w) in
   r.1 = Returned (new_ApiResponse 500 "Internal Server Error" VUndefined) /\
   (exists req, sent r.2.2 = sent w ++ [req]) /\
   refreshes r.2.2 = refreshes w) /\
  (let r := UseApiClient.request serve REACT_APP_API_URL _config w in
   (exists response, r.1 = Returned response /\
      status response = 500 /\ data response = VUndefined) /\
   (exists req, sent r.2 = sent w ++ [req]) /\
   refreshes r.2 = refreshes w) /\
  (exists this' aw' req,
     AxiosClient.send serveA REACT_APP_API_URL refreshTokenConfig (Datatypes.S fuel) client aw
       = Some (new_ApiResponse 500 message VUndefined, this', aw') /\
     AxiosClient.ax_sent aw' = AxiosClient.ax_sent aw ++ [req] /\
     AxiosClient.ax_refreshes aw' = AxiosClient.ax_refreshes aw).
Proof.
  intros Hhook Hfluent Hdown HdownA. split; [| split].
  - cbn zeta. rewrite fluent_send_run. cbn zeta. clear Hhook.
    destruct (run_interceptors _ (caller w)) as [[[] | err] e']; [| discriminate].
    cbn [fst snd]. rewrite Hdown. cbn [fst snd FluentClient.send_catch TypeError ret].
    eauto.
  - cbn zeta. rewrite hook_request_run. cbn zeta.
    pose proof (hook_setUrlParams_frame (N:=N) (UseApiClient.local_config _config) w) as F.
    cbn zeta in F. destruct F as (_ & _ & _ & _ & Fi & _).
    set (s1 := UseApiClient.setUrlParams (UseApiClient.local_config _config) w) in *.
    pose proof (hook_setQueryParams_frame s1.1 s1.2) as Q.
    pose proof (hook_set_Authorization_frame (UseApiClient.setQueryParams s1.1 s1.2) s1.2) as A.
    cbn zeta in Q, A. destruct Q as (_ & _ & _ & _ & Qi). destruct A as (_ & _ & _ & Ai).
    cbn [UseApiClient.local_config UseApiClient.c_interceptor] in Fi.
    rewrite Ai, Qi, Fi. clear Hfluent.
    destruct (run_interceptors _ (caller w)) as [[[] | err] e']; [| discriminate].
    cbn [fst snd]. rewrite Hdown.
    cbn [fst snd UseApiClient.request_catch TypeError ret]. eauto 10.
  - destruct (axios_send_network_failure serveA REACT_APP_API_URL refreshTokenConfig
                fuel client aw message (HdownA _)) as (this' & aw' & Hr & Hs & Hc & _).
    eauto 10.
Qed.

Lemma transport_failure_gives_500_witness :
  let w := world_of [user_params] [] in
  let built := users_axios [] in
  (FluentClient.send scripted (users_client Http.get [tick], w)).1
    = Returned (new_ApiResponse 500 "Internal Server Error" VUndefined) /\
  (exists this' aw' req,
     AxiosClient.send ax_scripted None refresh_config 1 built.1 built.2
       = Some (new_ApiResponse 500 "Network Error" VUndefined, this', aw') /\
     AxiosClient.ax_sent aw' = AxiosClient.ax_sent built.2 ++ [req] /\
     AxiosClient.ax_refreshes aw' = AxiosClient.ax_refreshes built.2).
Proof.
  cbn zeta.
  destruct (transport_failure_gives_500 scripted None ax_scripted refresh_config
              (users_get [tick]) (users_client Http.get [tick])
              (users_axios []).1
              O "Network Error"
              (world_of [user_params] [])
              (users_axios []).2
              eq_refl eq_refl (fun _ => eq_refl) (fun _ => eq_refl))
    as ((Hf & _) & _ & Ha).
  split; [exact Hf | exact Ha].
Defined.

(** ** Interceptors that throw *)

Lemma interceptor_exception_is_swallowed :
  let w := world_of [user_params] [Responded 200 "OK" (Some VNull)] in
  (run_interceptors [tick; boom; tick] (caller w)).1
    = Threw (ThrownValue "Error" None None) /\
  (FluentClient.send scripted (users_client Http.get [tick; boom; tick], w)).1
    = Returned (new_ApiResponse 500 "Internal Server Error" VUndefined) /\
  sent (FluentClient.send scripted (users_client Http.get [tick; boom; tick], w)).2.2
    = [] /\
  caller (FluentClient.send scripted (users_client Http.get [tick; boom; tick], w)).2.2
    = 2%nat /\
  (UseApiClient.request scripted None (users_get [tick; boom; tick]) w).1
    = Returned (new_ApiResponse 500 "Internal Server Error!" VUndefined) /\
  (FluentClient.send scripted (users_client Http.get [tick; boom; tick], w)).1
    <> Threw (ThrownValue "Error" None None).
Proof.
  cbn zeta. repeat split; try (vm_compute; reflexivity). vm_compute. discriminate.
Qed.

(** C7, as the code has it.  An interceptor that throws (anything but
    [null] or [undefined]) ends the run of the interceptors and nothing is
    dispatched; the exception does not leave the call, the [catch] clause
    turns it into a response without data that is returned normally: 500
    "Internal Server Error" in the fluent client, status [e.status ?? 500]
    in the hook. *)
Theorem interceptor_exception_becomes_response {N E : Type}
  (serve : Request -> N -> FetchResult * N) (REACT_APP_API_URL : option string)
  (_config : UseApiClient.apiClientConfig E) (this : FluentClient.ApiClient E)
  (w : World N E) (name : string) (st : option Z) (tx : option string) :
  (run_interceptors (default [] (UseApiClient.interceptor _config)) (caller w)).1
    = Threw (ThrownValue name st tx) ->
  (run_interceptors (FluentClient.interceptor this) (caller w)).1
    = Threw (ThrownValue name st tx) ->
  (let r := FluentClient.send serve (this, w) in
   r.1 = Returned (new_ApiResponse 500 "Internal Server Error" VUndefined) /\
   sent r.2.2 = sent w /\ net r.2.2 = net w /\
   caller r.2.2 = (run_interceptors (FluentClient.interceptor this) (caller w)).2) /\
  (let r := UseApiClient.request serve REACT_APP_API_URL _config w in
   (exists response, r.1 = Returned response /\
      status response = default 500 st /\ data response = VUndefined) /\
   sent r.2 = sent w /\ net r.2 = net w /\
   caller r.2 =
     (run_interceptors (default [] (UseApiClient.interceptor _config)) (caller w)).2).
Proof.
  intros Hhook Hfluent. split.
  - cbn zeta. rewrite fluent_send_run. cbn zeta. clear Hhook.
    pose proof (fluent_setUrlParams_frame (this, w)) as F1.
    pose proof (fluent_setQueryParams_frame (FluentClient.setUrlParams (this, w))) as F2.
    cbn zeta in F1, F2.
    destruct F1 as (_ & _ & _ & _ & _ & _ & F1n & F1s & _).
    destruct F2 as (_ & _ & _ & _ & _ & F2w).
    destruct (run_interceptors _ (caller w)) as [[[] | err] e']; [discriminate |].
    cbn [fst snd] in *. injection Hfluent as ->.
    cbn [FluentClient.send_catch ret fst snd set_caller sent net caller].
    by rewrite F2w, F1n, F1s.
  - cbn zeta. rewrite hook_request_run. cbn zeta.
    pose proof (hook_setUrlParams_frame (N:=N) (UseApiClient.local_config _config) w) as F.
    cbn zeta in F. destruct F as (_ & _ & _ & _ & Fi & Fn & Fs & _).
    set (s1 := UseApiClient.setUrlParams (UseApiClient.local_config _config) w) in *.
    pose proof (hook_setQueryParams_frame s1.1 s1.2) as Q.
    pose proof (hook_set_Authorization_frame (UseApiClient.setQueryParams s1.1 s1.2) s1.2) as A.
    cbn zeta in Q, A. destruct Q as (_ & _ & _ & _ & Qi). destruct A as (_ & _ & _ & Ai).
    cbn [UseApiClient.local_config UseApiClient.c_interceptor] in Fi.
    rewrite Ai, Qi, Fi. clear Hfluent.
    destruct (run_interceptors _ (caller w)) as [[[] | err] e']; [discriminate |].
    cbn [fst snd] in *. injection Hhook as ->.
    cbn [UseApiClient.request_catch ret fst snd set_caller sent net caller].
    pose proof (hook_set_Authorization_world
                  (UseApiClient.setQueryParams s1.1 s1.2) s1.2) as (_ & An & As & _).
    cbn zeta in An, As. rewrite An, As, Fn, Fs. eauto 10.
Qed.

Lemma interceptor_exception_becomes_response_witness :
  let w := world_of [user_params] [Responded 200 "OK" (Some VNull)] in
  (FluentClient.send scripted (users_client Http.get [tick; boom; tick], w)).1
    = Returned (new_ApiResponse 500 "Internal Server Error" VUndefined) /\
  sent (FluentClient.send scripted (users_client Http.get [tick; boom; tick], w)).2.2 = [] /\
  sent (UseApiClient.request scripted None (users_get [tick; boom; tick]) w).2 = [].
Proof.
  cbn zeta.
  destruct (interceptor_exception_becomes_response scripted None
              (users_get [tick; boom; tick]) (users_client Http.get [tick; boom; tick])
              (world_of [user_params] [Responded 200 "OK" (Some VNull)])
              "Error" None None eq_refl eq_refl)
    as ((Hr & Hs & _) & (_ & Hs' & _)).
  split; [exact Hr |]. split; [exact Hs | exact Hs'].
Defined.

(** ** A refresh that fails *)

(** The fluent client asks only for an access token: a refresh answer
    without a refresh token counts as a success, the token is taken and
    the request is sent again. *)
Lemma fluent_refresh_without_refresh_token :
  let answer := VObj [("accessToken", VStr "access-2")] in
  let w := world_of [order_params]
             [Responded 200 "OK" (Some answer); Responded 200 "OK" (Some (VStr "done"))] in
  let r := FluentClient.checkResponse scripted None (mkResponse 401 "Unauthorized" None)
             (FluentClient.setToken (VStr "access-1") orders_client, w) in
  get_prop answer "refreshToken" = VUndefined /\
  r.1 = Returned (new_ApiResponse 200 "OK" (VStr "done")) /\
  r.1 <> Returned (new_ApiResponse 401 "Unauthorized" VUndefined) /\
  FluentClient.token r.2.1 = VStr "access-2" /\
  FluentClient.headers r.2.1 !! "Authorization" = Some "Bearer access-2" /\
  length (sent r.2.2) = 2%nat.
Proof.
  cbn zeta. repeat split; try (vm_compute; reflexivity). vm_compute. discriminate.
Qed.

(** The fluent client overwrites its [token] field before it looks at the
    outcome of the refresh: after a failed refresh the field is empty,
    while the Authorization header still carries the old token. *)
Lemma fluent_failed_refresh_overwrites_token :
  let w := world_of [order_params] [] in
  let r := FluentClient.checkResponse scripted None (mkResponse 401 "Unauthorized" None)
             (FluentClient.setToken (VStr "access-1") orders_client, w) in
  r.1 = Returned (new_ApiResponse 401 "Unauthorized" VUndefined) /\
  FluentClient.token r.2.1 = VUndefined /\
  FluentClient.headers r.2.1 !! "Authorization" = Some "Bearer access-1".
Proof. cbn zeta. repeat split; vm_compute; reflexivity. Qed.

(** The axios client returns the 401 with the message of the rejected
    error, not with "Unauthorized". *)
Lemma axios_failed_refresh_text :
  let built := users_axios [AxiosClient.AxResponded 401 "Unauthorized" VNull] in
  option_map (fun out => out.1.1)
    (AxiosClient.send ax_scripted None refresh_config 1 built.1 built.2)
  = Some (new_ApiResponse 401 "Request failed with status code 401" VUndefined).
Proof. vm_compute. reflexivity. Qed.

(** C4, as the code has it.  A refresh fails, for the fluent client, when
    the refresh call gets no response, a body that is not JSON, a status
    other than 200, 201 and 204, or no truthy access token; for the axios
    client, when it gets no response, a status outside 200 to 299, or a
    body without a truthy access token or refresh token.  After such a
    failure the original request is not sent again.  The fluent
    [checkResponse] returns [ApiResponse(401, "Unauthorized", absent)]
    and leaves the Authorization header as it was; the axios [send], on
    the first use of a client, saves nothing to the token store and
    returns status 401 without data, with the message of the rejected
    error as status text. *)
Theorem failed_refresh_returns_401 {N E NA : Type}
  (serve : Request -> N -> FetchResult * N) (REACT_APP_API_URL : option string)
  (serveA : AxiosClient.AxiosRequestConfig -> NA -> AxiosClient.AxiosResult * NA)
  (refreshTokenConfig : AxiosClient.ApiConfig)
  (response : Response) (this : FluentClient.ApiClient E) (w : World N E)
  (client : AxiosClient.ApiClient) (fuel : nat) (aw : AxiosClient.AxWorld NA)
  (tx : string) (d : JsValue) :
  let req := AxiosClient.send_request REACT_APP_API_URL
               (AxiosClient.setInterceptors client) aw in
  resp_status response = 401 ->
  (forall q, fluent_refresh_fails (serve q (net w)).1 = true) ->
  AxiosClient.installed client = O ->
  (serveA req (AxiosClient.ax_net aw)).1 = AxiosClient.AxResponded 401 tx d ->
  (forall q, axios_refresh_fails (serveA q (serveA req (AxiosClient.ax_net aw)).2).1 = true) ->
  (let r := FluentClient.checkResponse serve REACT_APP_API_URL response (this, w) in
   r.1 = Returned (new_ApiResponse 401 "Unauthorized" VUndefined) /\
   FluentClient.headers r.2.1 = FluentClient.headers this /\
   (exists q, sent r.2.2 = sent w ++ [q]) /\
   refreshes r.2.2 = Datatypes.S (refreshes w)) /\
  (exists this' aw' q,
     AxiosClient.send serveA REACT_APP_API_URL refreshTokenConfig (Datatypes.S fuel) client aw
       = Some (new_ApiResponse 401 (AxiosClient.status_error_message 401) VUndefined,
               this', aw') /\
     AxiosClient.userData aw' = AxiosClient.userData aw /\
     AxiosClient.ax_sent aw' = AxiosClient.ax_sent aw ++ [req; q] /\
     AxiosClient.ax_refreshes aw' = Datatypes.S (AxiosClient.ax_refreshes aw)).
Proof.
  intros req H401 Hfail Hfirst Hexp HfailA. split.
  - by apply fluent_checkResponse_refresh_failure.
  - by apply (axios_send_refresh_failure serveA REACT_APP_API_URL refreshTokenConfig
                fuel client aw tx d).
Qed.

Lemma failed_refresh_returns_401_witness :
  let w := world_of [order_params] [Responded 500 "Down" (Some VNull)] in
  let built := users_axios [AxiosClient.AxResponded 401 "Unauthorized" VNull] in
  (FluentClient.checkResponse scripted None (mkResponse 401 "Unauthorized" None)
     (orders_client, w)).1
    = Returned (new_ApiResponse 401 "Unauthorized" VUndefined) /\
  (exists this' aw' q,
     AxiosClient.send ax_scripted None refresh_config 1 built.1 built.2
       = Some (new_ApiResponse 401 (AxiosClient.status_error_message 401) VUndefined,
               this', aw') /\
     AxiosClient.userData aw' = AxiosClient.userData built.2 /\
     AxiosClient.ax_sent aw' =
       AxiosClient.ax_sent built.2 ++
       [AxiosClient.send_request None (AxiosClient.setInterceptors built.1) built.2; q] /\
     AxiosClient.ax_refreshes aw' = Datatypes.S (AxiosClient.ax_refreshes built.2)).
Proof.
  cbn zeta.
  assert (forall q,
    fluent_refresh_fails
      (scripted q (net (world_of [order_params] [Responded 500 "Down" (Some VNull)]))).1
    = true) as Hfail by (intros q; reflexivity).
  destruct (failed_refresh_returns_401 scripted None ax_scripted refresh_config
              (mkResponse 401 "Unauthorized" None) orders_client
              (world_of [order_params] [Responded 500 "Down" (Some VNull)])
              (users_axios [AxiosClient.AxResponded 401 "Unauthorized" VNull]).1 O
              (users_axios [AxiosClient.AxResponded 401 "Unauthorized" VNull]).2
              "Unauthorized" VNull
              eq_refl Hfail eq_refl eq_refl (fun _ => eq_refl))
    as ((Hr & _) & Ha).
  split; [exact Hr | exact Ha].
Defined.

(** ** One refresh per call? *)

(** The fluent client: [send] never refreshes and [checkResponse]
    refreshes at most once; after a successful refresh it is one more
    [send], whose answer, a 401 included, is what [checkResponse]
    returns (see [fluent_checkResponse_retry]). *)
Lemma fluent_refresh_at_most_once {N E : Type}
  (serve : Request -> N -> FetchResult * N) (REACT_APP_API_URL : option string)
  (response : Response) (this : FluentClient.ApiClient E) (w : World N E) :
  refreshes (FluentClient.send serve (this, w)).2.2 = refreshes w /\
  (refreshes (FluentClient.checkResponse serve REACT_APP_API_URL response (this, w)).2.2
   <= Datatypes.S (refreshes w))%nat.
Proof.
  split.
  - apply (fluent_send_frame serve this w).
  - rewrite fluent_checkResponse_refreshes.
    destruct (resp_status response =? 401); lia.
Qed.

Lemma fluent_retry_401_is_returned :
  let w := world_of [order_params]
             [fresh_tokens_fetch; Responded 401 "Unauthorized" (Some VNull)] in
  let r := FluentClient.checkResponse scripted None (mkResponse 401 "Unauthorized" None)
             (orders_client, w) in
  r.1 = Returned (new_ApiResponse 401 "Unauthorized" VNull) /\
  refreshes r.2.2 = 1%nat /\ length (sent r.2.2) = 2%nat.
Proof. cbn zeta. repeat split; vm_compute; reflexivity. Qed.

Lemma expiring_other_endpoint (req : AxiosClient.AxiosRequestConfig) (n : nat) :
  String.eqb (AxiosClient.ax_url req) "/auth/refresh" = false ->
  expiring req n =
  match n with
  | O => (AxiosClient.AxResponded 200 "OK" (VStr "done"), O)
  | Datatypes.S n' => (AxiosClient.AxResponded 401 "Unauthorized" VNull, n')
  end.
Proof. unfold expiring. by intros ->. Qed.

(** The axios client.  The rejected handler sends the request again
    through the instance it sits on, so a 401 on the retry reaches the
    same handler: against [expiring], every 401 costs one refresh and one
    more dispatch, however many there are.  The 200 that ends the run
    then meets the fulfilled handler. *)
Lemma axios_refreshes_once_per_401 (n : nat) :
  forall (fuel : nat) (req : AxiosClient.AxiosRequestConfig)
         (w : AxiosClient.AxWorld nat),
    (n < fuel)%nat ->
    String.eqb (AxiosClient.ax_url req) "/auth/refresh" = false ->
    AxiosClient.ax_net w = n ->
    exists w',
      AxiosClient.instance_request expiring None refresh_config fuel 1 req w
        = Some (AxiosClient.response_fulfilled
                  (AxiosClient.stack_depth (AxiosClient.platform w))
                  (AxiosClient.mkAxiosResponse (VStr "done") 200 "OK"
                     (AxiosClient.adapter_headers (AxiosClient.platform w))
                     (AxiosClient.adapter_config (AxiosClient.platform w))
                     (AxiosClient.adapter_request (AxiosClient.platform w))), w') /\
      AxiosClient.ax_refreshes w' = (AxiosClient.ax_refreshes w + n)%nat /\
      length (AxiosClient.ax_sent w') =
        (length (AxiosClient.ax_sent w) + Datatypes.S (2 * n))%nat.
Proof.
  induction n as [| n IH]; intros fuel req w Hfuel Hurl Hnet.
  - destruct fuel as [| fuel]; [lia |].
    rewrite axios_instance_step, Hnet, (expiring_other_endpoint _ _ Hurl).
    cbn [fst snd AxiosClient.settle]. eexists. split; [reflexivity |].
    cbn [AxiosClient.ax_refreshes AxiosClient.ax_sent].
    rewrite length_app. simpl. lia.
  - destruct fuel as [| fuel]; [lia |].
    rewrite axios_instance_step, Hnet, (expiring_other_endpoint _ _ Hurl).
    cbn [fst snd AxiosClient.settle].
    change ((200 <=? 401) && (401 <? 300)) with false. cbv iota.
    cbn [AxiosClient.run_handlers AxiosClient.response_rejected AxiosClient.ar_status].
    change (401 =? 401) with true. cbv iota.
    match goal with |- context [AxiosClient.refreshAccessToken _ _ _ ?w1] =>
      set (w1' := w1)
    end.
    assert (AxiosClient.refreshAccessToken expiring None refresh_config w1' =
            ((true, VStr "access-2"),
             AxiosClient.mkAxWorld (AxiosClient.ax_heap w) n
               ((AxiosClient.ax_sent w ++ [req]) ++
                [AxiosClient.refresh_request None refresh_config
                   (AxiosClient.ax_count_refresh w1')])
               (Datatypes.S (AxiosClient.ax_refreshes w))
               (AxiosClient.mkUserData (VStr "access-2") (VStr "refresh-2"))
               (AxiosClient.platform w))) as ->.
    { reflexivity. }
    set (req' := AxiosClient.set_Authorization (VStr "access-2") req).
    match goal with |- context [AxiosClient.instance_request _ _ _ fuel 1 req' ?w2] =>
      destruct (IH fuel req' w2) as (w' & Hrun & Hcount & Hsent);
        [lia | exact Hurl | reflexivity |]
    end.
    rewrite Hrun. exists w'. split; [reflexivity |].
    rewrite Hcount, Hsent. cbn [AxiosClient.ax_refreshes AxiosClient.ax_sent].
    rewrite !length_app. simpl. lia.
Qed.

(** Against a remote end that keeps answering 401 the retries never end:
    whatever the bound on dispatches, it is used up. *)
Lemma axios_retry_never_settles (fuel : nat) :
  forall (req : AxiosClient.AxiosRequestConfig) (w : AxiosClient.AxWorld unit),
    String.eqb (AxiosClient.ax_url req) "/auth/refresh" = false ->
    AxiosClient.instance_request always_expired None refresh_config fuel 1 req w = None.
Proof.
  induction fuel as [| fuel IH]; intros req w Hurl; [done |].
  rewrite axios_instance_step.
  assert (forall u, always_expired req u =
                    (AxiosClient.AxResponded 401 "Unauthorized" VNull, u)) as ->.
  { intros u. unfold always_expired. by rewrite Hurl. }
  cbn [fst snd AxiosClient.settle].
  change ((200 <=? 401) && (401 <? 300)) with false. cbv iota.
  cbn [AxiosClient.run_handlers AxiosClient.response_rejected AxiosClient.ar_status].
  change (401 =? 401) with true. cbv iota.
  match goal with |- context [AxiosClient.refreshAccessToken _ _ _ ?w1] =>
    set (w1' := w1)
  end.
  assert ((AxiosClient.refreshAccessToken always_expired None refresh_config w1').1 =
          (true, VStr "access-2")) as Hok by reflexivity.
  destruct (AxiosClient.refreshAccessToken always_expired None refresh_config w1')
    as [[ok newToken] w2].
  injection Hok as -> ->.
  by rewrite IH.
Qed.

(** C1: the axios client at two 401s in a row.  The first request and
    its retry are both answered 401; the specification has the second
    401 returned after a single refresh.  The code refreshes a second time
    and sends the request a third time: two refresh calls, five
    dispatches in all, and the caller gets the 200 of the third try. *)
Theorem axios_second_401_refreshes_again :
  let built := AxiosClient.new_ApiClient users_config O VUndefined
                 (ax_world_of [user_params] 2%nat) in
  exists this' w',
    AxiosClient.send expiring None refresh_config 5 built.1 built.2
      = Some (new_ApiResponse 200 "OK" (VStr "done"), this', w') /\
    AxiosClient.ax_refreshes w' = 2%nat /\
    map AxiosClient.ax_url (AxiosClient.ax_sent w') =
      ["/users/42"; "/auth/refresh"; "/users/42"; "/auth/refresh"; "/users/42"] /\
    AxiosClient.userData w' = AxiosClient.mkUserData (VStr "access-2") (VStr "refresh-2").
Proof.
  cbn zeta. eexists _, _. split; [vm_compute; reflexivity |].
  repeat split; vm_compute; reflexivity.
Qed.

(** * Further properties *)

(** ** The hooks in a chain *)

(** X1. A chain of the three hooks runs one callback at most, chosen by
    the flags: the token-expired callback on a 401; else, on a success,
    the success callback with [SuccessResponse(status, statusText, data)]
    if the payload is truthy and nothing at all if it is not; else the
    failure callback with the status and its text.  The chain returns the
    response it started from.  For a response built by the constructor,
    no callback runs exactly when the status is 200, 201 or 204 and the
    payload is falsy. *)
Theorem hook_chain_runs_one_callback {E : Type} (r : ApiResponse)
  (a : SuccessResponse -> M E unit) (b : FailInfo -> M E unit)
  (c : unit -> M E unit) (e : E) :
  react r a b c e =
    (if isTokenExpired r then (c tt ;;; ret r)%eff e
     else if isSuccess r then
       (if truthy (data r)
        then (a (new_SuccessResponse (status r) (statusText r) (data r)) ;;; ret r)%eff e
        else (Returned r, e))
     else (b (mkFailInfo (status r) (statusText r)) ;;; ret r)%eff e) /\
  (calls (react r count_call count_call count_call) <= 1)%nat /\
  (forall st tx d,
      calls (react (new_ApiResponse st tx d) count_call count_call count_call) = 0%nat <->
      (st = 200 \/ st = 201 \/ st = 204) /\ truthy d = false).
Proof.
  split; [| split].
  - unfold react, onSuccess, onFail, onTokenExpired, bind, ret.
    destruct (isTokenExpired r) eqn:HT, (isSuccess r) eqn:HS,
      (truthy (data r)) eqn:HD;
      repeat (progress (simpl; rewrite ?HT, ?HS, ?HD));
      try reflexivity;
      match goal with
      | |- context [c tt e] => destruct (c tt e) as [[[] | x] e']
      | |- context [a ?arg e] => destruct (a arg e) as [[[] | x] e']
      | |- context [b ?arg e] => destruct (b arg e) as [[[] | x] e']
      end;
      repeat (progress (simpl; rewrite ?HT, ?HS, ?HD)); reflexivity.
  - unfold calls, react, onSuccess, onFail, onTokenExpired, count_call, bind, modify, ret.
    destruct (isTokenExpired r) eqn:HT, (isSuccess r) eqn:HS, (truthy (data r)) eqn:HD;
      simpl; rewrite ?HT, ?HS, ?HD; simpl; rewrite ?HT; simpl; lia.
  - intros st tx d.
    unfold calls, react, onSuccess, onFail, onTokenExpired, count_call, bind, modify, ret.
    unfold new_ApiResponse; simpl.
    destruct (st =? 401) eqn:H401; simpl; rewrite ?H401; simpl.
    + apply Z.eqb_eq in H401. subst st. simpl. split; [discriminate | lia].
    + destruct ((st =? 200) || (st =? 201) || (st =? 204)) eqn:HS; simpl.
      * assert (st = 200 \/ st = 201 \/ st = 204) as Hst.
        { rewrite !orb_true_iff, !Z.eqb_eq in HS. tauto. }
        destruct (truthy d); simpl; rewrite ?H401, ?HS; simpl; rewrite ?H401; simpl.
        -- split; [discriminate | intros [_ ?]; discriminate].
        -- tauto.
      * rewrite ?H401; simpl.
        split; [discriminate |].
        intros [Hst _]. rewrite !orb_false_iff, !Z.eqb_neq in HS. lia.
Qed.

(** ** useApiClient: what [request] sends and returns *)

Section HookExtras.

Import UseApiClient.

Context {N E : Type}.
Variable serve : Request -> N -> FetchResult * N.
Variable REACT_APP_API_URL : option string.
Implicit Types (w : World N E) (_config : apiClientConfig E).

(** The interceptors and the method [request] ends up with. *)
Lemma hook_final_config _config w :
  let s1 := setUrlParams (local_config _config) w in
  let config := (set_Authorization (setQueryParams s1.1 s1.2) s1.2).1 in
  c_interceptor config = default [] (interceptor _config) /\
  c_method config = method _config.
Proof.
  cbn zeta.
  pose proof (hook_setUrlParams_frame (N:=N) (local_config _config) w) as F.
  cbn zeta in F. destruct F as (Fm & _ & _ & _ & Fi & _).
  set (s1 := setUrlParams (local_config _config) w) in *.
  pose proof (hook_setQueryParams_frame s1.1 s1.2) as Q.
  cbn zeta in Q. destruct Q as (Qm & _ & _ & _ & Qi).
  pose proof (hook_set_Authorization_frame (setQueryParams s1.1 s1.2) s1.2) as A.
  cbn zeta in A. destruct A as (Am & _ & _ & Ai).
  cbn [local_config c_method c_interceptor] in Fm, Fi.
  by rewrite Ai, Qi, Fi, Am, Qm, Fm.
Qed.

(** The headers object after the assignment of the Authorization entry,
    and what a copy of it holds: on a live reference, the caller's
    entries with the Authorization entry on top. *)
Lemma hook_final_headers _config w :
  (forall l, headers _config = Some l -> is_Some (header_objs w !! l)) ->
  let s1 := setUrlParams (local_config _config) w in
  let s2 := set_Authorization (setQueryParams s1.1 s1.2) s1.2 in
  let given :=
    match headers _config with
    | Some l => headers_at l w
    | None => {["Content-Type" := "application/json"]}
    end in
  let final :=
    if truthy_token (token _config)
    then <["Authorization" := "Bearer " +:+ default EmptyString (token _config)]> given
    else given in
  spread_headers s2.1 s2.2 = final /\
  header_objs s2.2 =
    match headers _config with
    | Some l => <[l := final]> (header_objs w)
    | None => header_objs w
    end.
Proof.
  intros Hlive. cbn zeta.
  pose proof (hook_setUrlParams_frame (N:=N) (local_config _config) w) as F.
  cbn zeta in F. destruct F as (_ & _ & Fh & Ft & _).
  pose proof (hook_setUrlParams_headers (local_config _config) w) as Fo.
  set (s1 := setUrlParams (local_config _config) w) in *.
  pose proof (hook_setQueryParams_frame s1.1 s1.2) as Q.
  cbn zeta in Q. destruct Q as (_ & _ & Qh & Qt & _).
  cbn [local_config c_headers c_token] in Fh, Ft.
  unfold set_Authorization, spread_headers. rewrite Qt, Ft, Qh, Fh.
  destruct (headers _config) as [l |] eqn:Hh.
  - destruct (Hlive l eq_refl) as [h Hl].
    destruct (truthy_token (token _config)); cbn [fst snd].
    + rewrite Qh, Fh. unfold set_header_at, headers_at.
      cbn [header_objs set_header_objs]. rewrite Fo, Hl. cbn [default from_option id].
      rewrite list_lookup_insert_eq by by eapply lookup_lt_Some. done.
    + rewrite Qh, Fh. unfold headers_at. rewrite Fo, Hl. cbn [default from_option id].
      by rewrite list_insert_id.
  - destruct (truthy_token (token _config)); cbn [fst snd c_headers set_headers];
      rewrite ?Qh, ?Fh; done.
Qed.

(** When the interceptors return, the answer of the remote end decides
    the result, and one request has gone out. *)
Lemma hook_request_outcome _config w :
  (run_interceptors (default [] (interceptor _config)) (caller w)).1 = Returned tt ->
  let s1 := setUrlParams (local_config _config) w in
  let s2 := set_Authorization (setQueryParams s1.1 s1.2) s1.2 in
  exists req w',
    sent w' = sent w ++ [req] /\ refreshes w' = refreshes w /\
    net w' = (serve req (net w)).2 /\
    req_method req = method _config /\
    req_headers req = spread_headers s2.1 s2.2 /\
    header_objs w' = header_objs s2.2 /\
    request serve REACT_APP_API_URL _config w =
      (Returned
         match (serve req (net w)).1 with
         | Responded st tx (Some d) => new_ApiResponse st tx d
         | _ => new_ApiResponse 500 "Internal Server Error!" VUndefined
         end, w').
Proof.
  intros Hrun. cbn zeta. rewrite hook_request_run. cbn zeta.
  pose proof (hook_final_config _config w) as (Hi & Hm). cbn zeta in Hi, Hm.
  rewrite Hi.
  destruct (run_interceptors _ (caller w)) as [[[] | err] e']; [| discriminate].
  cbn [fst snd].
  match goal with |- context [serve ?q (net w)] =>
    exists q,
      (mkWorld
         (heap (set_Authorization
                  (setQueryParams (setUrlParams (local_config _config) w).1
                     (setUrlParams (local_config _config) w).2)
                  (setUrlParams (local_config _config) w).2).2)
         (header_objs (set_Authorization
                  (setQueryParams (setUrlParams (local_config _config) w).1
                     (setUrlParams (local_config _config) w).2)
                  (setUrlParams (local_config _config) w).2).2)
         (serve q (net w)).2 (sent w ++ [q]) (refreshes w) e')
  end.
  cbn [sent refreshes net req_method req_headers header_objs].
  split; [done |]. split; [done |]. split; [done |]. split; [exact Hm |].
  split; [done |]. split; [done |].
  destruct (serve _ (net w)) as [[| st tx [d |]] n'];
    cbn [fst snd request_catch TypeError SyntaxError ret]; reflexivity.
Qed.

(** X2. The headers [request] sends, all of them: the entries of the
    caller's headers object if one is given, else the JSON content type
    alone, and on top of that [Authorization: Bearer <token>] when the
    token is a non-empty string.  So headers given by the caller replace
    the default content type instead of being merged with it, an empty or
    absent token adds no entry, and a token overrides an Authorization
    entry given by the caller.  The Authorization entry is written into
    the caller's own headers object, which holds the sent headers when
    the call returns; no other headers object changes. *)
Theorem hook_request_headers _config w :
  (run_interceptors (default [] (interceptor _config)) (caller w)).1 = Returned tt ->
  (forall l, headers _config = Some l -> is_Some (header_objs w !! l)) ->
  let given :=
    match headers _config with
    | Some l => headers_at l w
    | None => {["Content-Type" := "application/json"]}
    end in
  let final :=
    if truthy_token (token _config)
    then <["Authorization" := "Bearer " +:+ default EmptyString (token _config)]> given
    else given in
  let r := request serve REACT_APP_API_URL _config w in
  (exists req, sent r.2 = sent w ++ [req] /\ req_headers req = final) /\
  (forall k, k <> "Authorization" -> final !! k = given !! k) /\
  (truthy_token (token _config) = true ->
   final !! "Authorization" = Some ("Bearer " +:+ default EmptyString (token _config))) /\
  (truthy_token (token _config) = false -> final = given) /\
  (forall l, headers _config = Some l ->
     header_objs r.2 !! l = Some final /\
     (forall l', l' <> l -> header_objs r.2 !! l' = header_objs w !! l')) /\
  (headers _config = None -> header_objs r.2 = header_objs w).
Proof.
  intros Hrun Hlive. cbn zeta.
  destruct (hook_request_outcome _config w Hrun)
    as (req & w' & Hs & _ & _ & _ & Hh & Ho & Hr).
  pose proof (hook_final_headers _config w Hlive) as (Hf & Hj). cbn zeta in Hf, Hj.
  rewrite Hr. cbn [snd]. rewrite Ho, Hj. split; [| split; [| split; [| split; [| split]]]].
  - exists req. split; [exact Hs |]. by rewrite Hh, Hf.
  - intros k Hk. destruct (truthy_token (token _config)); [| done].
    by rewrite lookup_insert_ne.
  - intros ->. apply lookup_insert_eq.
  - by intros ->.
  - intros l Hl. rewrite Hl. destruct (Hlive l Hl) as [h Hlook]. split.
    + apply list_lookup_insert_eq. by eapply lookup_lt_Some.
    + intros l' Hne. by apply list_lookup_insert_ne.
  - by intros ->.
Qed.

(** X3. [request] hands every parsed answer back as it came: for any
    status, a 401 or a 500 included, the result is
    [ApiResponse(status, statusText, body)].  One request is sent; there
    is no refresh and no second try in the hook. *)
Theorem hook_request_passes_answer_through _config w (st : Z) (tx : string) (d : JsValue) :
  (run_interceptors (default [] (interceptor _config)) (caller w)).1 = Returned tt ->
  (forall req, (serve req (net w)).1 = Responded st tx (Some d)) ->
  let r := request serve REACT_APP_API_URL _config w in
  r.1 = Returned (new_ApiResponse st tx d) /\
  (exists req, sent r.2 = sent w ++ [req]) /\
  refreshes r.2 = refreshes w.
Proof.
  intros Hrun Hserve. cbn zeta.
  destruct (hook_request_outcome _config w Hrun)
    as (req & w' & Hs & Hc & _ & _ & _ & _ & Hr).
  rewrite Hr, Hserve. cbn [fst snd]. eauto.
Qed.

(** X4. An answer whose body is not JSON (an empty 204, an HTML error
    page) is reported by [request] as status 500 with the text "Internal
    Server Error!" and no data, whatever status the answer had. *)
Theorem hook_request_unparseable_body _config w (st : Z) (tx : string) :
  (run_interceptors (default [] (interceptor _config)) (caller w)).1 = Returned tt ->
  (forall req, (serve req (net w)).1 = Responded st tx None) ->
  let r := request serve REACT_APP_API_URL _config w in
  r.1 = Returned (new_ApiResponse 500 "Internal Server Error!" VUndefined) /\
  (exists req, sent r.2 = sent w ++ [req]).
Proof.
  intros Hrun Hserve. cbn zeta.
  destruct (hook_request_outcome _config w Hrun)
    as (req & w' & Hs & _ & _ & _ & _ & _ & Hr).
  rewrite Hr, Hserve. cbn [fst snd]. eauto.
Qed.

(** X5. Whatever happens, [request] makes at most one call to [fetch],
    never refreshes, runs the interceptors once, in order, up to the
    first that throws, and leaves the caller's state as they left it. *)
Theorem hook_request_single_fetch _config w :
  let r := request serve REACT_APP_API_URL _config w in
  (sent r.2 = sent w \/ exists req, sent r.2 = sent w ++ [req]) /\
  refreshes r.2 = refreshes w /\
  caller r.2 = (run_interceptors (default [] (interceptor _config)) (caller w)).2 /\
  ((run_interceptors (default [] (interceptor _config)) (caller w)).1 <> Returned tt ->
   sent r.2 = sent w /\ net r.2 = net w).
Proof.
  cbn zeta. rewrite hook_request_run. cbn zeta.
  pose proof (hook_final_config _config w) as (Hi & _). cbn zeta in Hi. rewrite Hi.
  pose proof (hook_setUrlParams_frame (N:=N) (local_config _config) w) as F.
  cbn zeta in F. destruct F as (_ & _ & _ & _ & _ & Fn & Fs & Fr & _).
  set (s1 := setUrlParams (local_config _config) w) in *.
  pose proof (hook_set_Authorization_world (setQueryParams s1.1 s1.2) s1.2)
    as (_ & An & As & Ar & _).
  cbn zeta in An, As, Ar.
  destruct (run_interceptors _ (caller w)) as [[[] | err] e']; cbn [fst snd].
  - destruct (serve _ (net w)) as [[| st tx [d |]] n']; cbn [fst snd];
      rewrite ?request_catch_state; cbn [sent refreshes caller set_caller];
      repeat split; eauto; done.
  - rewrite request_catch_state. cbn [sent refreshes caller net set_caller].
    rewrite As, Ar, An, Fs, Fr, Fn. repeat split; eauto.
Qed.

End HookExtras.

Lemma hook_request_headers_witness :
  let mine : gmap string string :=
    {["Accept" := "text/plain"; "Authorization" := "Basic abc"]} in
  let w := set_header_objs [mine] (world_of [user_params] []) in
  let r := UseApiClient.request scripted None
             (UseApiClient.mkApiClientConfig Http.get "/users/{id}" (Some O)
                (Some "secret") (Some O) None) w in
  (exists req,
     sent r.2 = [req] /\
     req_headers req = <["Authorization" := "Bearer secret"]> mine) /\
  header_objs w !! O = Some mine /\
  header_objs r.2 !! O = Some (<["Authorization" := "Bearer secret"]> mine).
Proof.
  cbn zeta.
  destruct (hook_request_headers scripted None
              (UseApiClient.mkApiClientConfig Http.get "/users/{id}" (Some O)
                 (Some "secret") (Some O) None)
              (set_header_objs [{["Accept" := "text/plain"; "Authorization" := "Basic abc"]}]
                 (world_of [user_params] [])) eq_refl)
    as (Hsent & _ & _ & _ & Hobj & _).
  { intros l [= <-]. by eexists. }
  split; [exact Hsent |]. split; [reflexivity |].
  exact (proj1 (Hobj O eq_refl)).
Defined.

Lemma hook_request_passes_answer_through_witness :
  (UseApiClient.request scripted None (users_get [tick])
     (world_of [user_params] [Responded 401 "Unauthorized" (Some (VStr "expired"))])).1
  = Returned (new_ApiResponse 401 "Unauthorized" (VStr "expired")).
Proof.
  exact (proj1 (hook_request_passes_answer_through scripted None (users_get [tick])
                  (world_of [user_params]
                     [Responded 401 "Unauthorized" (Some (VStr "expired"))])
                  401 "Unauthorized" (VStr "expired") eq_refl (fun _ => eq_refl))).
Defined.

Lemma hook_request_unparseable_body_witness :
  (UseApiClient.request scripted None (users_get [])
     (world_of [user_params] [Responded 204 "No Content" None])).1
  = Returned (new_ApiResponse 500 "Internal Server Error!" VUndefined).
Proof.
  exact (proj1 (hook_request_unparseable_body scripted None (users_get [])
                  (world_of [user_params] [Responded 204 "No Content" None])
                  204 "No Content" eq_refl (fun _ => eq_refl))).
Defined.

(** ** The fluent client: what [send] sends and returns *)

Section FluentExtras.

Import FluentClient.

Context {N E : Type}.
Variable serve : Request -> N -> FetchResult * N.
Variable REACT_APP_API_URL : option string.
Implicit Types (w : World N E) (this : ApiClient E) (s : St N E).

(** When the interceptors return, the answer of the remote end decides
    the result, and one request has gone out. *)
Lemma fluent_send_outcome this w :
  (run_interceptors (interceptor this) (caller w)).1 = Returned tt ->
  let s2 := setQueryParams (setUrlParams (this, w)) in
  let req := mkRequest (url s2.1) (httpMethod this) (headers this) (send_body s2) in
  let w' := mkWorld (heap s2.2) (header_objs s2.2) (serve req (net w)).2
              (sent w ++ [req]) (refreshes w)
              (run_interceptors (interceptor this) (caller w)).2 in
  send serve (this, w) =
    (Returned
       match (serve req (net w)).1 with
       | Responded st tx (Some d) => new_ApiResponse st tx d
       | _ => new_ApiResponse 500 "Internal Server Error" VUndefined
       end, (s2.1, w')).
Proof.
  intros Hrun. cbn zeta. rewrite fluent_send_run. cbn zeta.
  destruct (run_interceptors _ (caller w)) as [[[] | err] e']; [| discriminate].
  cbn [fst snd].
  destruct (serve _ (net w)) as [[| st tx [d |]] n'];
    cbn [fst snd send_catch TypeError SyntaxError ret]; reflexivity.
Qed.

(** X6. [send] hands every parsed answer back as it came, a 401
    included (it never refreshes and never sends twice), and reports an
    answer whose body is not JSON as status 500 "Internal Server Error"
    without data, whatever status the answer had. *)
Theorem fluent_send_passes_answer_through this w (st : Z) (tx : string)
  (body : option JsValue) :
  (run_interceptors (interceptor this) (caller w)).1 = Returned tt ->
  (forall req, (serve req (net w)).1 = Responded st tx body) ->
  let r := send serve (this, w) in
  r.1 = Returned match body with
                 | Some d => new_ApiResponse st tx d
                 | None => new_ApiResponse 500 "Internal Server Error" VUndefined
                 end /\
  (exists req, sent r.2.2 = sent w ++ [req]) /\
  refreshes r.2.2 = refreshes w.
Proof.
  intros Hrun Hserve. cbn zeta. rewrite (fluent_send_outcome this w Hrun). cbn zeta.
  rewrite Hserve. cbn [fst snd sent refreshes]. destruct body; eauto.
Qed.

(** X7. The request [send] dispatches carries the client's method and
    exactly the client's headers.  These start as the JSON content type
    alone; [setToken] sets [Authorization] to "Bearer " and the token and
    touches no other header; [addHeader] adds its headers and wins over
    the ones already there, so whichever of [setToken] and an
    [Authorization] passed to [addHeader] comes later decides. *)
Theorem fluent_send_headers this w (t : JsValue) (h : gmap string string)
  (k : string) (baseUrl : option string) :
  (run_interceptors (interceptor this) (caller w)).1 = Returned tt ->
  (exists req, sent (send serve (this, w)).2.2 = sent w ++ [req] /\
               req_headers req = headers this /\
               req_method req = httpMethod this) /\
  headers (new_ApiClient (E:=E) REACT_APP_API_URL baseUrl)
    = {["Content-Type" := "application/json"]} /\
  headers (setToken t this) !! "Authorization" = Some ("Bearer " +:+ ToString t) /\
  (k <> "Authorization" -> headers (setToken t this) !! k = headers this !! k) /\
  headers (addHeader h this) !! k =
    match h !! k with
    | Some v => Some v
    | None => headers this !! k
    end /\
  headers (setToken t (addHeader h this)) !! "Authorization"
    = Some ("Bearer " +:+ ToString t) /\
  (forall v, h !! "Authorization" = Some v ->
             headers (addHeader h (setToken t this)) !! "Authorization" = Some v).
Proof.
  intros Hrun. split; [| repeat split].
  - rewrite (fluent_send_outcome this w Hrun). cbn zeta. cbn [fst snd sent]. eauto.
  - cbn [setToken headers]. apply lookup_insert_eq.
  - intros Hk. cbn [setToken headers]. by apply lookup_insert_ne.
  - cbn [addHeader headers]. rewrite lookup_union.
    destruct (h !! k), (headers this !! k); reflexivity.
  - cbn [setToken headers]. apply lookup_insert_eq.
  - intros v Hv. cbn [addHeader setToken headers].
    by rewrite lookup_union, Hv, lookup_insert_eq.
Qed.

(** X8. A GET [send] writes the query string into the client's URL and
    drops the client's parameters, so a second [send] on the same client
    repeats the first request as it was: same URL with the same query
    string, same headers, no body. *)
Theorem fluent_get_resend_repeats_request this w (l : loc) :
  Http.is_get (httpMethod this) = true ->
  data this = Some l ->
  (run_interceptors (interceptor this) (caller w)).1 = Returned tt ->
  (run_interceptors (interceptor this)
     (run_interceptors (interceptor this) (caller w)).2).1 = Returned tt ->
  let first := send serve (this, w) in
  let second := send serve first.2 in
  data first.2.1 = None /\
  exists req,
    req_body req = None /\
    sent first.2.2 = sent w ++ [req] /\
    sent second.2.2 = sent w ++ [req; req].
Proof.
  intros Hget Hd Hrun1 Hrun2. cbn zeta.
  rewrite (fluent_send_outcome this w Hrun1). cbn zeta. cbn [fst snd].
  pose proof (fluent_setUrlParams_frame (this, w)) as F.
  cbn zeta in F. destruct F as (_ & Fm & Fd & Fh & _ & Fi & _).
  cbn [fst snd] in Fm, Fd, Fh, Fi.
  destruct (setUrlParams (this, w)) as [c1 w1] eqn:H1. cbn [fst snd] in *.
  assert (exists u, setQueryParams (c1, w1) = (set_data None (set_url u c1), w1))
    as [u ->].
  { unfold setQueryParams. rewrite Fd, Hd, Fm, Hget. cbn [negb]. eauto. }
  cbn [fst snd].
  set (c2 := set_data None (set_url u c1)).
  assert (data c2 = None) as Hd2 by reflexivity.
  assert (interceptor c2 = interceptor this) as Hi2 by exact Fi.
  assert (httpMethod c2 = httpMethod this) as Hm2 by exact Fm.
  assert (headers c2 = headers this) as Hh2 by exact Fh.
  split; [exact Hd2 |].
  match goal with |- context [sent w ++ [?q]] => exists q end.
  split; [unfold send_body; by rewrite Hd2 |]. split; [reflexivity |].
  match goal with |- context [send serve (c2, ?w2)] =>
    pose proof (fluent_send_outcome c2 w2) as Hsecond
  end.
  cbn [caller] in Hsecond. rewrite Hi2 in Hsecond. specialize (Hsecond Hrun2).
  cbn zeta in Hsecond. rewrite Hsecond. cbn [fst snd sent].
  unfold setUrlParams, setQueryParams. rewrite Hd2. cbn [fst snd].
  rewrite Hm2, Hh2. unfold send_body. rewrite Hd2.
  by rewrite <- app_assoc.
Qed.

(** X9. Interceptors run once per [send], in the order they were added,
    up to the first that throws: one added with [addInterceptor] runs
    after all the earlier ones, on the state they left, and not at all if
    one of them threw.  Nothing else in [send] touches the caller's
    state. *)
Theorem fluent_interceptors_run_in_order this w (i : Interceptor E) :
  caller (send serve (this, w)).2.2
    = (run_interceptors (interceptor this) (caller w)).2 /\
  caller (send serve (addInterceptor i this, w)).2.2
    = match run_interceptors (interceptor this) (caller w) with
      | (Returned _, e') => (i e').2
      | (Threw _, e') => e'
      end.
Proof.
  assert (forall c, caller (send serve (c, w)).2.2
                    = (run_interceptors (interceptor c) (caller w)).2) as Hcaller.
  { intros c. rewrite fluent_send_run. cbn zeta.
    destruct (run_interceptors _ (caller w)) as [[[] | err] e']; cbn [fst snd].
    - destruct (serve _ (net w)) as [[| st tx [d |]] n']; cbn [fst snd];
        by rewrite ?send_catch_state.
    - by rewrite send_catch_state. }
  split; [apply Hcaller |]. rewrite Hcaller. cbn [addInterceptor interceptor].
  generalize (caller w). unfold run_interceptors.
  induction (interceptor this) as [| j its IH]; intros e; simpl.
  - unfold bind, ret. by destruct (i e) as [[[] | err] e'].
  - unfold bind at 1. unfold bind in IH |- *.
    destruct (j e) as [[[] | err] e']; [apply IH | done].
Qed.

(** X10. On any status other than 401 [checkResponse] sends nothing and
    changes nothing: it returns [ApiResponse(status, statusText, body)]
    of the response it was given, and when that body is not JSON the
    parse error is thrown to the caller, not turned into a response. *)
Theorem fluent_checkResponse_other_status (response : Response) s :
  resp_status response <> 401 ->
  checkResponse serve REACT_APP_API_URL response s =
    (match resp_body response with
     | Some d => Returned (new_ApiResponse (resp_status response)
                             (resp_statusText response) d)
     | None => Threw SyntaxError
     end, s).
Proof.
  intros Hst. unfold checkResponse.
  rewrite (proj2 (Z.eqb_neq _ _) Hst).
  unfold bind, json. by destruct (resp_body response).
Qed.

End FluentExtras.

Lemma fluent_send_passes_answer_through_witness :
  (FluentClient.send scripted
     (users_client Http.get [tick],
      world_of [user_params] [Responded 401 "Unauthorized" (Some VNull)])).1
  = Returned (new_ApiResponse 401 "Unauthorized" VNull).
Proof.
  exact (proj1 (fluent_send_passes_answer_through scripted
                  (users_client Http.get [tick])
                  (world_of [user_params] [Responded 401 "Unauthorized" (Some VNull)])
                  401 "Unauthorized" (Some VNull) eq_refl (fun _ => eq_refl))).
Defined.

Lemma fluent_send_headers_witness :
  exists req,
    sent (FluentClient.send scripted
            (FluentClient.setToken (VStr "secret") (users_client Http.get [tick]),
             world_of [user_params] [])).2.2 = [req] /\
    req_headers req =
      FluentClient.headers (FluentClient.setToken (VStr "secret") (users_client Http.get [tick])) /\
    req_method req = Http.get.
Proof.
  exact (proj1 (fluent_send_headers scripted None
                  (FluentClient.setToken (VStr "secret") (users_client Http.get [tick]))
                  (world_of [user_params] []) VUndefined ∅ EmptyString None eq_refl)).
Defined.

Lemma fluent_get_resend_repeats_request_witness :
  let first := FluentClient.send scripted
                 (users_client Http.get [tick], world_of [user_params] []) in
  exists req,
    req_body req = None /\
    sent first.2.2 = [req] /\
    sent (FluentClient.send scripted first.2).2.2 = [req; req].
Proof.
  exact (proj2 (fluent_get_resend_repeats_request scripted
                  (users_client Http.get [tick]) (world_of [user_params] []) O
                  eq_refl eq_refl eq_refl eq_refl)).
Defined.

Lemma fluent_checkResponse_other_status_witness :
  FluentClient.checkResponse scripted None (mkResponse 204 "No Content" None)
    (orders_client, world_of [order_params] [])
  = (Threw SyntaxError, (orders_client, world_of [order_params] [])).
Proof.
  apply (fluent_checkResponse_other_status scripted None
           (mkResponse 204 "No Content" None)
           (orders_client, world_of [order_params] [])).
  discriminate.
Defined.

(** ** The fluent client: the refresh call and the retry *)

Lemma append_empty (s : string) : s +:+ EmptyString = s.
Proof.
  induction s as [| c s IH]; [reflexivity |].
  change (String c (s +:+ EmptyString) = String c s). by f_equal.
Qed.

Section FluentRefreshExtras.

Import FluentClient.

Context {N E : Type}.
Variable serve : Request -> N -> FetchResult * N.
Variable REACT_APP_API_URL : option string.
Implicit Types (w : World N E) (this : ApiClient E) (s : St N E).

(** The request of the refresh call, when the base URL holds no
    [{refreshToken}] token: a POST to the base URL itself, with the JSON
    content type as only header and [{refreshToken: 'refresh'}] as body. *)
Lemma fluent_refresh_call w :
  includes (default EmptyString REACT_APP_API_URL) "{refreshToken}" = false ->
  let w1 := alloc [("refreshToken", VStr "refresh")] (count_refresh w) in
  let req := mkRequest (default EmptyString REACT_APP_API_URL) Http.post
               {["Content-Type" := "application/json"]}
               (Some (JSON_stringify [("refreshToken", VStr "refresh")])) in
  exists c' w',
    send serve (refresh_client REACT_APP_API_URL w1.1, w1.2) =
      (Returned
         match (serve req (net w)).1 with
         | Responded st tx (Some d) => new_ApiResponse st tx d
         | _ => new_ApiResponse 500 "Internal Server Error" VUndefined
         end, (c', w')) /\
    sent w' = sent w ++ [req] /\ refreshes w' = Datatypes.S (refreshes w) /\
    caller w' = caller w /\ net w' = (serve req (net w)).2.
Proof.
  intros Hno. cbn zeta.
  set (o := [("refreshToken", VStr "refresh")]).
  set (w1 := (alloc o (count_refresh w)).2).
  set (payload := (alloc o (count_refresh w)).1).
  assert (heap w1 !! payload = Some o) as Hl.
  { subst w1 payload. cbn [alloc fst snd set_heap heap count_refresh].
    by rewrite lookup_app_r, Nat.sub_diag. }
  assert (url (refresh_client (E:=E) REACT_APP_API_URL payload)
          = default EmptyString REACT_APP_API_URL) as Hurl.
  { cbn. apply append_empty. }
  assert (setUrlParams (refresh_client REACT_APP_API_URL payload, w1)
          = (refresh_client REACT_APP_API_URL payload, w1)) as Hid.
  { apply (fluent_setUrlParams_identity _ _ payload o); [reflexivity | exact Hl |].
    rewrite Hurl. unfold no_placeholder. cbn [Object_keys map fst o].
    constructor; [exact Hno | constructor]. }
  rewrite (fluent_send_outcome serve (refresh_client REACT_APP_API_URL payload) w1 eq_refl).
  cbn zeta. rewrite Hid.
  assert (setQueryParams (refresh_client REACT_APP_API_URL payload, w1)
          = (refresh_client REACT_APP_API_URL payload, w1)) as -> by reflexivity.
  cbn [fst snd]. rewrite Hurl.
  assert (send_body (refresh_client REACT_APP_API_URL payload, w1)
          = Some (JSON_stringify o)) as ->.
  { unfold send_body. cbn [refresh_client setData set_data data httpMethod setUrl set_url
                             setMethod new_ApiClient Http.is_get negb].
    by rewrite (obj_at_lookup _ _ _ Hl). }
  eexists _, _. split; [reflexivity |]. done.
Qed.

(** X11. A 401 handed to [checkResponse] starts with one fixed request:
    a POST to the base URL with the body [{"refreshToken":"refresh"}] and
    the JSON content type as only header.  Nothing of the client (its
    token, URL, headers, parameters, interceptors) enters it.  At most
    one more request follows, the retry. *)
Theorem fluent_refresh_call_is_fixed (response : Response) this w :
  resp_status response = 401 ->
  includes (default EmptyString REACT_APP_API_URL) "{refreshToken}" = false ->
  exists rest,
    sent (checkResponse serve REACT_APP_API_URL response (this, w)).2.2 =
      sent w ++
      mkRequest (default EmptyString REACT_APP_API_URL) Http.post
        {["Content-Type" := "application/json"]}
        (Some (JSON_stringify [("refreshToken", VStr "refresh")])) :: rest /\
    (length rest <= 1)%nat.
Proof.
  intros H401 Hno.
  destruct (fluent_refresh_call w Hno) as (c' & w' & Hsend & Hs & _).
  cbn zeta in Hsend.
  unfold checkResponse. rewrite H401. change (401 =? 401) with true. cbv iota.
  unfold bind at 1. rewrite fluent_refresh_run. cbn zeta. rewrite Hsend. cbn [fst snd].
  destruct (negb _ || negb _); cbn [fst snd ret].
  - exists []. rewrite Hs. split; [done | simpl; lia].
  - unfold bind, modify. cbn [fst snd].
    match goal with |- context [send serve (?c, w')] =>
      pose proof (fluent_send_frame serve c w') as (_ & _ & _ & [Hsame | [q Hq]])
    end.
    + exists []. rewrite Hsame, Hs. split; [done | simpl; lia].
    + exists [q]. rewrite Hq, Hs, <- app_assoc. split; [done | simpl; lia].
Qed.


End FluentRefreshExtras.

Lemma fluent_refresh_call_is_fixed_witness :
  exists rest,
    sent (FluentClient.checkResponse scripted (Some "https://api.test")
            (mkResponse 401 "Unauthorized" None)
            (orders_client, world_of [order_params] [])).2.2 =
      mkRequest "https://api.test" Http.post {["Content-Type" := "application/json"]}
        (Some (JSON_stringify [("refreshToken", VStr "refresh")])) :: rest /\
    (length rest <= 1)%nat.
Proof.
  exact (fluent_refresh_call_is_fixed scripted (Some "https://api.test")
           (mkResponse 401 "Unauthorized" None) orders_client
           (world_of [order_params] []) eq_refl eq_refl).
Defined.


(** ** The axios client: what [send] sends and returns *)






(** *** Nesting depth *)





Section AxiosExtras.

Import AxiosClient.

Context {N : Type}.
Variable serve : AxiosRequestConfig -> N -> AxiosResult * N.
Variable REACT_APP_API_URL : option string.
Variable refreshTokenConfig : ApiConfig.
Implicit Types (w : AxWorld N) (this : ApiClient).










End AxiosExtras.


Section AxiosSendExtras.

Import AxiosClient.

Context {N : Type}.
Variable serve : AxiosRequestConfig -> N -> AxiosResult * N.
Variable REACT_APP_API_URL : option string.
Variable refreshTokenConfig : ApiConfig.
Implicit Types (w : AxWorld N) (this : ApiClient).

(** Handlers and retries only add to what has been sent. *)
Lemma axios_handlers_sent inst k p w p' w' :
  (forall req w1 p1 w2, inst req w1 = Some (p1, w2) ->
                        exists rest, ax_sent w2 = ax_sent w1 ++ rest) ->
  run_handlers serve REACT_APP_API_URL refreshTokenConfig inst k p w = Some (p', w') ->
  exists rest, ax_sent w' = ax_sent w ++ rest.
Proof.
  intros Hinst. revert p w. induction k as [| k IH]; intros p w; simpl.
  - intros [= _ ->]. exists []. by rewrite app_nil_r.
  - destruct p as [response | err].
    + apply IH.
    + unfold response_rejected.
      destruct err as [msg [response |] req |]; try apply IH.
      destruct (ar_status response =? 401); [| apply IH].
      pose proof (axios_refresh_frame serve REACT_APP_API_URL refreshTokenConfig w)
        as (_ & _ & Fs).
      cbn zeta in Fs.
      destruct (refreshAccessToken serve REACT_APP_API_URL refreshTokenConfig w)
        as [[ok newToken] w1]; simpl in Fs.
      destruct ok.
      * destruct (inst _ w1) as [[p1 w2] |] eqn:Hi; [| done].
        apply Hinst in Hi. destruct Hi as [r1 Hr1]. intros H.
        apply IH in H. destruct H as [r2 Hr2].
        exists ([refresh_request REACT_APP_API_URL refreshTokenConfig w] ++ r1 ++ r2).
        rewrite Hr2, Hr1, Fs. by rewrite <- !app_assoc.
      * intros H. apply IH in H. destruct H as [r2 Hr2].
        exists ([refresh_request REACT_APP_API_URL refreshTokenConfig w] ++ r2).
        rewrite Hr2, Fs. by rewrite <- !app_assoc.
Qed.

Lemma axios_instance_sent fuel k req w p w' :
  instance_request serve REACT_APP_API_URL refreshTokenConfig fuel k req w = Some (p, w') ->
  exists rest, ax_sent w' = ax_sent w ++ req :: rest.
Proof.
  revert req w p w'. induction fuel as [| fuel IH]; intros req w p w'; [done |].
  rewrite axios_instance_step. intros H.
  apply axios_handlers_sent in H.
  - destruct H as [rest Hrest]. exists rest. rewrite Hrest. cbn [ax_sent].
    by rewrite <- app_assoc.
  - intros req1 w1 p1 w2 H1. apply IH in H1. destruct H1 as [r Hr]. eauto.
Qed.

(** X14. The first request of [send] is the one built from the client:
    its URL is the substituted URL; with GET the parameter object goes
    out as [params] and there is no [data], with any other method it goes
    out as [data] and there are no [params]; the content type is the
    configured one; and there is an Authorization header, "Bearer " and
    the client's token, unless the config is token-less. *)
Theorem axios_send_first_request (fuel : nat) this w r this' w' :
  send serve REACT_APP_API_URL refreshTokenConfig fuel this w = Some (r, this', w') ->
  exists req rest,
    ax_sent w' = ax_sent w ++ req :: rest /\
    ax_url req = client_url this /\
    ax_method req = method (config this) /\
    (ax_data req, ax_params req) =
      (if Http.is_get (method (config this))
       then (None, Some (ax_obj_at (body this) w))
       else (Some (ax_obj_at (body this) w), None)) /\
    ax_headers req !! "Content-Type" = Some (contentType (config this)) /\
    ax_headers req !! "Authorization" =
      (if isTokenLess (config this) then None
       else Some ("Bearer " +:+ ToString (client_accessToken this))).
Proof.
  unfold send.
  destruct (instance_request _ _ _ _ _ _ w) as [[p w1] |] eqn:Hi; [| done].
  apply axios_instance_sent in Hi. destruct Hi as [rest Hrest].
  intros H. assert (w' = w1) as -> by (destruct p as [? | [? ? ? |]]; congruence).
  eexists _, rest. split; [exact Hrest |].
  unfold send_request.
  cbn [ax_url ax_method ax_data ax_params ax_headers setInterceptors config body
         client_url client_accessToken].
  repeat split.
  - by destruct (Http.is_get _).
  - destruct (isTokenLess _); [apply lookup_singleton_eq |].
    rewrite lookup_insert_ne by done. apply lookup_singleton_eq.
  - destruct (isTokenLess _); [by apply lookup_singleton_ne |].
    apply lookup_insert_eq.
Qed.

(** X15. The token a client sends: the one given to the constructor if
    it is truthy, else the stored access token, else the empty string;
    in the last case the header is still sent, as "Bearer " alone. *)
Theorem axios_constructor_token (cfg : ApiConfig) (l : loc) (givenToken : JsValue) w :
  isTokenLess cfg = false ->
  let built := new_ApiClient cfg l givenToken w in
  let req := send_request REACT_APP_API_URL (setInterceptors built.1) built.2 in
  (truthy givenToken = true ->
   ax_headers req !! "Authorization" = Some ("Bearer " +:+ ToString givenToken)) /\
  (truthy givenToken = false -> nullish (accessToken (userData w)) = false ->
   ax_headers req !! "Authorization" =
     Some ("Bearer " +:+ ToString (accessToken (userData w)))) /\
  (truthy givenToken = false -> nullish (accessToken (userData w)) = true ->
   ax_headers req !! "Authorization" = Some "Bearer ").
Proof.
  intros Hless. cbn zeta. unfold new_ApiClient.
  assert (userData (setUrlParams (url cfg) l w).2 = userData w) as Hu.
  { unfold setUrlParams. generalize (Object_keys (ax_obj_at l w)).
    intros keys. generalize (url cfg). revert w.
    induction keys as [| key keys IH]; intros w u; simpl; [done |].
    destruct (includes u (placeholder key)); [| apply IH].
    rewrite IH. done. }
  destruct (setUrlParams (url cfg) l w) as [u w1]. cbn [fst snd] in *.
  unfold send_request, getUserData.
  cbn [config setInterceptors client_accessToken ax_headers]. rewrite Hless, Hu.
  repeat split; intros Hg; rewrite Hg; [| intros Hn; rewrite Hn ..];
    by rewrite lookup_insert_eq.
Qed.

(** A rejection with a status other than 401 passes every handler as it
    is. *)
Lemma axios_handlers_other_status inst k msg response req w :
  ar_status response <> 401 ->
  run_handlers serve REACT_APP_API_URL refreshTokenConfig inst k
    (Rejected (AxiosError msg (Some response) req)) w =
  Some (Rejected (AxiosError msg (Some response) req), w).
Proof.
  intros Hst. induction k as [| k IH]; simpl; [done |].
  by rewrite (proj2 (Z.eqb_neq _ _) Hst).
Qed.

(** X16. An answer with a status outside 200 to 299 and other than 401
    comes back from [send] with that status, but with the message
    "Request failed with status code <status>" in place of the server's
    status text and without the server's body.  One request is sent and
    no refresh is made, however often the client has been used. *)
Theorem axios_send_error_status (fuel : nat) this w (st : Z) (tx : string) (d : JsValue) :
  let req := send_request REACT_APP_API_URL (setInterceptors this) w in
  (serve req (ax_net w)).1 = AxResponded st tx d ->
  (st < 200 \/ 300 <= st) ->
  st <> 401 ->
  exists this' w',
    send serve REACT_APP_API_URL refreshTokenConfig (Datatypes.S fuel) this w
      = Some (new_ApiResponse st (status_error_message st) VUndefined, this', w') /\
    ax_sent w' = ax_sent w ++ [req] /\
    ax_refreshes w' = ax_refreshes w /\
    userData w' = userData w.
Proof.
  cbn zeta. intros Hs Hrange H401. unfold send.
  rewrite axios_instance_step, Hs. cbn [settle].
  assert ((200 <=? st) && (st <? 300) = false) as ->.
  { apply andb_false_iff. destruct Hrange; [left; lia | right; lia]. }
  rewrite axios_handlers_other_status by done.
  eexists _, _. split; [reflexivity |]. done.
Qed.

(** A rejection that is no [AxiosError] passes every handler as it is. *)
Lemma axios_handlers_other_thrown inst k w :
  run_handlers serve REACT_APP_API_URL refreshTokenConfig inst k (Rejected OtherThrown) w =
  Some (Rejected OtherThrown, w).
Proof. induction k as [| k IH]; simpl; done. Qed.


End AxiosSendExtras.

Section AxiosRefreshExtras.

Import AxiosClient.

Context {N : Type}.
Variable serve : AxiosRequestConfig -> N -> AxiosResult * N.
Variable REACT_APP_API_URL : option string.
Variable refreshTokenConfig : ApiConfig.
Implicit Types (w : AxWorld N) (this : ApiClient).

(** A refresh that succeeds saves both tokens and reports the new access
    token. *)
Lemma axios_refresh_success w (st : Z) (tx : string) (d : JsValue) (n : N) :
  let rq := refresh_request REACT_APP_API_URL refreshTokenConfig w in
  serve rq (ax_net w) = (AxResponded st tx d, n) ->
  200 <= st < 300 ->
  truthy (get_prop d "accessToken") = true ->
  truthy (get_prop d "refreshToken") = true ->
  refreshAccessToken serve REACT_APP_API_URL refreshTokenConfig w =
    ((true, get_prop d "accessToken"),
     mkAxWorld (ax_heap w) n (ax_sent w ++ [rq]) (Datatypes.S (ax_refreshes w))
       (mkUserData (get_prop d "accessToken") (get_prop d "refreshToken"))
       (platform w)).
Proof.
  cbn zeta. intros Hs Hrange Ha Hr. unfold refreshAccessToken, dispatch.
  change (refresh_request REACT_APP_API_URL refreshTokenConfig (ax_count_refresh w))
    with (refresh_request REACT_APP_API_URL refreshTokenConfig w).
  cbn [ax_count_refresh ax_net] in *. rewrite Hs. cbn [settle].
  assert ((200 <=? st) && (st <? 300) = true) as ->.
  { apply andb_true_iff. split; lia. }
  cbn [ar_data]. destruct d; try discriminate Ha.
  cbn [nullish]. rewrite Ha, Hr. reflexivity.
Qed.

(** Handlers and retries never take a refresh back. *)
Lemma axios_handlers_refreshes inst k p w p' w' :
  (forall req w1 p1 w2, inst req w1 = Some (p1, w2) ->
                        (ax_refreshes w1 <= ax_refreshes w2)%nat) ->
  run_handlers serve REACT_APP_API_URL refreshTokenConfig inst k p w = Some (p', w') ->
  (ax_refreshes w <= ax_refreshes w')%nat.
Proof.
  intros Hinst. revert p w. induction k as [| k IH]; intros p w; simpl.
  - intros [= _ ->]. lia.
  - destruct p as [response | err].
    + apply IH.
    + unfold response_rejected.
      destruct err as [msg [response |] req |]; try apply IH.
      destruct (ar_status response =? 401); [| apply IH].
      pose proof (axios_refresh_frame serve REACT_APP_API_URL refreshTokenConfig w)
        as (_ & Fc & _).
      cbn zeta in Fc.
      destruct (refreshAccessToken serve REACT_APP_API_URL refreshTokenConfig w)
        as [[ok newToken] w1]; simpl in Fc.
      destruct ok.
      * destruct (inst _ w1) as [[p1 w2] |] eqn:Hi; [| done].
        apply Hinst in Hi. intros H. apply IH in H. lia.
      * intros H. apply IH in H. lia.
Qed.

Lemma axios_instance_refreshes fuel k req w p w' :
  instance_request serve REACT_APP_API_URL refreshTokenConfig fuel k req w = Some (p, w') ->
  (ax_refreshes w <= ax_refreshes w')%nat.
Proof.
  revert req w p w'. induction fuel as [| fuel IH]; intros req w p w'; [done |].
  rewrite axios_instance_step. intros H.
  apply axios_handlers_refreshes in H; [exact H |].
  intros req1 w1 p1 w2. apply IH.
Qed.

(** X18. On the first [send] of a client, a 401 followed by a refresh
    that succeeds (a status from 200 to 299 with truthy [accessToken] and
    [refreshToken]): the refresh call carries the stored refresh token,
    both new tokens are stored, and the request goes out again, changed
    only in its Authorization header, which now carries the new access
    token, also when the config is token-less.  From there the call goes
    on as a request of its own through the same instance; whatever the
    second try is answered, [send] does not return before these three
    requests have gone out.  When the second try is answered with a
    status other than 401, or gets no response, [send] returns what it
    returns for that answer on a first try, after three requests and one
    refresh.  When the second try is answered 401, [send] does not return
    before a second refresh has been made. *)
Theorem axios_send_refreshes_and_retries this w (tx : string) (d : JsValue)
  (st2 : Z) (tx2 : string) (d2 : JsValue) (n2 : N) :
  let req := send_request REACT_APP_API_URL (setInterceptors this) w in
  let rq := refresh_request REACT_APP_API_URL refreshTokenConfig w in
  let newToken := get_prop d2 "accessToken" in
  let newRefresh := get_prop d2 "refreshToken" in
  let retry :=
    mkAxiosRequestConfig (ax_baseURL req) (ax_url req) (ax_method req)
      (<["Authorization" := "Bearer " +:+ ToString newToken]> (ax_headers req))
      (ax_data req) (ax_params req) in
  let w2 :=
    mkAxWorld (ax_heap w) n2 (ax_sent w ++ [req; rq]) (Datatypes.S (ax_refreshes w))
      (mkUserData newToken newRefresh) (platform w) in
  let answer (st3 : Z) (tx3 : string) (d3 : JsValue) :=
    if (200 <=? st3) && (st3 <? 300) then
      match handleObject (stack_depth (platform w))
              (response_object
                 (mkAxiosResponse d3 st3 tx3 (adapter_headers (platform w))
                    (adapter_config (platform w)) (adapter_request (platform w)))) with
      | Some walked => new_ApiResponse st3 tx3 (get_prop walked "data")
      | None => new_ApiResponse 500 "Internal Server Error" VUndefined
      end
    else new_ApiResponse st3 (status_error_message st3) VUndefined in
  installed this = O ->
  (serve req (ax_net w)).1 = AxResponded 401 tx d ->
  serve rq (serve req (ax_net w)).2 = (AxResponded st2 tx2 d2, n2) ->
  200 <= st2 < 300 ->
  truthy newToken = true ->
  truthy newRefresh = true ->
  ax_data rq = Some [("refreshToken", refreshToken (userData w))] /\
  (forall fuel,
     instance_request serve REACT_APP_API_URL refreshTokenConfig (Datatypes.S fuel) 1 req w
     = instance_request serve REACT_APP_API_URL refreshTokenConfig fuel 1 retry w2) /\
  (forall fuel r this' w',
     send serve REACT_APP_API_URL refreshTokenConfig fuel this w = Some (r, this', w') ->
     (exists rest, ax_sent w' = ax_sent w ++ [req; rq; retry] ++ rest) /\
     (ax_refreshes w < ax_refreshes w')%nat) /\
  (forall fuel st3 tx3 d3,
     (serve retry n2).1 = AxResponded st3 tx3 d3 -> st3 <> 401 ->
     exists this' w',
       send serve REACT_APP_API_URL refreshTokenConfig
         (Datatypes.S (Datatypes.S fuel)) this w
         = Some (answer st3 tx3 d3, this', w') /\
       ax_sent w' = ax_sent w ++ [req; rq; retry] /\
       userData w' = mkUserData newToken newRefresh /\
       ax_refreshes w' = Datatypes.S (ax_refreshes w)) /\
  (forall fuel message,
     (serve retry n2).1 = AxNetworkError message ->
     exists this' w',
       send serve REACT_APP_API_URL refreshTokenConfig
         (Datatypes.S (Datatypes.S fuel)) this w
         = Some (new_ApiResponse 500 message VUndefined, this', w') /\
       ax_sent w' = ax_sent w ++ [req; rq; retry] /\
       userData w' = mkUserData newToken newRefresh /\
       ax_refreshes w' = Datatypes.S (ax_refreshes w)) /\
  (forall fuel tx3 d3 r this' w',
     (serve retry n2).1 = AxResponded 401 tx3 d3 ->
     send serve REACT_APP_API_URL refreshTokenConfig fuel this w = Some (r, this', w') ->
     (ax_refreshes w + 2 <= ax_refreshes w')%nat).
Proof.
  cbn zeta. intros Hk Hs Hrefresh Hr2 Ha Hr.
  set (req := send_request REACT_APP_API_URL (setInterceptors this) w) in *.
  set (rq := refresh_request REACT_APP_API_URL refreshTokenConfig w) in *.
  assert (forall fuel,
    instance_request serve REACT_APP_API_URL refreshTokenConfig (Datatypes.S fuel) 1 req w
    = instance_request serve REACT_APP_API_URL refreshTokenConfig fuel 1
        (set_Authorization (get_prop d2 "accessToken") req)
        (mkAxWorld (ax_heap w) n2 (ax_sent w ++ [req; rq]) (Datatypes.S (ax_refreshes w))
           (mkUserData (get_prop d2 "accessToken") (get_prop d2 "refreshToken"))
           (platform w))) as Hstep.
  { intros fuel. rewrite axios_instance_step, Hs. cbn [settle].
    change ((200 <=? 401) && (401 <? 300)) with false. cbv iota.
    cbn [run_handlers response_rejected ar_status].
    change (401 =? 401) with true. cbv iota.
    match goal with |- context [refreshAccessToken _ _ _ ?w1] =>
      rewrite (axios_refresh_success w1 st2 tx2 d2 n2 Hrefresh Hr2 Ha Hr)
    end.
    cbn [ax_heap ax_sent ax_refreshes platform].
    change (refresh_request REACT_APP_API_URL refreshTokenConfig _) with rq.
    rewrite <- app_assoc. cbn [app].
    by destruct (instance_request _ _ _ _ _ _ _) as [[p1 w3] |]. }
  assert (installed (setInterceptors this) = 1%nat) as Hone by (simpl; by rewrite Hk).
  split; [reflexivity |]. split; [exact Hstep |]. split; [| split; [| split]].
  - intros fuel r this' w'. unfold send. rewrite Hone.
    destruct fuel as [| fuel]; [done |]. rewrite Hstep.
    destruct (instance_request _ _ _ _ _ _ _) as [[p1 w3] |] eqn:Hi; [| done].
    pose proof (axios_instance_sent _ _ _ _ _ _ _ _ _ Hi) as [rest Hrest].
    pose proof (axios_instance_refreshes _ _ _ _ _ _ Hi) as Hmono.
    cbn [ax_sent ax_refreshes] in Hrest, Hmono.
    intros H. assert (w' = w3) as -> by (destruct p1 as [? | [? ? ? |]]; congruence).
    split; [| lia]. exists rest. rewrite Hrest. by rewrite <- !app_assoc.
  - intros fuel st3 tx3 d3 Hretry H401. unfold send. rewrite Hone, Hstep.
    rewrite axios_instance_step. cbn [ax_net platform]. unfold set_Authorization.
    rewrite Hretry. cbn [settle].
    destruct ((200 <=? st3) && (st3 <? 300)).
    + cbn [run_handlers platform]. unfold response_fulfilled.
      destruct (handleObject _ _) as [walked |];
        cbn [ar_status ar_statusText ar_data ax_sent userData ax_refreshes];
        eexists _, _; (split; [reflexivity |]); by rewrite <- !app_assoc.
    + rewrite axios_handlers_other_status by done.
      eexists _, _. split; [reflexivity |].
      cbn [ax_sent userData ax_refreshes]. by rewrite <- !app_assoc.
  - intros fuel message Hretry. unfold send. rewrite Hone, Hstep.
    rewrite axios_instance_step. cbn [ax_net platform]. unfold set_Authorization.
    rewrite Hretry. cbn [settle]. rewrite axios_handlers_no_response.
    eexists _, _. split; [reflexivity |].
    cbn [ax_sent userData ax_refreshes]. by rewrite <- !app_assoc.
  - intros fuel tx3 d3 r this' w' Hretry. unfold send. rewrite Hone.
    destruct fuel as [| fuel]; [done |]. rewrite Hstep.
    destruct fuel as [| fuel]; [done |].
    rewrite axios_instance_step. cbn [ax_net platform]. unfold set_Authorization.
    rewrite Hretry. cbn [settle].
    change ((200 <=? 401) && (401 <? 300)) with false. cbv iota.
    cbn [run_handlers response_rejected ar_status].
    change (401 =? 401) with true. cbv iota.
    match goal with |- context [refreshAccessToken _ _ _ ?w3] =>
      pose proof (axios_refresh_frame serve REACT_APP_API_URL refreshTokenConfig w3)
        as (_ & Fc & _);
      destruct (refreshAccessToken serve REACT_APP_API_URL refreshTokenConfig w3)
        as [[ok token] w4]
    end.
    cbn zeta in Fc. cbn [fst snd ax_refreshes] in Fc.
    destruct ok.
    + destruct (instance_request _ _ _ _ _ _ w4) as [[p1 w5] |] eqn:Hi; [| done].
      apply axios_instance_refreshes in Hi.
      intros H. assert (w' = w5) as -> by (destruct p1 as [? | [? ? ? |]]; congruence).
      lia.
    + intros [= _ _ <-]. lia.
Qed.

(** A 401 meets a failing refresh at every handler on the instance. *)
Lemma axios_handlers_failed_refresh inst k msg response req w :
  ar_status response = 401 ->
  (forall q n, axios_refresh_fails (serve q n).1 = true) ->
  exists w',
    run_handlers serve REACT_APP_API_URL refreshTokenConfig inst k
      (Rejected (AxiosError msg (Some response) req)) w
      = Some (Rejected (AxiosError msg (Some response) req), w') /\
    ax_refreshes w' = (ax_refreshes w + k)%nat /\
    userData w' = userData w.
Proof.
  intros H401 Hfail. revert w. induction k as [| k IH]; intros w.
  - exists w. simpl. repeat split. lia.
  - cbn [run_handlers response_rejected]. rewrite H401.
    change (401 =? 401) with true. cbv iota.
    pose proof (axios_refresh_failure serve REACT_APP_API_URL refreshTokenConfig w
                  (fun q => Hfail q (ax_net w))) as (Hr & Hu).
    pose proof (axios_refresh_frame serve REACT_APP_API_URL refreshTokenConfig w)
      as (_ & Hc & _).
    cbn zeta in Hr, Hu, Hc.
    destruct (refreshAccessToken serve REACT_APP_API_URL refreshTokenConfig w)
      as [[ok newToken] w1]. cbn [fst snd] in *. injection Hr as -> ->.
    destruct (IH w1) as (w' & Hrun & Hcount & Huser).
    exists w'. rewrite Hrun. split; [reflexivity |].
    rewrite Hcount, Huser, Hc, Hu. split; [lia | reflexivity].
Qed.

(** X19. Every [send] puts one more handler pair on the client's axios
    instance, and a 401 passes through all of them: on a client that has
    been sent [k] times before, a 401 whose refresh keeps failing costs
    [k + 1] refresh calls before the 401 comes back. *)
Theorem axios_reused_client_refreshes_per_handler (fuel : nat) this w
  (tx : string) (d : JsValue) :
  let req := send_request REACT_APP_API_URL (setInterceptors this) w in
  (serve req (ax_net w)).1 = AxResponded 401 tx d ->
  (forall q n, axios_refresh_fails (serve q n).1 = true) ->
  exists this' w',
    send serve REACT_APP_API_URL refreshTokenConfig (Datatypes.S fuel) this w
      = Some (new_ApiResponse 401 (status_error_message 401) VUndefined, this', w') /\
    installed this' = Datatypes.S (installed this) /\
    ax_refreshes w' = (ax_refreshes w + Datatypes.S (installed this))%nat /\
    userData w' = userData w.
Proof.
  cbn zeta. intros Hs Hfail. unfold send.
  rewrite axios_instance_step, Hs. cbn [settle].
  change ((200 <=? 401) && (401 <? 300)) with false. cbv iota.
  match goal with
  | |- context [run_handlers _ _ _ ?inst ?k (Rejected (AxiosError ?m (Some ?r) ?q)) ?w1] =>
    destruct (axios_handlers_failed_refresh inst k m r q w1 eq_refl Hfail)
      as (w' & Hrun & Hcount & Huser)
  end.
  rewrite Hrun. eexists _, _. split; [reflexivity |].
  split; [reflexivity |]. split; [exact Hcount | exact Huser].
Qed.

End AxiosRefreshExtras.

Lemma axios_send_first_request_witness :
  exists r this' w' req rest,
    AxiosClient.send ax_scripted None refresh_config 1
      (users_axios [fresh_tokens]).1 (users_axios [fresh_tokens]).2 = Some (r, this', w') /\
    AxiosClient.ax_sent w' = req :: rest /\
    AxiosClient.ax_url req = "/users/42" /\
    (AxiosClient.ax_data req, AxiosClient.ax_params req)
      = (None, Some [("active", VBool true)]) /\
    AxiosClient.ax_headers req !! "Authorization" = Some "Bearer access-1".
Proof.
  destruct (AxiosClient.send ax_scripted None refresh_config 1
              (users_axios [fresh_tokens]).1 (users_axios [fresh_tokens]).2)
    as [[[r this'] w'] |] eqn:Hsend; [| vm_compute in Hsend; discriminate].
  destruct (axios_send_first_request ax_scripted None refresh_config 1
              (users_axios [fresh_tokens]).1 (users_axios [fresh_tokens]).2
              r this' w' Hsend) as (req & rest & Hs & Hu & _ & Hd & _ & Ha).
  exists r, this', w', req, rest. split; [reflexivity |].
  split; [exact Hs |]. split; [exact Hu |]. split; [exact Hd | exact Ha].
Defined.

Lemma axios_constructor_token_witness :
  let built := AxiosClient.new_ApiClient users_config O (VStr EmptyString)
                 (AxiosClient.mkAxWorld [user_params] tt [] O
                    (AxiosClient.mkUserData VUndefined VUndefined) plain_platform) in
  AxiosClient.ax_headers
    (AxiosClient.send_request None (AxiosClient.setInterceptors built.1) built.2)
    !! "Authorization" = Some "Bearer ".
Proof.
  cbn zeta.
  destruct (axios_constructor_token None users_config O (VStr EmptyString)
              (AxiosClient.mkAxWorld [user_params] tt [] O
                 (AxiosClient.mkUserData VUndefined VUndefined) plain_platform) eq_refl)
    as (_ & _ & H).
  exact (H eq_refl eq_refl).
Defined.

Lemma axios_send_error_status_witness :
  exists this' w',
    AxiosClient.send ax_scripted None refresh_config 1
      (users_axios [AxiosClient.AxResponded 404 "Not Found" (VStr "no such user")]).1
      (users_axios [AxiosClient.AxResponded 404 "Not Found" (VStr "no such user")]).2
    = Some (new_ApiResponse 404 (AxiosClient.status_error_message 404) VUndefined,
            this', w') /\
    AxiosClient.ax_refreshes w' = O.
Proof.
  destruct (axios_send_error_status ax_scripted None refresh_config O
              (users_axios [AxiosClient.AxResponded 404 "Not Found" (VStr "no such user")]).1
              (users_axios [AxiosClient.AxResponded 404 "Not Found" (VStr "no such user")]).2
              404 "Not Found" (VStr "no such user") eq_refl)
    as (this' & w' & Hr & _ & Hc & _); [right; lia | lia |].
  exists this', w'. split; [exact Hr | exact Hc].
Defined.


Lemma axios_send_refreshes_and_retries_witness :
  let script := [AxiosClient.AxResponded 401 "Unauthorized" VNull; fresh_tokens;
                 AxiosClient.AxResponded 200 "OK" (VStr "done")] in
  exists this' w',
    AxiosClient.send ax_scripted None refresh_config 2
      (users_axios script).1 (users_axios script).2
      = Some (new_ApiResponse 200 "OK" (VStr "done"), this', w') /\
    AxiosClient.userData w'
      = AxiosClient.mkUserData (VStr "access-2") (VStr "refresh-2") /\
    map AxiosClient.ax_url (AxiosClient.ax_sent w')
      = ["/users/42"; "/auth/refresh"; "/users/42"] /\
    AxiosClient.ax_refreshes w' = 1%nat.
Proof.
  cbn zeta.
  destruct (axios_send_refreshes_and_retries ax_scripted None refresh_config
              (users_axios [AxiosClient.AxResponded 401 "Unauthorized" VNull; fresh_tokens;
                            AxiosClient.AxResponded 200 "OK" (VStr "done")]).1
              (users_axios [AxiosClient.AxResponded 401 "Unauthorized" VNull; fresh_tokens;
                            AxiosClient.AxResponded 200 "OK" (VStr "done")]).2
              "Unauthorized" VNull
              200 "OK"
              (VObj [("accessToken", VStr "access-2"); ("refreshToken", VStr "refresh-2")])
              [AxiosClient.AxResponded 200 "OK" (VStr "done")]
              eq_refl eq_refl eq_refl)
    as (_ & _ & _ & Hretry & _);
    [lia | reflexivity | reflexivity |].
  destruct (Hretry O 200 "OK" (VStr "done") eq_refl) as (this' & w' & Hr & Hs & Hu & Hc);
    [lia |].
  exists this', w'. split; [exact Hr |]. split; [exact Hu |].
  split; [rewrite Hs; reflexivity | exact Hc].
Defined.

Lemma axios_reused_client_refreshes_per_handler_witness :
  let built := AxiosClient.new_ApiClient users_config O VUndefined
                 (ax_world_of [user_params] tt) in
  exists this' w',
    AxiosClient.send always_unauthorized None refresh_config 1
      (AxiosClient.setInterceptors built.1) built.2
      = Some (new_ApiResponse 401 (AxiosClient.status_error_message 401) VUndefined,
              this', w') /\
    AxiosClient.ax_refreshes w' = 2%nat.
Proof.
  cbn zeta.
  destruct (axios_reused_client_refreshes_per_handler always_unauthorized None
              refresh_config O
              (AxiosClient.setInterceptors
                 (AxiosClient.new_ApiClient users_config O VUndefined
                    (ax_world_of [user_params] tt)).1)
              (AxiosClient.new_ApiClient users_config O VUndefined
                 (ax_world_of [user_params] tt)).2
              "Unauthorized" VNull eq_refl (fun _ _ => eq_refl))
    as (this' & w' & Hr & _ & Hc & _).
  exists this', w'. split; [exact Hr | exact Hc].
Defined.

(** ** Across the clients *)

(** X20. An interceptor that throws [null] or [undefined] is the one
    case in which [send] and [request] themselves throw: their [catch]
    clause reads a property of the thrown value, which raises a
    TypeError, and it is this TypeError that reaches the caller.  Nothing
    has been dispatched. *)
Theorem nullish_throw_escapes {N E : Type}
  (serve : Request -> N -> FetchResult * N) (REACT_APP_API_URL : option string)
  (_config : UseApiClient.apiClientConfig E) (this : FluentClient.ApiClient E)
  (w : World N E) :
  (run_interceptors (default [] (UseApiClient.interceptor _config)) (caller w)).1
    = Threw ThrownNullish ->
  (run_interceptors (FluentClient.interceptor this) (caller w)).1
    = Threw ThrownNullish ->
  (UseApiClient.request serve REACT_APP_API_URL _config w).1 = Threw TypeError /\
  sent (UseApiClient.request serve REACT_APP_API_URL _config w).2 = sent w /\
  (FluentClient.send serve (this, w)).1 = Threw TypeError /\
  sent (FluentClient.send serve (this, w)).2.2 = sent w.
Proof.
  intros Hhook Hfluent.
  assert ((UseApiClient.request serve REACT_APP_API_URL _config w).1 = Threw TypeError /\
          sent (UseApiClient.request serve REACT_APP_API_URL _config w).2 = sent w) as Hh.
  { rewrite hook_request_run. cbn zeta.
    pose proof (hook_final_config (N:=N) _config w) as (Hi & _). cbn zeta in Hi.
    rewrite Hi. clear Hfluent.
    pose proof (hook_setUrlParams_frame (N:=N) (UseApiClient.local_config _config) w) as F.
    cbn zeta in F. destruct F as (_ & _ & _ & _ & _ & _ & Fs & _).
    pose proof (hook_set_Authorization_world
                  (UseApiClient.setQueryParams
                     (UseApiClient.setUrlParams (UseApiClient.local_config _config) w).1
                     (UseApiClient.setUrlParams (UseApiClient.local_config _config) w).2)
                  (UseApiClient.setUrlParams (UseApiClient.local_config _config) w).2)
      as (_ & _ & As & _).
    cbn zeta in As.
    destruct (run_interceptors _ (caller w)) as [[[] | err] e']; [discriminate |].
    cbn [fst snd] in *. injection Hhook as ->.
    cbn [UseApiClient.request_catch throw fst snd sent set_caller]. by rewrite As, Fs. }
  split; [apply Hh |]. split; [apply Hh |].
  rewrite fluent_send_run. cbn zeta. clear Hhook Hh.
  pose proof (fluent_setUrlParams_frame (this, w)) as F1.
  pose proof (fluent_setQueryParams_frame (FluentClient.setUrlParams (this, w))) as F2.
  cbn zeta in F1, F2.
  destruct F1 as (_ & _ & _ & _ & _ & _ & _ & F1s & _).
  destruct F2 as (_ & _ & _ & _ & _ & F2w).
  destruct (run_interceptors _ (caller w)) as [[[] | err] e']; [discriminate |].
  cbn [fst snd] in *. injection Hfluent as ->.
  cbn [FluentClient.send_catch throw fst snd sent set_caller].
  by rewrite F2w, F1s.
Qed.

Lemma nullish_throw_escapes_witness :
  let w := world_of [user_params] [Responded 200 "OK" (Some VNull)] in
  (UseApiClient.request scripted None (users_get [tick; throw_null]) w).1
    = Threw TypeError /\
  (FluentClient.send scripted (users_client Http.get [tick; throw_null], w)).1
    = Threw TypeError.
Proof.
  cbn zeta.
  destruct (nullish_throw_escapes scripted None (users_get [tick; throw_null])
              (users_client Http.get [tick; throw_null])
              (world_of [user_params] [Responded 200 "OK" (Some VNull)])
              eq_refl eq_refl) as (Hh & _ & Hf & _).
  split; [exact Hh | exact Hf].
Defined.

(** X21. The three clients substitute path parameters alike: from the
    same URL template and the same parameter object, the hook, the fluent
    client and the constructor of the axios client arrive at the same URL
    and leave the same entries in the object. *)
Theorem clients_substitute_alike {N E NA : Type}
  (config : UseApiClient.Config E) (this : FluentClient.ApiClient E)
  (w : World N E) (aw : AxiosClient.AxWorld NA) (l : loc) (o : Obj) :
  UseApiClient.c_data config = Some l ->
  FluentClient.data this = Some l ->
  FluentClient.url this = UseApiClient.c_url config ->
  heap w !! l = Some o ->
  AxiosClient.ax_heap aw !! l = Some o ->
  let hook := UseApiClient.setUrlParams config w in
  let fluent := FluentClient.setUrlParams (this, w) in
  let axios := AxiosClient.setUrlParams (UseApiClient.c_url config) l aw in
  FluentClient.url fluent.1 = UseApiClient.c_url hook.1 /\
  axios.1 = UseApiClient.c_url hook.1 /\
  heap fluent.2 !! l = heap hook.2 !! l /\
  AxiosClient.ax_heap axios.2 !! l = heap hook.2 !! l.
Proof.
  intros Hd Hd' Hurl Hl Hal. cbn zeta.
  rewrite (hook_setUrlParams_substitute config w l o Hd Hl).
  rewrite (fluent_setUrlParams_substitute this w l o Hd' Hl).
  rewrite (axios_setUrlParams_substitute _ l aw o Hal).
  cbn [fst snd]. rewrite Hurl. cbn.
  repeat split.
  rewrite !list_lookup_insert_eq; [done | by eapply lookup_lt_Some ..].
Qed.

Lemma clients_substitute_alike_witness :
  let w := world_of [user_params] [] in
  FluentClient.url (FluentClient.setUrlParams (users_client Http.get [], w)).1
    = "/users/42" /\
  UseApiClient.c_url
    (UseApiClient.setUrlParams (UseApiClient.local_config (users_get [])) w).1
    = "/users/42".
Proof.
  cbn zeta.
  destruct (clients_substitute_alike
              (UseApiClient.local_config (users_get []))
              (users_client Http.get [])
              (world_of [user_params] [])
              (ax_world_of [user_params] tt) O user_params
              eq_refl eq_refl eq_refl eq_refl eq_refl) as (Hf & _).
  split; [rewrite Hf |]; vm_compute; reflexivity.
Defined.

(** X22. The constructor of the axios client leaves a template without
    placeholders alone: when no key of the parameter object has its
    [{key}] token in the URL, the client's URL is the template and the
    object is untouched. *)
Theorem axios_constructor_plain_template {NA : Type}
  (config : AxiosClient.ApiConfig) (l : loc) (givenToken : JsValue)
  (aw : AxiosClient.AxWorld NA) (o : Obj) :
  AxiosClient.ax_heap aw !! l = Some o ->
  no_placeholder (AxiosClient.url config) o ->
  let built := AxiosClient.new_ApiClient config l givenToken aw in
  AxiosClient.client_url built.1 = AxiosClient.url config /\
  built.2 = aw.
Proof.
  intros Hl Hno. cbn zeta. unfold AxiosClient.new_ApiClient.
  rewrite (axios_setUrlParams_substitute _ l aw o Hl).
  rewrite (substitute_no_placeholder _ _ _ Hno). cbn [fst snd AxiosClient.client_url].
  split; [reflexivity |].
  rewrite list_insert_id by done. apply set_ax_heap_id.
Qed.

Lemma axios_constructor_plain_template_witness :
  let aw := ax_world_of [order_params] tt in
  (AxiosClient.new_ApiClient
     (AxiosClient.mkApiConfig Http.post "/orders" "application/json" false)
     O VUndefined aw).2 = aw.
Proof.
  cbn zeta.
  apply (axios_constructor_plain_template
           (AxiosClient.mkApiConfig Http.post "/orders" "application/json" false)
           O VUndefined (ax_world_of [order_params] tt) order_params eq_refl).
  apply no_brace_no_placeholder. reflexivity.
Defined.
